(** * BINCOM_Solution: a shallow embedding of [solution.py]

    The Python module defines the class [BincomPythonTest] (colour statistics
    over a frequency table, a recursive binary search, a Fibonacci summer)
    and the free function [analyze_binary_sequence_puzzle].  Each function
    below is translated from its Python body; the Python built-ins it calls
    ([str.strip], [str.split], [str.upper], [list.sort], [Counter],
    [Counter.most_common], the division of two [int]s,
    [statistics.variance]) are modelled in the modules [PyStr], [PyList],
    [PyCounter] and [PyFloat] after CPython's behaviour.

    Conventions:
    - Python [int] is [Z] (unbounded);
    - Python [str] is [string], each [ascii] read as one code point of the
      range 0..255; [str.isspace] and [str.upper] are CPython's on that
      range, and since [str.upper] can leave it, an upper-cased string is
      a list of code points;
    - Python [float] is an IEEE 754 binary64 number, a [spec_float] with
      the precision [prec] = 53 and the exponent bound [emax] = 1024;
    - a raised exception is a value [Raise e] of [result];
    - a Python [dict]/[Counter] is an association list in insertion order,
      which is the iteration order CPython guarantees. *)

From Stdlib Require Import ZArith NArith QArith Qpower List String Ascii.
From Stdlib Require Import Bool Lia.
From Stdlib Require Import Sorted Permutation Floats.
From Equations Require Import Equations.
Import ListNotations.

Local Open Scope string_scope.
Local Open Scope Z_scope.

(** ** Exceptions *)

Inductive exn : Type :=
| IndexError
| ZeroDivisionError
| OverflowError
| AttributeError
| StatisticsError.

Inductive result (A : Type) : Type :=
| Ok (a : A)
| Raise (e : exn).

Arguments Ok {A} a.
Arguments Raise {A} e.

Definition bind {A B : Type} (r : result A) (k : A -> result B) : result B :=
  match r with
  | Ok a => k a
  | Raise e => Raise e
  end.

Notation "x <- r ;; k" := (bind r (fun x => k))
  (at level 61, r at next level, right associativity).

(** ** Python lists *)

Module PyList.

(** [len(l)] *)
Definition len {A : Type} (l : list A) : Z := Z.of_nat (List.length l).

(** [l[i]]: a negative index counts from the end, an index outside
    [-len, len) raises [IndexError]. *)
Definition getitem {A : Type} (l : list A) (i : Z) : result A :=
  let n := len l in
  let j := if i <? 0 then i + n else i in
  if (0 <=? j) && (j <? n) then
    match nth_error l (Z.to_nat j) with
    | Some x => Ok x
    | None => Raise IndexError
    end
  else Raise IndexError.

(** [range(lo, hi)], empty when [hi <= lo] *)
Definition range (lo hi : Z) : list Z :=
  map (fun k => lo + Z.of_nat k) (seq 0 (Z.to_nat (hi - lo))).

(** [[x] * n], empty when [n <= 0] *)
Definition mul {A : Type} (x : A) (n : Z) : list A := repeat x (Z.to_nat n).

(** [l.sort()] on a list of [str]: ascending in the code-point
    lexicographic order [String.leb].  CPython sorts by a stable merge sort;
    the model inserts one element at a time, also stable.  Theorem
    [sort_unique] shows that the order alone fixes the result. *)
Fixpoint insert (x : string) (l : list string) : list string :=
  match l with
  | [] => [x]
  | y :: l' => if String.ltb x y then x :: l else y :: insert x l'
  end.

Definition sort (l : list string) : list string :=
  fold_left (fun acc x => insert x acc) l [].

End PyList.

(** ** Python strings *)

Module PyStr.

(** [len(s)] *)
Definition len (s : string) : Z := Z.of_nat (String.length s).

(** [bool(s)]: a string is true when it is not empty *)
Definition truthy (s : string) : bool :=
  match s with
  | EmptyString => false
  | String _ _ => true
  end.

(** [c.isspace()], the test of [str.strip()], on the code points below
    256: TAB, LF, VT, FF, CR, the separators 0x1c..0x1f, the space, the
    next-line control 0x85 and the no-break space 0xa0. *)
Definition isspace (c : ascii) : bool :=
  let n := N_of_ascii c in
  (((9 <=? n) && (n <=? 13)) || ((28 <=? n) && (n <=? 32))
   || (n =? 133) || (n =? 160))%N.

Fixpoint lstrip (s : string) : string :=
  match s with
  | EmptyString => EmptyString
  | String c s' => if isspace c then lstrip s' else s
  end.

Fixpoint rstrip (s : string) : string :=
  match s with
  | EmptyString => EmptyString
  | String c s' =>
      match rstrip s' with
      | EmptyString => if isspace c then EmptyString else String c EmptyString
      | r => String c r
      end
  end.

(** [s.strip()] *)
Definition strip (s : string) : string := rstrip (lstrip s).

(** [s.split(sep)] for a one-character separator; never empty *)
Fixpoint split (sep : ascii) (s : string) : list string :=
  match s with
  | EmptyString => [EmptyString]
  | String c s' =>
      if Ascii.eqb c sep then EmptyString :: split sep s'
      else match split sep s' with
           | [] => [String c EmptyString]
           | w :: ws => String c w :: ws
           end
  end.

(** The code points of a string *)
Definition code_points (s : string) : list N :=
  map N_of_ascii (list_ascii_of_string s).

(** The string that has the given code points, if they are all below 256 *)
Fixpoint of_code_points (points : list N) : option string :=
  match points with
  | [] => Some EmptyString
  | n :: points' =>
      if (n <? 256)%N then
        match of_code_points points' with
        | Some s => Some (String (ascii_of_N n) s)
        | None => None
        end
      else None
  end.

(** The upper-case form of one code point below 256, by Unicode's full
    case mapping: the letters a..z and 0xe0..0xfe (without the division
    sign 0xf7) move down by 32, the micro sign 0xb5 becomes the Greek
    capital mu U+039C, the sharp s 0xdf becomes "SS", the y with diaeresis
    0xff becomes U+0178; every other code point is kept. *)
Definition upper_char (c : ascii) : list N :=
  let n := N_of_ascii c in
  (if (97 <=? n) && (n <=? 122) then [n - 32]
   else if n =? 181 then [924]
   else if n =? 223 then [83; 83]
   else if (224 <=? n) && (n <=? 254) && negb (n =? 247) then [n - 32]
   else if n =? 255 then [376]
   else [n])%N.

(** [s.upper()], as code points *)
Definition upper (s : string) : list N :=
  flat_map upper_char (list_ascii_of_string s).

(** [s[i:j]]: negative bounds count from the end, both are clamped *)
Definition slice (s : string) (i j : Z) : string :=
  let n := len s in
  let clamp k := if k <? 0 then Z.max 0 (k + n) else Z.min k n in
  let i := clamp i in
  let j := clamp j in
  String.substring (Z.to_nat i) (Z.to_nat (j - i)) s.

(** [s * n] *)
Definition mul (s : string) (n : Z) : string :=
  String.concat "" (repeat s (Z.to_nat n)).

End PyStr.

(** ** [collections.Counter] *)

Module PyCounter.

(** Entries in insertion order: the order [items()], [values()] and
    [most_common] see. *)
Definition t : Type := list (string * Z).

(** [c.get(key, default)] *)
Fixpoint get (c : t) (key : string) (default : Z) : Z :=
  match c with
  | [] => default
  | (k, v) :: c' => if String.eqb k key then v else get c' key default
  end.

(** [c.get(key, default)] for a key given by its code points.  A key with
    a code point above 255 is not a [string] of this model and equals no
    key of the table. *)
Definition get_key (c : t) (key : list N) (default : Z) : Z :=
  match PyStr.of_code_points key with
  | Some k => get c k default
  | None => default
  end.

(** [c[key] = v]: a present key keeps its place, a new key goes last *)
Fixpoint set (c : t) (key : string) (v : Z) : t :=
  match c with
  | [] => [(key, v)]
  | (k, v0) :: c' =>
      if String.eqb k key then (k, v) :: c' else (k, v0) :: set c' key v
  end.

(** One turn of the counting loop: [self[elem] = self.get(elem, 0) + 1] *)
Definition count_one (c : t) (elem : string) : t :=
  set c elem (get c elem 0 + 1).

(** [Counter(iterable)]: the counting loop over [iterable], from the empty
    table *)
Definition Counter (iterable : list string) : t :=
  fold_left count_one iterable [].

(** [c.values()] *)
Definition values (c : t) : list Z := map snd c.

(** [max(items, key=itemgetter(1))]: the running maximum is replaced only
    by a strictly larger count, so the first maximal entry wins. *)
Definition max_by_count (first : string * Z) (rest : list (string * Z))
  : string * Z :=
  fold_left (fun best item => if snd item >? snd best then item else best)
            rest first.

(** [c.most_common(1)], that is [heapq.nlargest(1, c.items(), key=count)] *)
Definition most_common_1 (c : t) : list (string * Z) :=
  match c with
  | [] => []
  | first :: rest => [max_by_count first rest]
  end.

End PyCounter.

(** ** Python floats and integer division

    [a / b] on two [int]s is CPython's [long_true_divide]: the exact
    quotient of the two integers, whatever their size, rounded once to the
    nearest double with ties to even; [ZeroDivisionError] when [b] is 0,
    [OverflowError] when the rounded quotient is too large for a double.
    [SFdiv] is that rounded quotient; the integers enter it exactly, as a
    sign and a magnitude with the exponent 0. *)

Module PyFloat.

Definition operand (z : Z) : spec_float :=
  match z with
  | Z0 => S754_zero false
  | Zpos p => S754_finite false p 0
  | Zneg p => S754_finite true p 0
  end.

Definition truediv (a b : Z) : result spec_float :=
  if b =? 0 then Raise ZeroDivisionError
  else
    match SFdiv prec emax (operand a) (operand b) with
    | S754_infinity _ => Raise OverflowError
    | quotient => Ok quotient
    end.

End PyFloat.

(** ** [statistics.variance] on integers

    The result is an [int] or a [float]. *)
Inductive number : Type :=
| Int (z : Z)
| Float (f : spec_float).

(** [statistics._convert(value, int)] on a [Fraction], which is kept in
    lowest terms: the [int] when the denominator is 1, and otherwise
    [float(value)], that is [numerator / denominator]. *)
Definition _convert (value : Q) : result number :=
  if Zpos (Qden value) =? 1 then Ok (Int (Qnum value))
  else
    f <- PyFloat.truediv (Qnum value) (Zpos (Qden value)) ;;
    Ok (Float f).

(** CPython (3.11 and later) accumulates [count], [sx] (the sum) and [sxx]
    (the sum of squares) exactly, takes [ssd = (count*sxx - sx*sx) / count]
    as a [Fraction] and returns [_convert(ssd / (count - 1), int)]; fewer
    than two data points raise [StatisticsError]. *)
Definition statistics_variance (data : list Z) : result number :=
  let count := PyList.len data in
  let sx := fold_left Z.add data 0 in
  let sxx := fold_left (fun acc x => acc + x * x) data 0 in
  if count <? 2 then Raise StatisticsError
  else
    let ssd := (inject_Z (count * sxx - sx * sx) / inject_Z count)%Q in
    _convert (Qred (ssd / inject_Z (count - 1))).

(** ** The class [BincomPythonTest] *)

(** The instance attributes.  [html_file] is the path given to [__init__],
    [color_counter] is [None] until [load_data] has run. *)
Record BincomPythonTest : Type := {
  html_file : option string;
  colors : list string;
  color_counter : option PyCounter.t
}.

(** [__init__(self, html_file=None)] *)
Definition __init__ (html_file : option string) : BincomPythonTest :=
  {| html_file := html_file; colors := []; color_counter := None |}.

(** [_clean_colors]: fix the two known typos, skip empty strings *)
Definition _clean_colors (color_list : list string) : list string :=
  fold_left
    (fun cleaned_colors color =>
       let color :=
         if String.eqb color "BLEW" then "BLUE"
         else if String.eqb color "ARSH" then "ASH"
         else color in
       if PyStr.truthy color then (cleaned_colors ++ [color])%list
       else cleaned_colors)
    color_list [].

(** The loop shared by both extractors: split each row's colour string at
    the commas, strip every piece, collect, then clean. *)
Definition collect_colors (rows : list (string * string)) : list string :=
  let all_colors :=
    fold_left
      (fun all_colors '(day, colors_str) =>
         let colors := map PyStr.strip (PyStr.split "," colors_str) in
         (all_colors ++ colors)%list)
      rows [] in
  _clean_colors all_colors.

(** [extract_colors_from_file].  Opening the file and matching the row
    pattern are outside the model: [read_rows] gives the (day, colours)
    pairs that [re.findall] returns for a path, or the exception raised. *)
Definition extract_colors_from_file
    (read_rows : string -> result (list (string * string)))
    (file_path : string) : result (list string) :=
  matches <- read_rows file_path ;;
  Ok (collect_colors matches).

Definition color_data : list (string * string) :=
  [ ("MONDAY", "GREEN, YELLOW, GREEN, BROWN, BLUE, PINK, BLUE, YELLOW, ORANGE, CREAM, ORANGE, RED, WHITE, BLUE, WHITE, BLUE, BLUE, BLUE, GREEN");
    ("TUESDAY", "ARSH, BROWN, GREEN, BROWN, BLUE, BLUE, BLEW, PINK, PINK, ORANGE, ORANGE, RED, WHITE, BLUE, WHITE, WHITE, BLUE, BLUE, BLUE");
    ("WEDNESDAY", "GREEN, YELLOW, GREEN, BROWN, BLUE, PINK, RED, YELLOW, ORANGE, RED, ORANGE, RED, BLUE, BLUE, WHITE, BLUE, BLUE, WHITE, WHITE");
    ("THURSDAY", "BLUE, BLUE, GREEN, WHITE, BLUE, BROWN, PINK, YELLOW, ORANGE, CREAM, ORANGE, RED, WHITE, BLUE, WHITE, BLUE, BLUE, BLUE, GREEN");
    ("FRIDAY", "GREEN, WHITE, GREEN, BROWN, BLUE, BLUE, BLACK, WHITE, ORANGE, RED, RED, RED, WHITE, BLUE, WHITE, BLUE, BLUE, BLUE, WHITE") ].

(** [extract_colors_from_hardcoded] *)
Definition extract_colors_from_hardcoded : list string :=
  collect_colors color_data.

(** [load_data]: returns the updated instance and [len(self.colors)].  A
    path that is [None] or empty is false in Python; any exception of the
    file extractor falls back to the hard-coded data. *)
Definition load_data
    (read_rows : string -> result (list (string * string)))
    (self : BincomPythonTest) : BincomPythonTest * Z :=
  let colors :=
    match html_file self with
    | Some path =>
        if PyStr.truthy path then
          match extract_colors_from_file read_rows path with
          | Ok colors => colors
          | Raise _ => extract_colors_from_hardcoded
          end
        else extract_colors_from_hardcoded
    | None => extract_colors_from_hardcoded
    end in
  ({| html_file := html_file self;
      colors := colors;
      color_counter := Some (PyCounter.Counter colors) |},
   PyList.len colors).

(** An attribute access on [self.color_counter] while it is still [None] *)
Definition the_counter (self : BincomPythonTest) : result PyCounter.t :=
  match color_counter self with
  | Some c => Ok c
  | None => Raise AttributeError
  end.

(** [get_most_common_color] *)
Definition get_most_common_color (self : BincomPythonTest)
  : result (string * Z) :=
  c <- the_counter self ;;
  let most_common := PyCounter.most_common_1 c in
  PyList.getitem most_common 0.

(** [get_median_color] *)
Definition get_median_color (self : BincomPythonTest) : result string :=
  c <- the_counter self ;;
  let expanded_colors :=
    fold_left
      (fun expanded_colors '(color, freq) =>
         (expanded_colors ++ PyList.mul color freq)%list)
      c [] in
  let expanded_colors := PyList.sort expanded_colors in
  let n := PyList.len expanded_colors in
  let middle_idx := n / 2 in
  PyList.getitem expanded_colors middle_idx.

(** [get_color_variance] *)
Definition get_color_variance (self : BincomPythonTest) : result number :=
  c <- the_counter self ;;
  let frequencies := PyCounter.values c in
  if PyList.len frequencies >? 1 then statistics_variance frequencies
  else Ok (Int 0).

(** [get_color_probability] *)
Definition get_color_probability (self : BincomPythonTest)
    (target_color : string) : result spec_float :=
  c <- the_counter self ;;
  let target_count := PyCounter.get_key c (PyStr.upper target_color) 0 in
  PyFloat.truediv target_count (PyList.len (colors self)).

(** ** [BincomPythonTest.recursive_search] *)

(** The body of [recursive_search] once [end] is an integer: the recursive
    calls of the Python function always pass an integer [end]. *)
Equations? search_range (numbers : list Z) (target start end_ : Z) : result Z
  by wf (Z.to_nat (end_ - start + 1)) lt :=
  search_range numbers target start end_ with Z_gt_dec start end_ => {
    | left _ := Ok (-1);
    | right _ with PyList.getitem numbers ((start + end_) / 2) => {
        | Raise e := Raise e;
        | Ok x with x =? target => {
            | true := Ok ((start + end_) / 2);
            | false with x >? target => {
                | true :=
                    search_range numbers target start ((start + end_) / 2 - 1);
                | false :=
                    search_range numbers target ((start + end_) / 2 + 1) end_
              } } } }.
Proof.
  all: assert (start <= (start + end_) / 2 <= end_)
         by (split;
             [apply Z.div_le_lower_bound | apply Z.div_le_upper_bound]; lia);
       lia.
Qed.

(** [recursive_search(numbers, target, start=0, end=None)]; an omitted
    argument is [None]. *)
Definition recursive_search (numbers : list Z) (target : Z)
    (start : option Z) (end_ : option Z) : result Z :=
  let start := match start with Some s => s | None => 0 end in
  let end_ :=
    match end_ with Some e => e | None => PyList.len numbers - 1 end in
  search_range numbers target start end_.


(** [demo_list] of [run_analysis]:
    [sorted([13, 42, 7, 29, 56, 81, 23, 36, 91, 5])] *)
Definition demo_list : list Z := [5; 7; 13; 23; 29; 36; 42; 56; 81; 91].

(** ** [BincomPythonTest.sum_fibonacci] *)

(** One turn of the loop body: [a, b = b, a + b; total_sum += b] *)
Definition fib_step (st : Z * Z * Z) : Z * Z * Z :=
  let '(a, b, total_sum) := st in
  let '(a, b) := (b, a + b) in
  (a, b, total_sum + b).

(** [sum_fibonacci(n=50)]; an omitted argument is [None]. *)
Definition sum_fibonacci (n : option Z) : Z :=
  let n := match n with Some n => n | None => 50 end in
  if n <=? 0 then 0
  else
    let '(_, _, total_sum) :=
      fold_left (fun st _ => fib_step st) (PyList.range 2 (n + 1)) (0, 1, 1) in
    total_sum.

(** ** [analyze_binary_sequence_puzzle] *)

Definition input_sequence : string := "0101101011101011011101101000111".
Definition output_sequence : string := "0000000000100000000100000000001".

(** The rule check, as a function of the input string the loop reads *)
Definition calculated_output (input_sequence : string) : string :=
  let calculated_output :=
    fold_left
      (fun calculated_output i =>
         let window := PyStr.slice input_sequence i (i + 3) in
         if String.eqb window "111" then calculated_output ++ "1"
         else calculated_output ++ "0")
      (PyList.range 0 (PyStr.len input_sequence - 2)) "" in
  calculated_output ++ PyStr.mul "0" 2.

(** What the function prints on its last two lines: the computed string and
    whether it equals the expected one. *)
Definition analyze_binary_sequence_puzzle : string * bool :=
  let calculated_output := calculated_output input_sequence in
  (calculated_output, String.eqb calculated_output output_sequence).

(** ** [BincomPythonTest.generate_binary_and_convert] *)

(** [int(s, 2)] on a non-empty string of the digits 0 and 1, read from the
    most significant digit.  [None] stands for every other string: the
    signs, blanks, underscores and the 0b prefix that Python also reads
    are outside this model. *)
Fixpoint int_digits (acc : Z) (s : string) : option Z :=
  match s with
  | EmptyString => Some acc
  | String c s' =>
      if Ascii.eqb c "0" then int_digits (2 * acc) s'
      else if Ascii.eqb c "1" then int_digits (2 * acc + 1) s'
      else None
  end.

Definition int_base2 (s : string) : option Z :=
  match s with
  | EmptyString => None
  | String _ _ => int_digits 0 s
  end.

(** [generate_binary_and_convert].  [random.choice(['0', '1'])] returns the
    element at a drawn index, 0 or 1; [draws i] tells whether the call of
    turn [i] of the comprehension drew index 1. *)
Definition generate_binary_and_convert (draws : Z -> bool)
  : string * option Z :=
  let binary_digits :=
    map (fun i => if draws i then "1" else "0") (PyList.range 0 4) in
  let binary_str := String.concat "" binary_digits in
  let decimal_value := int_base2 binary_str in
  (binary_str, decimal_value).

(** ** The distribution listing of [run_analysis] *)

(** [sorted(items, key=lambda x: x[1], reverse=True)]: descending by count;
    Python's sort is stable also with [reverse=True], so entries with equal
    counts keep their order.  Each item is put behind every item already
    placed whose count is at least its own. *)
Fixpoint insert_by_count (item : string * Z) (l : list (string * Z))
  : list (string * Z) :=
  match l with
  | [] => [item]
  | y :: l' =>
      if snd item >? snd y then item :: l else y :: insert_by_count item l'
  end.

Definition sorted_by_count (items : list (string * Z)) : list (string * Z) :=
  fold_left (fun acc item => insert_by_count item acc) items [].

(** The (color, count) pairs in the order [run_analysis] prints them under
    "Color distribution:". *)
Definition color_distribution (self : BincomPythonTest)
  : result (list (string * Z)) :=
  c <- the_counter self ;;
  Ok (sorted_by_count c).

(** * Reference definitions

    What the statements below compare the code with. *)

(** The character the loop appends for the window starting at [i] *)
Definition window_bit (input : string) (i : Z) : ascii :=
  if String.eqb (PyStr.slice input i (i + 3)) "111" then "1"%char
  else "0"%char.

(** The positions of a string that hold the character [c] *)
Definition positions_of (c : ascii) (s : string) : list nat :=
  filter (fun i => match String.get i s with
                   | Some c' => Ascii.eqb c' c
                   | None => false
                   end)
         (seq 0 (String.length s)).

(** The positions at which a full window "111" starts *)
Definition window_starts (s : string) : list nat :=
  filter (fun i => String.eqb (String.substring i 3 s) "111")
         (seq 0 (String.length s)).

(** The sum of a list of integers *)
Definition Zsum (l : list Z) : Z := fold_right Z.add 0 l.

(** Normalisation as the specification words it: trim each raw token,
    rewrite the two misspellings, drop what is empty, keep the order. *)
Definition fix_typo (token : string) : string :=
  if String.eqb token "BLEW" then "BLUE"
  else if String.eqb token "ARSH" then "ASH"
  else token.

Definition normalize_spec (raw : list string) : list string :=
  filter PyStr.truthy (map (fun token => fix_typo (PyStr.strip token)) raw).

(** The raw tokens of the rows: the pieces between the commas *)
Definition raw_tokens (rows : list (string * string)) : list string :=
  flat_map (fun row => PyStr.split "," (snd row)) rows.

Definition all_space (s : string) : bool :=
  forallb PyStr.isspace (list_ascii_of_string s).

Definition head_char (s : string) : option ascii :=
  match s with
  | EmptyString => None
  | String c _ => Some c
  end.

Fixpoint last_char (s : string) : option ascii :=
  match s with
  | EmptyString => None
  | String c EmptyString => Some c
  | String _ s' => last_char s'
  end.

(** No white space at either end *)
Definition trimmed (s : string) : Prop :=
  match head_char s, last_char s with
  | Some c1, Some c2 => PyStr.isspace c1 = false /\ PyStr.isspace c2 = false
  | _, _ => s = ""
  end.

(** The Fibonacci numbers with F(1) = F(2) = 1, and the sum of the first
    [n] of them, F(1) + ... + F(n). *)
Fixpoint fib (k : nat) : Z :=
  match k with
  | O => 0
  | S k' =>
      match k' with
      | O => 1
      | S k'' => fib k' + fib k''
      end
  end.

Fixpoint sum_first_fib (n : nat) : Z :=
  match n with
  | O => 0
  | S k => sum_first_fib k + fib (S k)
  end.

(** The instance as [load_data] leaves it when the colours read are
    [tokens] *)
Definition loaded (tokens : list string) : BincomPythonTest :=
  {| html_file := None;
     colors := tokens;
     color_counter := Some (PyCounter.Counter tokens) |}.

(** The code-point lexicographic order of Python strings *)
Definition str_le (s1 s2 : string) : Prop := String.leb s1 s2 = true.

(** The table expanded as the specification words it: every token repeated
    by its count, in table order. *)
Definition expand (table : PyCounter.t) : list string :=
  flat_map (fun item => repeat (fst item) (Z.to_nat (snd item))) table.

(** The code points below 256 that are white space *)
Definition white_space : list N :=
  [9; 10; 11; 12; 13; 28; 29; 30; 31; 32; 133; 160]%N.

(** The code points below 256 that have an upper-case form of their own,
    each with that form: a..z, the micro sign, the sharp s, the letters
    0xe0..0xf6 and 0xf8..0xfe, the y with diaeresis. *)
Definition lower_case : list (N * list N) :=
  (map (fun k => (97 + N.of_nat k, [65 + N.of_nat k])) (seq 0 26)
   ++ [(181, [924]); (223, [83; 83])]
   ++ map (fun k => (224 + N.of_nat k, [192 + N.of_nat k])) (seq 0 23)
   ++ map (fun k => (248 + N.of_nat k, [216 + N.of_nat k])) (seq 0 7)
   ++ [(255, [376])])%N%list.

Fixpoint upper_form (table : list (N * list N)) (n : N) : list N :=
  match table with
  | [] => [n]
  | (lower, upper) :: table' =>
      if (lower =? n)%N then upper else upper_form table' n
  end.

(** How many of the tokens have the code points [key] *)
Definition count_key (tokens : list string) (key : list N) : Z :=
  Z.of_nat (count_occ (list_eq_dec N.eq_dec)
                      (map PyStr.code_points tokens) key).

(** A double that is less than one unit in its last place away from the
    rational [q]: [(m - 1) * 2^e <= q < (m + 1) * 2^e] for the positive
    double [m * 2^e], and [q] below the least positive double [2^-1074]
    for a zero. *)
Definition within_one_ulp (f : spec_float) (q : Q) : Prop :=
  match f with
  | S754_zero _ => (0 <= q /\ q < (2 # 1) ^ (-1074))%Q
  | S754_finite false m e =>
      (inject_Z (Zpos m - 1) * (2 # 1) ^ e <= q
       /\ q < inject_Z (Zpos m + 1) * (2 # 1) ^ e)%Q
  | _ => False
  end.

(** The rational number that a finite double stands for (0 for the zeros,
    and for what is not a number) *)
Definition float_value (f : spec_float) : Q :=
  match f with
  | S754_finite s m e =>
      let magnitude := (inject_Z (Zpos m) * Qpower (2 # 1) e)%Q in
      if s then (- magnitude)%Q else magnitude
  | _ => 0%Q
  end.

(** Ten tokens, three of them RED *)
Definition ten_tokens : list string :=
  ["RED"; "BLUE"; "RED"; "GREEN"; "BLUE"; "RED"; "WHITE"; "BLUE"; "BLACK";
   "BLUE"].

(** The textbook variances of integer data, as exact rationals: the sum of
    squared deviations from the mean, divided by [n - 1] for the sample
    variance and by [n] for the population variance. *)
Definition Qsum (l : list Q) : Q := fold_right Qplus 0%Q l.

Definition mean (data : list Z) : Q :=
  (inject_Z (Zsum data) / inject_Z (PyList.len data))%Q.

Definition squared_deviations (data : list Z) : Q :=
  Qsum (map (fun x => (inject_Z x - mean data) * (inject_Z x - mean data))%Q
            data).

Definition sample_variance (data : list Z) : Q :=
  (squared_deviations data / inject_Z (PyList.len data - 1))%Q.

Definition population_variance (data : list Z) : Q :=
  (squared_deviations data / inject_Z (PyList.len data))%Q.

(** The distinct elements of a list in the order of their first
    occurrence: an element is kept unless it was seen before. *)
Fixpoint unseen (seen : list string) (l : list string) : list string :=
  match l with
  | [] => []
  | x :: l' =>
      if in_dec string_dec x seen then unseen seen l'
      else x :: unseen (x :: seen) l'
  end.

Definition first_occurrences (l : list string) : list string := unseen [] l.

(** What every colour handed to the statistics looks like *)
Definition well_formed_color (color : string) : Prop :=
  color <> "" /\ trimmed color
  /\ ~ In ","%char (list_ascii_of_string color)
  /\ color <> "BLEW" /\ color <> "ARSH".

(** Counts never increase along the list *)
Definition count_ge (a b : string * Z) : Prop := snd b <= snd a.

(** The entries whose count is [v], in list order *)
Definition with_count (v : Z) (l : list (string * Z)) : list (string * Z) :=
  filter (fun item => snd item =? v) l.

(** How many raw tokens strip to one of the given spellings *)
Definition spelled (spellings : list string) (raw : list string) : Z :=
  PyList.len
    (filter (fun token =>
               existsb (String.eqb (PyStr.strip token)) spellings) raw).

(** * Properties *)

(** ** List indexing *)

Section Getitem.
Context {A : Type}.

Lemma getitem_in_range (l : list A) (i : Z) :
  0 <= i < PyList.len l ->
  exists x, PyList.getitem l i = Ok x /\ nth_error l (Z.to_nat i) = Some x.
Proof.
  intros Hi. unfold PyList.getitem.
  destruct (Z.ltb_spec i 0) as [Hneg | _]; [lia |].
  destruct (Z.leb_spec 0 i) as [_ | Hneg]; [| lia].
  destruct (Z.ltb_spec i (PyList.len l)) as [_ | Hbig]; [| lia].
  cbn [andb].
  destruct (nth_error l (Z.to_nat i)) as [x |] eqn:Hnth.
  - exists x. split; reflexivity.
  - apply nth_error_None in Hnth. unfold PyList.len in Hi. lia.
Qed.

Lemma In_position (l : list A) (x : A) :
  In x l ->
  exists i, 0 <= i < PyList.len l /\ nth_error l (Z.to_nat i) = Some x.
Proof.
  intros Hin. apply In_nth_error in Hin. destruct Hin as [n Hn].
  exists (Z.of_nat n). rewrite Nat2Z.id. split; [| exact Hn].
  assert (n < List.length l)%nat by (apply nth_error_Some; congruence).
  unfold PyList.len. lia.
Qed.
End Getitem.

(** ** Binary search *)

Lemma sorted_positions (l : list Z) :
  StronglySorted Z.le l ->
  forall (i j : nat) (x y : Z),
    (i <= j)%nat -> nth_error l i = Some x -> nth_error l j = Some y -> x <= y.
Proof.
  induction 1 as [| a l Hsorted IH Hall]; intros i j x y Hij Hi Hj.
  - destruct i; discriminate.
  - destruct i as [| i], j as [| j]; cbn in Hi, Hj.
    + injection Hi as <-. injection Hj as <-. lia.
    + injection Hi as <-. rewrite Forall_forall in Hall.
      apply Hall. eapply nth_error_In. exact Hj.
    + lia.
    + apply (IH i j); [lia | assumption | assumption].
Qed.

Lemma midpoint_bounds (start end_ : Z) :
  start <= end_ -> start <= (start + end_) / 2 <= end_.
Proof.
  intros H. split.
  - apply Z.div_le_lower_bound; lia.
  - apply Z.div_le_upper_bound; lia.
Qed.

(** The search loop keeps the window invariant: everything left of
    [start] is below the target, everything right of [end_] is above it. *)
Lemma search_range_correct (numbers : list Z) (target start end_ : Z) :
  StronglySorted Z.le numbers ->
  0 <= start -> end_ < PyList.len numbers ->
  (forall i x, 0 <= i < start ->
               nth_error numbers (Z.to_nat i) = Some x -> x < target) ->
  (forall i x, end_ < i < PyList.len numbers ->
               nth_error numbers (Z.to_nat i) = Some x -> target < x) ->
  (exists i, search_range numbers target start end_ = Ok i /\
             0 <= i < PyList.len numbers /\
             nth_error numbers (Z.to_nat i) = Some target)
  \/ (search_range numbers target start end_ = Ok (-1) /\
      ~ In target numbers).
Proof.
  intros Hsorted.
  funelim (search_range numbers target start end_);
    intros Hstart Hend Hleft Hright.
  2-5: pose proof (midpoint_bounds start end_ ltac:(lia)) as Hmid;
       destruct (getitem_in_range numbers ((start + end_) / 2) ltac:(lia))
         as (x' & Hget & Hnth);
       match goal with
       | Hq : PyList.getitem _ _ = _ |- _ =>
           rewrite Hget in Hq; try discriminate Hq; injection Hq as Hq; subst x'
       end.
  - (* start > end_: the window is empty *)
    right. split; [reflexivity |]. intros Hin.
    apply In_position in Hin. destruct Hin as (i & Hi & Hnth).
    destruct (Z_lt_dec i start) as [Hlt | Hge].
    + specialize (Hleft i target ltac:(lia) Hnth). lia.
    + specialize (Hright i target ltac:(lia) Hnth). lia.
  - (* numbers[mid] == target *)
    match goal with
    | Hq : (x =? target) = true |- _ => apply Z.eqb_eq in Hq; subst x
    end.
    left. exists ((start + end_) / 2). repeat split; try lia; assumption.
  - (* numbers[mid] > target: go left *)
    match goal with Hq : (x >? target) = true |- _ => apply Z.gtb_lt in Hq end.
    match goal with IH : StronglySorted _ _ -> _ |- _ => apply IH end;
      try assumption; try lia.
    intros i y Hi Hy.
    destruct (Z_lt_dec end_ i) as [Hlt | Hge].
    + apply (Hright i y); [lia | assumption].
    + assert (x <= y); [| lia].
      apply (sorted_positions numbers Hsorted
               (Z.to_nat ((start + end_) / 2)) (Z.to_nat i));
        [lia | assumption | assumption].
  - (* numbers[mid] < target: go right *)
    match goal with
    | Hq : (x =? target) = false |- _ => apply Z.eqb_neq in Hq
    end.
    assert (x < target)
      by (destruct (Z.gtb_spec x target); [discriminate | lia]).
    match goal with IH : StronglySorted _ _ -> _ |- _ => apply IH end;
      try assumption; try lia.
    intros i y Hi Hy.
    destruct (Z_lt_dec i start) as [Hlt | Hge].
    + apply (Hleft i y); [lia | assumption].
    + assert (y <= x); [| lia].
      apply (sorted_positions numbers Hsorted
               (Z.to_nat i) (Z.to_nat ((start + end_) / 2)));
        [lia | assumption | assumption].
Qed.

Lemma search_range_empty (numbers : list Z) (target start end_ : Z) :
  start > end_ -> search_range numbers target start end_ = Ok (-1).
Proof.
  intros Hgt. rewrite search_range_equation_1.
  destruct (Z_gt_dec start end_) as [Hgt' | Hle]; [reflexivity | contradiction].
Qed.

Lemma search_range_step (numbers : list Z) (target start end_ : Z) :
  start <= end_ ->
  search_range numbers target start end_ =
    (let mid := (start + end_) / 2 in
     x <- PyList.getitem numbers mid ;;
     if x =? target then Ok mid
     else if x >? target then search_range numbers target start (mid - 1)
     else search_range numbers target (mid + 1) end_).
Proof.
  intros Hle. cbv zeta. rewrite search_range_equation_1.
  destruct (Z_gt_dec start end_) as [Hgt | Hle']; [lia |].
  cbn. destruct (PyList.getitem numbers ((start + end_) / 2)) as [x | e];
    cbn; [| reflexivity].
  destruct (x =? target); cbn; [reflexivity |].
  destruct (x >? target); reflexivity.
Qed.

(** C1, the sentence as written fails on the demonstration list: 29 sits at
    index 4 of [5,7,13,23,29,...], and that is what the search returns, not
    3. *)
Lemma recursive_search_demo_not_3 :
  recursive_search demo_list 29 None None <> Ok 3.
Proof. vm_compute. discriminate. Qed.

(** C1 (amended): on a list sorted in ascending order, [recursive_search]
    with the default [start] and [end] returns an index holding the target
    when the target occurs, and -1 when it does not; an empty range
    ([start > end]) returns -1; otherwise the midpoint is the floor of
    [(start + end) / 2] and the search continues in the half that can hold
    the target.  On the demonstration list, 29 is found at index 4 and 100
    gives -1. *)
Theorem recursive_search_correct (numbers : list Z) (target : Z) :
  Sorted Z.le numbers ->
  (In target numbers ->
   exists i, recursive_search numbers target None None = Ok i /\
             0 <= i < PyList.len numbers /\
             PyList.getitem numbers i = Ok target)
  /\ (~ In target numbers ->
      recursive_search numbers target None None = Ok (-1))
  /\ (forall start end_, start > end_ ->
      recursive_search numbers target (Some start) (Some end_) = Ok (-1))
  /\ (forall start end_, start <= end_ ->
      recursive_search numbers target (Some start) (Some end_) =
        (let mid := (start + end_) / 2 in
         x <- PyList.getitem numbers mid ;;
         if x =? target then Ok mid
         else if x >? target then
           recursive_search numbers target (Some start) (Some (mid - 1))
         else recursive_search numbers target (Some (mid + 1)) (Some end_)))
  /\ recursive_search demo_list 29 None None = Ok 4
  /\ recursive_search demo_list 100 None None = Ok (-1).
Proof.
  intros Hsorted.
  apply Sorted_StronglySorted in Hsorted; [| intros a b c; apply Z.le_trans].
  assert (Hspec :
    (exists i, recursive_search numbers target None None = Ok i /\
               0 <= i < PyList.len numbers /\
               nth_error numbers (Z.to_nat i) = Some target)
    \/ (recursive_search numbers target None None = Ok (-1) /\
        ~ In target numbers)).
  { unfold recursive_search.
    apply search_range_correct; try assumption; intros; lia. }
  repeat split.
  - intros Hin. destruct Hspec as [(i & Hres & Hi & Hnth) | [_ Habs]];
      [| contradiction].
    exists i. repeat split; try assumption; try lia.
    destruct (getitem_in_range numbers i Hi) as (x & Hget & Hx).
    congruence.
  - intros Hnot. destruct Hspec as [(i & _ & _ & Hnth) | [Hres _]];
      [| assumption].
    exfalso. apply Hnot. eapply nth_error_In. exact Hnth.
  - intros start end_ Hgt. apply search_range_empty. assumption.
  - intros start end_ Hle. apply search_range_step. assumption.
Qed.

Lemma recursive_search_correct_witness :
  Sorted Z.le demo_list /\
  recursive_search demo_list 29 None None = Ok 4.
Proof.
  assert (Hsorted : Sorted Z.le demo_list)
    by (repeat constructor; intros Hc; discriminate Hc).
  split; [exact Hsorted |].
  exact (proj1 (proj2 (proj2 (proj2 (proj2
           (recursive_search_correct demo_list 29 Hsorted)))))).
Defined.

(** ** Strings as character lists *)

Lemma append_assoc (s1 s2 s3 : string) :
  ((s1 ++ s2) ++ s3 = s1 ++ (s2 ++ s3))%string.
Proof.
  induction s1 as [| c s1 IH]; cbn; [reflexivity | now rewrite IH].
Qed.

Lemma append_empty_r (s : string) : (s ++ "")%string = s.
Proof.
  induction s as [| c s IH]; cbn; [reflexivity | now rewrite IH].
Qed.

Lemma chars_append (s1 s2 : string) :
  list_ascii_of_string (s1 ++ s2) =
  (list_ascii_of_string s1 ++ list_ascii_of_string s2)%list.
Proof.
  induction s1 as [| c s1 IH]; cbn; [reflexivity | now rewrite IH].
Qed.

Lemma chars_length (s : string) :
  List.length (list_ascii_of_string s) = String.length s.
Proof.
  induction s as [| c s IH]; cbn; [reflexivity | now rewrite IH].
Qed.

Lemma chars_get (s : string) (n : nat) :
  String.get n s = nth_error (list_ascii_of_string s) n.
Proof.
  revert n. induction s as [| c s IH]; intros [| n]; cbn; try reflexivity.
  apply IH.
Qed.

(** ** The pattern checker *)

Lemma checker_loop (input : string) (l : list Z) (acc : string) :
  fold_left
    (fun calculated_output i =>
       let window := PyStr.slice input i (i + 3) in
       if String.eqb window "111" then (calculated_output ++ "1")%string
       else (calculated_output ++ "0")%string)
    l acc
  = (acc ++ string_of_list_ascii (map (window_bit input) l))%string.
Proof.
  revert acc. induction l as [| i l IH]; intros acc; cbn [fold_left map].
  - cbn. symmetry. apply append_empty_r.
  - rewrite IH. cbv zeta. unfold window_bit at 2.
    destruct (String.eqb (PyStr.slice input i (i + 3)) "111");
      rewrite append_assoc; reflexivity.
Qed.

Lemma calculated_output_chars (input : string) :
  list_ascii_of_string (calculated_output input) =
  (map (window_bit input) (PyList.range 0 (PyStr.len input - 2))
     ++ ["0"%char; "0"%char])%list.
Proof.
  unfold calculated_output. rewrite checker_loop.
  rewrite !chars_append, list_ascii_of_string_of_list_ascii. reflexivity.
Qed.

Lemma range_length (lo hi : Z) :
  List.length (PyList.range lo hi) = Z.to_nat (hi - lo).
Proof. unfold PyList.range. now rewrite length_map, length_seq. Qed.

Lemma range_nth (lo hi : Z) (k : nat) :
  (k < Z.to_nat (hi - lo))%nat ->
  nth_error (PyList.range lo hi) k = Some (lo + Z.of_nat k).
Proof.
  intros Hk. unfold PyList.range.
  rewrite nth_error_map, nth_error_seq.
  destruct (Nat.ltb_spec k (Z.to_nat (hi - lo))); [reflexivity | lia].
Qed.

Lemma slice_window (input : string) (i : Z) :
  0 <= i <= PyStr.len input - 3 ->
  PyStr.slice input i (i + 3) = String.substring (Z.to_nat i) 3 input.
Proof.
  intros Hi. unfold PyStr.slice.
  destruct (Z.ltb_spec i 0); [lia |].
  destruct (Z.ltb_spec (i + 3) 0); [lia |].
  rewrite !Z.min_l by lia.
  replace (Z.to_nat (i + 3 - i)) with 3%nat by lia. reflexivity.
Qed.

Lemma window_bits_length (input : string) :
  List.length
    (map (window_bit input) (PyList.range 0 (PyStr.len input - 2)))
  = Z.to_nat (PyStr.len input - 2).
Proof. rewrite length_map, range_length. f_equal. lia. Qed.

Lemma calculated_output_length (input : string) :
  2 <= PyStr.len input ->
  String.length (calculated_output input) = String.length input.
Proof.
  intros Hlen. rewrite <- chars_length, calculated_output_chars.
  rewrite length_app, window_bits_length.
  unfold PyStr.len in *. cbn [List.length]. lia.
Qed.

(** Inside the scanned part the output holds the bit of the window *)
Lemma calculated_output_get (input : string) (i : Z) :
  0 <= i <= PyStr.len input - 3 ->
  String.get (Z.to_nat i) (calculated_output input)
  = Some (window_bit input i).
Proof.
  intros Hi. rewrite chars_get, calculated_output_chars.
  rewrite nth_error_app1 by (rewrite window_bits_length; lia).
  rewrite nth_error_map, range_nth by lia. cbn [option_map].
  rewrite Z2Nat.id, Z.add_0_l by lia. reflexivity.
Qed.

(** The two positions after the scanned part hold the padding *)
Lemma calculated_output_tail (input : string) (i : Z) :
  2 <= PyStr.len input ->
  PyStr.len input - 2 <= i < PyStr.len input ->
  String.get (Z.to_nat i) (calculated_output input) = Some "0"%char.
Proof.
  intros Hlen Hi. rewrite chars_get, calculated_output_chars.
  rewrite nth_error_app2 by (rewrite window_bits_length; lia).
  rewrite window_bits_length.
  assert (Hcase : i = PyStr.len input - 2 \/ i = PyStr.len input - 1) by lia.
  destruct Hcase as [-> | ->].
  - rewrite Nat.sub_diag. reflexivity.
  - replace (Z.to_nat (PyStr.len input - 1) - Z.to_nat (PyStr.len input - 2))%nat
      with 1%nat by lia.
    reflexivity.
Qed.

(** C2, the sentence as written fails on an input shorter than two
    characters: the loop does not run and the two closing zeros are still
    appended, so the output is longer than the input. *)
Lemma calculated_output_empty_input_longer :
  calculated_output "" = "00" /\
  String.length (calculated_output "") <> String.length "".
Proof. split; [reflexivity | vm_compute; discriminate]. Qed.

(** C2 (amended): for every input string of at least two characters the
    pattern checker gives an output of the same length; each position [i]
    from 0 to length-3 holds '1' exactly when the three characters of the
    input starting at [i] are "111" and holds '0' otherwise; the last two
    positions hold '0'.  For the input "111" the output is "100". *)
Theorem calculated_output_correct (input : string) :
  2 <= PyStr.len input ->
  String.length (calculated_output input) = String.length input
  /\ (forall i, 0 <= i <= PyStr.len input - 3 ->
        (String.get (Z.to_nat i) (calculated_output input) = Some "1"%char
         <-> String.substring (Z.to_nat i) 3 input = "111")
        /\ (String.get (Z.to_nat i) (calculated_output input) = Some "0"%char
            <-> String.substring (Z.to_nat i) 3 input <> "111"))
  /\ String.get (Z.to_nat (PyStr.len input - 2)) (calculated_output input)
     = Some "0"%char
  /\ String.get (Z.to_nat (PyStr.len input - 1)) (calculated_output input)
     = Some "0"%char
  /\ calculated_output "111" = "100".
Proof.
  intros Hlen.
  split; [now apply calculated_output_length |].
  split.
  { intros i Hi. rewrite calculated_output_get by assumption.
    unfold window_bit. rewrite slice_window by assumption.
    destruct (String.eqb_spec (String.substring (Z.to_nat i) 3 input) "111")
      as [Hw | Hw]; split; split; intros H; congruence. }
  split; [apply calculated_output_tail; lia |].
  split; [apply calculated_output_tail; lia | reflexivity].
Qed.

Lemma calculated_output_correct_witness :
  2 <= PyStr.len "01110" /\
  String.length (calculated_output "01110") = String.length "01110".
Proof.
  assert (Hlen : 2 <= PyStr.len "01110") by (vm_compute; discriminate).
  split; [exact Hlen |].
  exact (proj1 (calculated_output_correct "01110" Hlen)).
Defined.

(** C3: on the hard-coded input the computed string is
    "0000000010000000010000000000100", with its '1's at 8, 17 and 28, the
    start of each "111" window; the hard-coded expected string has its '1's
    at 10, 19 and 30; so the comparison the demo prints is [False]. *)
Theorem analyze_binary_sequence_puzzle_mismatch :
  calculated_output input_sequence = "0000000010000000010000000000100"
  /\ window_starts input_sequence = [8; 17; 28]%nat
  /\ positions_of "1" (calculated_output input_sequence) = [8; 17; 28]%nat
  /\ positions_of "1" output_sequence = [10; 19; 30]%nat
  /\ analyze_binary_sequence_puzzle
     = ("0000000010000000010000000000100", false).
Proof. repeat split; vm_compute; reflexivity. Qed.

(** ** The frequency table *)

Lemma set_keys (c : PyCounter.t) (key : string) (v : Z) :
  map fst (PyCounter.set c key v) =
  if in_dec string_dec key (map fst c) then map fst c
  else (map fst c ++ [key])%list.
Proof.
  induction c as [| [k v0] c IH]; cbn [PyCounter.set map fst].
  - reflexivity.
  - destruct (String.eqb_spec k key) as [-> | Hne]; cbn [map fst].
    + destruct (in_dec string_dec key (key :: map fst c)) as [_ | Hnot];
        [reflexivity | exfalso; apply Hnot; now left].
    + rewrite IH.
      destruct (in_dec string_dec key (map fst c)) as [Hin | Hnot],
               (in_dec string_dec key (k :: map fst c)) as [Hin' | Hnot'];
        try reflexivity.
      * exfalso. apply Hnot'. now right.
      * destruct Hin' as [-> | Hin']; contradiction.
Qed.

Lemma set_keys_NoDup (c : PyCounter.t) (key : string) (v : Z) :
  NoDup (map fst c) -> NoDup (map fst (PyCounter.set c key v)).
Proof.
  intros Hnd. rewrite set_keys.
  destruct (in_dec string_dec key (map fst c)) as [_ | Hnot]; [assumption |].
  apply NoDup_app; [assumption | repeat constructor; intros [] | ].
  intros x Hx [<- | []]. contradiction.
Qed.

Lemma count_one_sum (c : PyCounter.t) (elem : string) :
  Zsum (PyCounter.values (PyCounter.count_one c elem))
  = Zsum (PyCounter.values c) + 1.
Proof.
  unfold PyCounter.count_one, PyCounter.values, Zsum.
  induction c as [| [k v0] c IH]; cbn [PyCounter.set PyCounter.get].
  - reflexivity.
  - destruct (String.eqb k elem); cbn [map snd fold_right] in *; lia.
Qed.

Lemma count_one_positive (c : PyCounter.t) (elem : string) :
  Forall (fun item => 1 <= snd item) c ->
  Forall (fun item => 1 <= snd item) (PyCounter.count_one c elem).
Proof.
  unfold PyCounter.count_one.
  induction 1 as [| [k v0] c Hv Hc IH]; cbn [PyCounter.set PyCounter.get].
  - constructor; [cbn; lia | constructor].
  - destruct (String.eqb k elem); constructor; cbn [snd] in *;
      try assumption; lia.
Qed.

Lemma get_set (c : PyCounter.t) (key key' : string) (v d : Z) :
  PyCounter.get (PyCounter.set c key v) key' d =
  if String.eqb key key' then v else PyCounter.get c key' d.
Proof.
  induction c as [| [k v0] c IH]; cbn [PyCounter.set PyCounter.get].
  - reflexivity.
  - destruct (String.eqb_spec k key) as [-> | Hne]; cbn [PyCounter.get].
    + destruct (String.eqb key key'); reflexivity.
    + rewrite IH. destruct (String.eqb_spec k key') as [-> | Hne'];
        [| reflexivity].
      destruct (String.eqb_spec key key'); [congruence | reflexivity].
Qed.

(** The invariants of the counting loop, from any starting table *)
Lemma counting_loop (iterable : list string) (c : PyCounter.t) :
  NoDup (map fst c) ->
  Forall (fun item => 1 <= snd item) c ->
  let c' := fold_left PyCounter.count_one iterable c in
  NoDup (map fst c')
  /\ Forall (fun item => 1 <= snd item) c'
  /\ Zsum (PyCounter.values c')
     = Zsum (PyCounter.values c) + PyList.len iterable
  /\ (forall key,
        PyCounter.get c' key 0 =
        PyCounter.get c key 0 + Z.of_nat (count_occ string_dec iterable key)).
Proof.
  revert c. induction iterable as [| elem iterable IH]; intros c Hnd Hpos.
  - cbn [fold_left]. unfold PyList.len. cbn [List.length count_occ].
    repeat split; try assumption; intros; lia.
  - cbn [fold_left].
    destruct (IH (PyCounter.count_one c elem)) as (Hnd' & Hpos' & Hsum & Hget).
    { apply set_keys_NoDup. assumption. }
    { apply count_one_positive. assumption. }
    repeat split; try assumption.
    + rewrite Hsum, count_one_sum. unfold PyList.len. cbn [List.length]. lia.
    + intros key. rewrite Hget. unfold PyCounter.count_one. rewrite get_set.
      cbn [count_occ].
      destruct (string_dec elem key) as [-> | Hne].
      * rewrite String.eqb_refl. lia.
      * destruct (String.eqb_spec elem key); [contradiction | lia].
Qed.

Lemma Counter_loop (iterable : list string) :
  PyCounter.Counter iterable = fold_left PyCounter.count_one iterable [].
Proof. reflexivity. Qed.

Lemma Counter_get (iterable : list string) (key : string) :
  PyCounter.get (PyCounter.Counter iterable) key 0 =
  Z.of_nat (count_occ string_dec iterable key).
Proof.
  rewrite Counter_loop.
  destruct (counting_loop iterable []) as (_ & _ & _ & Hget);
    [constructor | constructor |].
  rewrite Hget. reflexivity.
Qed.

(** C4: the table [load_data] builds from the token list has pairwise
    distinct keys, counts that are integers of at least 1 (so never
    negative), and counts that add up to the number of tokens; [load_data]
    stores that table and returns the number of tokens. *)
Theorem Counter_invariant (tokens : list string) :
  NoDup (map fst (PyCounter.Counter tokens))
  /\ Forall (fun item => 0 <= snd item) (PyCounter.Counter tokens)
  /\ Forall (fun item => 1 <= snd item) (PyCounter.Counter tokens)
  /\ Zsum (PyCounter.values (PyCounter.Counter tokens)) = PyList.len tokens
  /\ (forall read_rows self,
        let '(self', total) := load_data read_rows self in
        color_counter self' = Some (PyCounter.Counter (colors self'))
        /\ total = PyList.len (colors self')).
Proof.
  rewrite Counter_loop.
  destruct (counting_loop tokens []) as (Hnd & Hpos & Hsum & _);
    [constructor | constructor |].
  split; [assumption |]. split; [| split; [assumption |]].
  - eapply Forall_impl; [| exact Hpos]. cbn. intros item Hitem. lia.
  - split; [assumption |].
    intros read_rows self. unfold load_data. cbv beta iota zeta.
    cbn [colors color_counter]. split; reflexivity.
Qed.

(** ** The colour normaliser *)

Lemma lstrip_spec (s : string) :
  exists pre, s = (pre ++ PyStr.lstrip s)%string /\ all_space pre = true /\
              match head_char (PyStr.lstrip s) with
              | Some c => PyStr.isspace c = false
              | None => PyStr.lstrip s = ""
              end.
Proof.
  induction s as [| c s (pre & Heq & Hpre & Hhead)]; cbn [PyStr.lstrip].
  - exists "". repeat split.
  - destruct (PyStr.isspace c) eqn:Hc.
    + exists (String c pre). cbn. unfold all_space in *. cbn.
      rewrite Hc, Hpre. repeat split; [congruence | assumption].
    + exists "". cbn. repeat split. assumption.
Qed.

Lemma rstrip_spec (s : string) :
  exists post, s = (PyStr.rstrip s ++ post)%string /\ all_space post = true /\
               match last_char (PyStr.rstrip s) with
               | Some c => PyStr.isspace c = false
               | None => PyStr.rstrip s = ""
               end /\
               (PyStr.rstrip s = "" \/
                head_char (PyStr.rstrip s) = head_char s).
Proof.
  induction s as [| c s (post & Heq & Hpost & Hlast & _)]; cbn [PyStr.rstrip].
  - exists "". repeat split. now left.
  - destruct (PyStr.rstrip s) as [| c' r] eqn:Hr.
    + cbn in Heq. subst post.
      destruct (PyStr.isspace c) eqn:Hc.
      * exists (String c s). unfold all_space in *. cbn. rewrite Hc.
        repeat split; try assumption. now left.
      * exists s. cbn. repeat split; try assumption. now right.
    + exists post. split; [| split; [assumption | split; [| now right]]].
      * cbn [append] in *. congruence.
      * change (last_char (String c (String c' r)))
          with (last_char (String c' r)).
        destruct (last_char (String c' r)); [exact Hlast | discriminate Hlast].
Qed.

Lemma strip_spec (s : string) :
  exists pre post,
    s = (pre ++ PyStr.strip s ++ post)%string /\
    all_space pre = true /\ all_space post = true /\
    trimmed (PyStr.strip s).
Proof.
  destruct (lstrip_spec s) as (pre & Hl & Hpre & Hhead).
  destruct (rstrip_spec (PyStr.lstrip s))
    as (post & Hr & Hpost & Hlast & Hsame).
  exists pre, post. unfold PyStr.strip, trimmed.
  repeat split; try assumption.
  - rewrite <- Hr. exact Hl.
  - destruct Hsame as [-> | Hsame]; [reflexivity |].
    rewrite Hsame.
    destruct (head_char (PyStr.lstrip s)) as [c1 |] eqn:H1.
    + destruct (last_char (PyStr.rstrip (PyStr.lstrip s))) as [c2 |];
        [split; assumption | assumption].
    + rewrite Hhead. reflexivity.
Qed.

Lemma clean_loop (color_list cleaned : list string) :
  fold_left
    (fun cleaned_colors color =>
       let color :=
         if String.eqb color "BLEW" then "BLUE"
         else if String.eqb color "ARSH" then "ASH"
         else color in
       if PyStr.truthy color then (cleaned_colors ++ [color])%list
       else cleaned_colors)
    color_list cleaned
  = (cleaned ++ filter PyStr.truthy (map fix_typo color_list))%list.
Proof.
  revert cleaned.
  induction color_list as [| color l IH]; intros cleaned;
    cbn [fold_left map filter].
  - now rewrite app_nil_r.
  - rewrite IH. cbv zeta. fold (fix_typo color).
    destruct (PyStr.truthy (fix_typo color)); [| reflexivity].
    rewrite <- app_assoc. reflexivity.
Qed.

Lemma clean_colors_spec (color_list : list string) :
  _clean_colors color_list = filter PyStr.truthy (map fix_typo color_list).
Proof. unfold _clean_colors. now rewrite clean_loop. Qed.

Lemma collect_loop (rows : list (string * string)) (acc : list string) :
  fold_left
    (fun all_colors '(day, colors_str) =>
       let colors := map PyStr.strip (PyStr.split "," colors_str) in
       (all_colors ++ colors)%list)
    rows acc
  = (acc ++ map PyStr.strip (raw_tokens rows))%list.
Proof.
  revert acc. induction rows as [| [day colors_str] rows IH]; intros acc;
    cbn [fold_left raw_tokens flat_map snd].
  - now rewrite app_nil_r.
  - rewrite IH. cbv zeta. rewrite map_app, app_assoc. reflexivity.
Qed.

Lemma isspace_table (c : ascii) :
  PyStr.isspace c = existsb (N.eqb (N_of_ascii c)) white_space.
Proof. destruct c as [[] [] [] [] [] [] [] []]; reflexivity. Qed.

(** The trimming is the extractors' [strip()]; [_clean_colors] on its own
    compares and keeps a token as it is given. *)
Example clean_colors_alone :
  _clean_colors [" BLEW"; "BLEW"; "ARSH"; ""] = [" BLEW"; "BLUE"; "ASH"].
Proof. reflexivity. Qed.

(** C5: normalisation (strip every raw token, then [_clean_colors]) trims
    the white space around each token, turns exactly "BLEW" into "BLUE" and
    "ARSH" into "ASH", drops the tokens that are empty, and hands every
    other token on unchanged, compared case-sensitively, in the order of
    the input.  It is a total function: no input makes it raise.  Both
    extractors normalise the comma-separated pieces of their rows this
    way.  White space is what [str.strip()] trims: below 256 the code
    points 9..13, 28..32, 133 and 160, so a no-break space or a next-line
    control around a token goes, and an escape character (27) or a zero
    byte stays. *)
Theorem normalizer_correct (raw : list string) :
  _clean_colors (map PyStr.strip raw) = normalize_spec raw
  /\ (forall raw', _clean_colors (map PyStr.strip (raw ++ raw')) =
                   (_clean_colors (map PyStr.strip raw)
                      ++ _clean_colors (map PyStr.strip raw'))%list)
  /\ (forall token,
        _clean_colors (map PyStr.strip [token]) =
        if String.eqb (PyStr.strip token) "" then []
        else if String.eqb (PyStr.strip token) "BLEW" then ["BLUE"]
        else if String.eqb (PyStr.strip token) "ARSH" then ["ASH"]
        else [PyStr.strip token])
  /\ (forall token, exists pre post,
        token = (pre ++ PyStr.strip token ++ post)%string /\
        all_space pre = true /\ all_space post = true /\
        trimmed (PyStr.strip token))
  /\ (forall rows, collect_colors rows = normalize_spec (raw_tokens rows))
  /\ extract_colors_from_hardcoded = normalize_spec (raw_tokens color_data)
  /\ _clean_colors
       (map PyStr.strip [" BLEW"; "ARSH "; "  "; ""; "blew"; "Red"; "BLEWS"])
     = ["BLUE"; "ASH"; "blew"; "Red"; "BLEWS"]
  /\ (forall c, PyStr.isspace c
                = existsb (N.eqb (N_of_ascii c)) white_space)
  /\ _clean_colors
       (map PyStr.strip
            [String "160" "BLEW" ++ String "133" "";
             String "009" (String "031" "ARSH") ++ String "028" "";
             String "160" (String "133" (String "012" ""));
             String "027" "RED";
             "RED" ++ String "000" "";
             "SKY" ++ String "160" "BLUE"])
     = ["BLUE"; "ASH"; String "027" "RED"; "RED" ++ String "000" "";
        "SKY" ++ String "160" "BLUE"].
Proof.
  assert (Hspec : forall l,
            _clean_colors (map PyStr.strip l) = normalize_spec l).
  { intros l. rewrite clean_colors_spec, map_map. reflexivity. }
  assert (Hrows : forall rows,
            collect_colors rows = normalize_spec (raw_tokens rows)).
  { intros rows. unfold collect_colors. rewrite collect_loop.
    cbn [app]. apply Hspec. }
  split; [apply Hspec |].
  split.
  { intros raw'. rewrite !Hspec. unfold normalize_spec.
    rewrite map_app, filter_app. reflexivity. }
  split.
  { intros token. rewrite Hspec. unfold normalize_spec, fix_typo.
    cbn [map filter].
    destruct (String.eqb_spec (PyStr.strip token) "") as [-> | Hne];
      [reflexivity |].
    destruct (String.eqb (PyStr.strip token) "BLEW"); [reflexivity |].
    destruct (String.eqb (PyStr.strip token) "ARSH"); [reflexivity |].
    destruct (PyStr.strip token); [contradiction | reflexivity]. }
  split; [apply strip_spec |].
  split; [apply Hrows |].
  split; [apply Hrows |].
  split; [reflexivity |].
  split; [exact isspace_table | reflexivity].
Qed.

(** ** The Fibonacci summer *)

Lemma fib_SS (k : nat) : fib (S (S k)) = fib (S k) + fib k.
Proof. reflexivity. Qed.

(** The loop state after [k] turns, whatever indices the turns carry *)
Lemma fib_loop {A : Type} (turns : list A) (k : nat) :
  fold_left (fun st _ => fib_step st) turns
            (fib k, fib (S k), sum_first_fib (S k))
  = (fib (k + List.length turns), fib (S (k + List.length turns)),
     sum_first_fib (S (k + List.length turns))).
Proof.
  revert k. induction turns as [| i turns IH]; intros k;
    cbn [fold_left List.length].
  - rewrite Nat.add_0_r. reflexivity.
  - replace (fib_step (fib k, fib (S k), sum_first_fib (S k)))
      with (fib (S k), fib (S (S k)), sum_first_fib (S (S k))).
    + rewrite IH. replace (S k + List.length turns)%nat
        with (k + S (List.length turns))%nat by lia. reflexivity.
    + unfold fib_step. rewrite fib_SS.
      change (sum_first_fib (S (S k)))
        with (sum_first_fib (S k) + fib (S (S k))).
      rewrite fib_SS. f_equal; [f_equal |]; lia.
Qed.

(** C6: for every integer [n], [sum_fibonacci(n)] is F(1) + ... + F(n) with
    F(1) = F(2) = 1, and 0 when [n <= 0]; so [sum_fibonacci(1) = 1],
    [sum_fibonacci(2) = 2], [sum_fibonacci(0) = 0]; the argument defaults
    to 50. *)
Theorem sum_fibonacci_correct (n : Z) :
  sum_fibonacci (Some n) = sum_first_fib (Z.to_nat n)
  /\ fib 1 = 1 /\ fib 2 = 1
  /\ (if n <=? 0 then sum_fibonacci (Some n) = 0 else True)
  /\ sum_fibonacci (Some 1) = 1
  /\ sum_fibonacci (Some 2) = 2
  /\ sum_fibonacci (Some 0) = 0
  /\ sum_fibonacci None = sum_fibonacci (Some 50)
  /\ sum_fibonacci None = 32951280098.
Proof.
  assert (Hmain : sum_fibonacci (Some n) = sum_first_fib (Z.to_nat n)).
  { unfold sum_fibonacci.
    destruct (Z.leb_spec n 0) as [Hle | Hgt].
    - replace (Z.to_nat n) with 0%nat by lia. reflexivity.
    - change (0, 1, 1) with (fib 0, fib 1, sum_first_fib 1).
      rewrite fib_loop, range_length. cbn [Nat.add].
      replace (S (Z.to_nat (n + 1 - 2))) with (Z.to_nat n) by lia.
      reflexivity. }
  split; [exact Hmain |].
  split; [reflexivity |]. split; [reflexivity |].
  split.
  { destruct (Z.leb_spec n 0) as [Hle | Hgt]; [| exact I].
    rewrite Hmain. replace (Z.to_nat n) with 0%nat by lia. reflexivity. }
  split; [vm_compute; reflexivity |].
  split; [vm_compute; reflexivity |].
  split; [vm_compute; reflexivity |].
  split; vm_compute; reflexivity.
Qed.

(** ** The mode *)

(** Scanning [rest] with a running maximum [best] that already beats
    strictly what stands before it ([pre]) and weakly what stands between
    it and the scan ([mid]). *)
Lemma max_scan (rest pre mid : list (string * Z)) (best : string * Z) :
  Forall (fun item => snd item < snd best) pre ->
  Forall (fun item => snd item <= snd best) mid ->
  exists pre' post',
    (pre ++ best :: mid ++ rest)%list
    = (pre' ++ PyCounter.max_by_count best rest :: post')%list
    /\ Forall (fun item => snd item < snd (PyCounter.max_by_count best rest))
              pre'
    /\ Forall (fun item => snd item <= snd (PyCounter.max_by_count best rest))
              post'.
Proof.
  unfold PyCounter.max_by_count.
  revert pre mid best.
  induction rest as [| item rest IH]; intros pre mid best Hpre Hmid;
    cbn [fold_left].
  - exists pre, mid. rewrite app_nil_r. repeat split; assumption.
  - destruct (Z.gtb_spec (snd item) (snd best)) as [Hgt | Hle].
    + destruct (IH (pre ++ best :: mid)%list [] item)
        as (pre' & post' & Heq & H1 & H2).
      * apply Forall_app. split; [| constructor].
        -- eapply Forall_impl; [| exact Hpre]. cbn. intros; lia.
        -- lia.
        -- eapply Forall_impl; [| exact Hmid]. cbn. intros; lia.
      * constructor.
      * exists pre', post'. repeat split; try assumption.
        rewrite <- Heq. cbn [app]. rewrite <- app_assoc. reflexivity.
    + destruct (IH pre (mid ++ [item])%list best)
        as (pre' & post' & Heq & H1 & H2).
      * assumption.
      * apply Forall_app. split; [assumption |].
        constructor; [lia | constructor].
      * exists pre', post'. repeat split; try assumption.
        rewrite <- Heq. rewrite <- app_assoc. reflexivity.
Qed.

Lemma get_at (pre post : PyCounter.t) (key : string) (v d : Z) :
  NoDup (map fst (pre ++ (key, v) :: post)%list) ->
  PyCounter.get (pre ++ (key, v) :: post)%list key d = v.
Proof.
  induction pre as [| [k v0] pre IH]; cbn [app map fst PyCounter.get];
    intros Hnd.
  - now rewrite String.eqb_refl.
  - inversion Hnd as [| ? ? Hnotin Hnd']; subst.
    destruct (String.eqb_spec k key) as [-> | Hne]; [| now apply IH].
    exfalso. apply Hnotin. rewrite map_app. apply in_or_app. right. now left.
Qed.

(** C7: on a non-empty frequency table (distinct keys)
    [get_most_common_color] returns a pair (token, count) of the table
    whose count is the largest in the table, and the table maps the token
    to that count; among the entries with the largest count it is the
    first in the table's iteration order.  On the empty table it raises
    [IndexError].  For the tokens [A, A, B] the mode is (A, 2). *)
Theorem get_most_common_color_correct
    (self : BincomPythonTest) (table : PyCounter.t) :
  color_counter self = Some table ->
  NoDup (map fst table) ->
  (table <> [] ->
   exists token count,
     get_most_common_color self = Ok (token, count)
     /\ In (token, count) table
     /\ PyCounter.get table token 0 = count
     /\ (forall key v, In (key, v) table -> v <= count)
     /\ exists earlier later,
          table = (earlier ++ (token, count) :: later)%list
          /\ Forall (fun item => snd item < count) earlier)
  /\ (table = [] -> get_most_common_color self = Raise IndexError)
  /\ get_most_common_color (loaded ["A"; "A"; "B"]) = Ok ("A", 2).
Proof.
  intros Hself Hnd. unfold get_most_common_color, the_counter.
  rewrite Hself. cbn [bind].
  split; [| split; [intros ->; reflexivity | reflexivity]].
  intros Hne. destruct table as [| first rest]; [contradiction |].
  cbn [PyCounter.most_common_1].
  destruct (max_scan rest [] [] first) as (pre & post & Heq & Hpre & Hpost);
    [constructor | constructor |].
  cbn [app] in Heq.
  destruct (PyCounter.max_by_count first rest) as [token count] eqn:Hmax.
  cbn [snd] in Hpre, Hpost.
  exists token, count. split; [reflexivity |].
  split; [rewrite Heq; apply in_or_app; right; now left |].
  split; [rewrite Heq; apply get_at; rewrite <- Heq; assumption |].
  split.
  - intros key v Hin. rewrite Heq in Hin.
    apply in_app_or in Hin. destruct Hin as [Hin | [Hin | Hin]].
    + rewrite Forall_forall in Hpre. specialize (Hpre _ Hin). cbn in Hpre. lia.
    + injection Hin as _ <-. lia.
    + rewrite Forall_forall in Hpost. specialize (Hpost _ Hin).
      cbn in Hpost. lia.
  - exists pre, post. split; assumption.
Qed.

Lemma get_most_common_color_correct_witness :
  get_most_common_color (loaded ["B"; "A"; "A"; "B"; "C"]) = Ok ("B", 2)
  /\ exists token count,
       get_most_common_color (loaded ["B"; "A"; "A"; "B"; "C"])
       = Ok (token, count).
Proof.
  split; [reflexivity |].
  assert (Hnd : NoDup (map fst (PyCounter.Counter ["B"; "A"; "A"; "B"; "C"])))
    by (repeat constructor; cbn; intuition discriminate).
  destruct (proj1 (get_most_common_color_correct
                     (loaded ["B"; "A"; "A"; "B"; "C"])
                     (PyCounter.Counter ["B"; "A"; "A"; "B"; "C"])
                     eq_refl Hnd))
    as (token & count & Hres & _).
  - vm_compute. discriminate.
  - exists token, count. exact Hres.
Defined.

(** ** The order of strings and [sort] *)

Lemma leb_cons (a b : ascii) (s1 s2 : string) :
  String.leb (String a s1) (String b s2) = true <->
  (N_of_ascii a < N_of_ascii b)%N \/ (a = b /\ String.leb s1 s2 = true).
Proof.
  unfold String.leb. cbn [String.compare]. unfold Ascii.compare.
  destruct (N.compare_spec (N_of_ascii a) (N_of_ascii b)) as [Heq | Hlt | Hgt].
  - assert (a = b)
      by (rewrite <- (ascii_N_embedding a), <- (ascii_N_embedding b);
          congruence).
    split; [intros H'; right; now split |].
    intros [Hlt | [_ H']]; [lia | exact H'].
  - split; [now left | reflexivity].
  - split; [discriminate |]. intros [Hlt | [-> _]]; lia.
Qed.

Lemma str_le_trans (s1 s2 s3 : string) :
  str_le s1 s2 -> str_le s2 s3 -> str_le s1 s3.
Proof.
  unfold str_le. revert s2 s3.
  induction s1 as [| a s1 IH]; intros [| b s2] [| c s3] H12 H23;
    try reflexivity; try discriminate.
  apply leb_cons in H12. apply leb_cons in H23. apply leb_cons.
  destruct H12 as [H12 | [-> H12]], H23 as [H23 | [-> H23]].
  - left. lia.
  - left. assumption.
  - left. assumption.
  - right. split; [reflexivity |]. now apply (IH s2).
Qed.

Lemma ltb_leb (x y : string) : String.ltb x y = true -> str_le x y.
Proof.
  unfold String.ltb, str_le, String.leb.
  destruct (String.compare x y); [discriminate | reflexivity | discriminate].
Qed.

Lemma not_ltb_leb (x y : string) : String.ltb x y = false -> str_le y x.
Proof.
  unfold String.ltb, str_le, String.leb.
  rewrite (String.compare_antisym y x).
  destruct (String.compare x y); cbn;
    [reflexivity | discriminate | reflexivity].
Qed.

Lemma insert_perm (x : string) (l : list string) :
  Permutation (PyList.insert x l) (x :: l).
Proof.
  induction l as [| y l IH]; cbn [PyList.insert].
  - apply Permutation_refl.
  - destruct (String.ltb x y); [apply Permutation_refl |].
    rewrite IH. apply perm_swap.
Qed.

Lemma insert_sorted (x : string) (l : list string) :
  StronglySorted str_le l -> StronglySorted str_le (PyList.insert x l).
Proof.
  induction 1 as [| y l Hsorted IH Hall]; cbn [PyList.insert].
  - repeat constructor.
  - destruct (String.ltb x y) eqn:Hxy.
    + apply ltb_leb in Hxy.
      constructor; [constructor; assumption |].
      constructor; [assumption |].
      eapply Forall_impl; [| exact Hall].
      intros z Hz. now apply (str_le_trans x y z).
    + apply not_ltb_leb in Hxy.
      constructor; [assumption |].
      apply (Permutation_Forall (Permutation_sym (insert_perm x l))).
      constructor; assumption.
Qed.

Lemma sort_loop (l acc : list string) :
  StronglySorted str_le acc ->
  StronglySorted str_le (fold_left (fun acc x => PyList.insert x acc) l acc)
  /\ Permutation (fold_left (fun acc x => PyList.insert x acc) l acc)
                 (acc ++ l)%list.
Proof.
  revert acc. induction l as [| x l IH]; intros acc Hacc; cbn [fold_left].
  - rewrite app_nil_r. split; [assumption | apply Permutation_refl].
  - destruct (IH (PyList.insert x acc) (insert_sorted x acc Hacc))
      as [Hsorted Hperm].
    split; [assumption |].
    rewrite Hperm, insert_perm. apply Permutation_middle.
Qed.

Lemma sort_sorted (l : list string) : StronglySorted str_le (PyList.sort l).
Proof. apply sort_loop. constructor. Qed.

Lemma sort_perm (l : list string) : Permutation (PyList.sort l) l.
Proof.
  destruct (sort_loop l [] (SSorted_nil _)) as [_ Hperm]. exact Hperm.
Qed.

(** Ascending order leaves no choice: two sorted arrangements of the same
    strings are the same list, so any correct sort gives [PyList.sort]. *)
Lemma sort_unique (l1 l2 : list string) :
  StronglySorted str_le l1 -> StronglySorted str_le l2 ->
  Permutation l1 l2 -> l1 = l2.
Proof.
  intros H1. revert l2.
  induction H1 as [| a l1 Hs1 IH Ha]; intros l2 H2 Hperm.
  - apply Permutation_nil in Hperm. now subst.
  - destruct H2 as [| b l2 Hs2 Hb].
    + apply Permutation_sym, Permutation_nil in Hperm. discriminate.
    + assert (a = b) as <-.
      { rewrite Forall_forall in Ha, Hb.
        assert (Hba : In b (a :: l1))
          by (eapply Permutation_in; [symmetry; exact Hperm | now left]).
        assert (Hab : In a (b :: l2))
          by (eapply Permutation_in; [exact Hperm | now left]).
        destruct Hba as [Hba | Hba]; [assumption |].
        destruct Hab as [Hab | Hab]; [now symmetry |].
        apply String.leb_antisym; [apply Ha | apply Hb]; assumption. }
      f_equal. apply IH; [assumption |].
      eapply Permutation_cons_inv. exact Hperm.
Qed.

(** ** The median *)

Lemma expand_loop (table : PyCounter.t) (acc : list string) :
  fold_left
    (fun expanded_colors '(color, freq) =>
       (expanded_colors ++ PyList.mul color freq)%list)
    table acc
  = (acc ++ expand table)%list.
Proof.
  revert acc. induction table as [| [color freq] table IH]; intros acc;
    cbn [fold_left expand flat_map fst snd].
  - now rewrite app_nil_r.
  - rewrite IH. unfold PyList.mul. now rewrite <- app_assoc.
Qed.

Lemma get_median_color_unfold (self : BincomPythonTest) (table : PyCounter.t) :
  color_counter self = Some table ->
  get_median_color self =
  PyList.getitem (PyList.sort (expand table))
                 (PyList.len (PyList.sort (expand table)) / 2).
Proof.
  intros Hself. unfold get_median_color, the_counter. rewrite Hself.
  cbn [bind]. rewrite expand_loop. reflexivity.
Qed.

Lemma expand_absent (table : PyCounter.t) (key : string) :
  ~ In key (map fst table) -> count_occ string_dec (expand table) key = 0%nat.
Proof.
  induction table as [| [k v] table IH]; cbn [expand flat_map map fst snd];
    intros Hnot; [reflexivity |].
  rewrite count_occ_app, count_occ_repeat_neq.
  - apply IH. intros Hin. apply Hnot. now right.
  - intros ->. apply Hnot. now left.
Qed.

Lemma expand_count (table : PyCounter.t) (key : string) :
  NoDup (map fst table) ->
  count_occ string_dec (expand table) key
  = Z.to_nat (PyCounter.get table key 0).
Proof.
  induction table as [| [k v] table IH];
    cbn [expand flat_map map fst snd PyCounter.get]; intros Hnd;
    [reflexivity |].
  inversion Hnd as [| ? ? Hnotin Hnd']; subst.
  rewrite count_occ_app.
  destruct (String.eqb_spec k key) as [-> | Hne].
  - rewrite count_occ_repeat_eq by reflexivity.
    fold (expand table). rewrite expand_absent by assumption. lia.
  - rewrite count_occ_repeat_neq by congruence.
    fold (expand table). now rewrite IH.
Qed.

(** Expanding the table counted from [tokens] gives [tokens] back, up to
    order. *)
Lemma expand_Counter (tokens : list string) :
  Permutation (expand (PyCounter.Counter tokens)) tokens.
Proof.
  apply (Permutation_count_occ string_dec). intros key.
  destruct (counting_loop tokens []) as (Hnd & _ & _ & _);
    [constructor | constructor |].
  rewrite expand_count by exact Hnd.
  rewrite Counter_get. apply Nat2Z.id.
Qed.

Lemma expand_nonempty (table : PyCounter.t) :
  table <> [] -> Forall (fun item => 1 <= snd item) table ->
  expand table <> [].
Proof.
  intros Hne Hpos. destruct table as [| [k v] table]; [contradiction |].
  inversion Hpos as [| ? ? Hv _]; subst. cbn [snd] in Hv.
  cbn [expand flat_map fst snd].
  destruct (Z.to_nat v) as [| n] eqn:Hn; [lia | discriminate].
Qed.

Lemma middle_in_range {A : Type} (l : list A) :
  l <> [] -> 0 <= PyList.len l / 2 < PyList.len l.
Proof.
  intros Hne. unfold PyList.len.
  destruct l as [| x l]; [contradiction |]. cbn [List.length].
  split; [apply Z.div_pos; lia | apply Z.div_lt_upper_bound; lia].
Qed.

(** C8: on a non-empty frequency table (counts of at least 1, as
    [load_data] builds them) [get_median_color] returns the element at
    0-based index floor(length / 2) of the ascending arrangement of the
    list that repeats each token by its count; for a table counted from
    [tokens] that arrangement is [tokens] sorted.  On the empty table it
    raises [IndexError].  For the tokens [A, A, B, B, B] the arrangement
    is [A, A, B, B, B] and the median, at index 2, is "B". *)
Theorem get_median_color_correct
    (self : BincomPythonTest) (table : PyCounter.t) :
  color_counter self = Some table ->
  (table <> [] -> Forall (fun item => 1 <= snd item) table ->
   exists median sorted,
     get_median_color self = Ok median
     /\ Permutation sorted (expand table)
     /\ StronglySorted str_le sorted
     /\ (forall sorted', Permutation sorted' (expand table) ->
                         StronglySorted str_le sorted' -> sorted' = sorted)
     /\ nth_error sorted (Z.to_nat (PyList.len sorted / 2)) = Some median)
  /\ (table = [] -> get_median_color self = Raise IndexError)
  /\ (forall tokens, table = PyCounter.Counter tokens ->
        get_median_color self =
        PyList.getitem (PyList.sort tokens) (PyList.len tokens / 2))
  /\ PyList.sort (expand (PyCounter.Counter ["A"; "A"; "B"; "B"; "B"]))
     = ["A"; "A"; "B"; "B"; "B"]
  /\ get_median_color (loaded ["A"; "A"; "B"; "B"; "B"]) = Ok "B".
Proof.
  intros Hself. rewrite (get_median_color_unfold self table Hself).
  split; [| split; [| split; [| split; reflexivity]]].
  - intros Hne Hpos.
    pose proof (expand_nonempty table Hne Hpos) as Hexp.
    assert (Hsorted_ne : PyList.sort (expand table) <> []).
    { intros Hnil. apply Hexp.
      apply Permutation_nil. rewrite <- Hnil. apply sort_perm. }
    destruct (getitem_in_range _ _ (middle_in_range _ Hsorted_ne))
      as (median & Hget & Hnth).
    exists median, (PyList.sort (expand table)).
    split; [exact Hget |].
    split; [apply sort_perm |].
    split; [apply sort_sorted |].
    split; [| exact Hnth].
    intros sorted' Hperm Hsorted'.
    apply sort_unique; [assumption | apply sort_sorted |].
    rewrite Hperm. symmetry. apply sort_perm.
  - intros ->. reflexivity.
  - intros tokens ->.
    assert (Hsame : PyList.sort (expand (PyCounter.Counter tokens))
                    = PyList.sort tokens).
    { apply sort_unique; try apply sort_sorted.
      rewrite !sort_perm. apply expand_Counter. }
    rewrite Hsame. unfold PyList.len.
    rewrite (Permutation_length (sort_perm tokens)). reflexivity.
Qed.

Lemma get_median_color_correct_witness :
  exists median,
    get_median_color (loaded ["RED"; "BLUE"; "RED"; "ASH"]) = Ok median.
Proof.
  destruct (proj1 (get_median_color_correct
                     (loaded ["RED"; "BLUE"; "RED"; "ASH"])
                     (PyCounter.Counter ["RED"; "BLUE"; "RED"; "ASH"])
                     eq_refl))
    as (median & sorted & Hres & _).
  - vm_compute. discriminate.
  - repeat constructor; vm_compute; discriminate.
  - exists median. exact Hres.
Defined.

(** ** Code points, white space and letter case *)

Lemma code_points_inj (s1 s2 : string) :
  PyStr.code_points s1 = PyStr.code_points s2 -> s1 = s2.
Proof.
  unfold PyStr.code_points. revert s2.
  induction s1 as [| c1 s1 IH]; intros [| c2 s2];
    cbn [list_ascii_of_string map]; intros H; try discriminate;
    [reflexivity |].
  injection H as Hc Hs. f_equal; [| now apply IH].
  rewrite <- (ascii_N_embedding c1), <- (ascii_N_embedding c2).
  now rewrite Hc.
Qed.

Lemma of_code_points_code_points (s : string) :
  PyStr.of_code_points (PyStr.code_points s) = Some s.
Proof.
  unfold PyStr.code_points.
  induction s as [| c s IH];
    cbn [list_ascii_of_string map PyStr.of_code_points]; [reflexivity |].
  pose proof (N_ascii_bounded c) as Hc.
  destruct (N.ltb_spec (N_of_ascii c) 256) as [_ | Hge]; [| lia].
  rewrite IH, ascii_N_embedding. reflexivity.
Qed.

Lemma of_code_points_some (points : list N) (s : string) :
  PyStr.of_code_points points = Some s -> PyStr.code_points s = points.
Proof.
  revert s.
  induction points as [| n points IH]; intros s; cbn [PyStr.of_code_points].
  - intros [= <-]. reflexivity.
  - destruct (N.ltb_spec n 256) as [Hlt | _]; [| discriminate].
    destruct (PyStr.of_code_points points) as [s' |]; [| discriminate].
    intros [= <-]. unfold PyStr.code_points.
    cbn [list_ascii_of_string map].
    rewrite N_ascii_embedding by exact Hlt. f_equal. now apply IH.
Qed.

(** The lookup under a list of code points counts the tokens that have
    these code points. *)
Lemma get_key_count (tokens : list string) (key : list N) :
  PyCounter.get_key (PyCounter.Counter tokens) key 0 = count_key tokens key.
Proof.
  unfold PyCounter.get_key, count_key.
  destruct (PyStr.of_code_points key) as [k |] eqn:Hk.
  - apply of_code_points_some in Hk. subst key.
    rewrite Counter_get. f_equal. apply count_occ_map. exact code_points_inj.
  - symmetry. change 0 with (Z.of_nat 0). f_equal.
    apply count_occ_not_In. intros Hin. apply in_map_iff in Hin.
    destruct Hin as (t & <- & _).
    rewrite of_code_points_code_points in Hk. discriminate.
Qed.

Lemma count_key_bounds (tokens : list string) (key : list N) :
  0 <= count_key tokens key <= PyList.len tokens.
Proof.
  unfold count_key, PyList.len.
  pose proof (count_occ_bound (list_eq_dec N.eq_dec) key
                (map PyStr.code_points tokens)) as Hbound.
  rewrite length_map in Hbound. lia.
Qed.

Lemma count_key_absent (tokens : list string) (key : list N) :
  ~ In key (map PyStr.code_points tokens) -> count_key tokens key = 0.
Proof.
  intros Hnot. unfold count_key.
  now rewrite (proj1 (count_occ_not_In _ _ _) Hnot).
Qed.

Lemma upper_char_table (c : ascii) :
  PyStr.upper_char c = upper_form lower_case (N_of_ascii c).
Proof. destruct c as [[] [] [] [] [] [] [] []]; reflexivity. Qed.

(** ** Doubles: digits, shifts and rounding *)

Lemma inject_Z_pos (n : Z) : 0 < n -> (0 < inject_Z n)%Q.
Proof. intros Hn. change 0%Q with (inject_Z 0). now rewrite <- Zlt_Qlt. Qed.

Lemma digits2_size (p : positive) : digits2_pos p = Pos.size p.
Proof. induction p; cbn; congruence. Qed.

Lemma Zdigits2_log2 (p : positive) :
  Zdigits2 (Zpos p) = Z.log2 (Zpos p) + 1.
Proof.
  cbn [Zdigits2]. rewrite digits2_size.
  destruct p; cbn [Z.log2 Pos.size]; lia.
Qed.

Lemma Zdigits2_bounds (m : Z) :
  0 < m -> 2 ^ (Zdigits2 m - 1) <= m < 2 ^ Zdigits2 m.
Proof.
  intros Hm. destruct m as [| p | p]; try lia.
  rewrite Zdigits2_log2.
  pose proof (Z.log2_spec (Zpos p) Hm) as H.
  replace (Z.log2 (Z.pos p) + 1 - 1) with (Z.log2 (Z.pos p)) by lia.
  replace (Z.log2 (Z.pos p) + 1) with (Z.succ (Z.log2 (Z.pos p))) by lia.
  exact H.
Qed.

Lemma Zdigits2_nonneg (m : Z) : 0 <= Zdigits2 m.
Proof. destruct m; cbn; lia. Qed.

Lemma Zdigits2_le (m k : Z) :
  0 <= m -> 0 <= k -> m < 2 ^ k -> Zdigits2 m <= k.
Proof.
  intros Hm Hk Hlt.
  destruct (Z.eq_dec m 0) as [-> | Hne]; [cbn; lia |].
  pose proof (Zdigits2_bounds m ltac:(lia)) as [Hlow _].
  destruct (Z_le_gt_dec (Zdigits2 m) k) as [Hle | Hgt]; [exact Hle | exfalso].
  assert (2 ^ k <= 2 ^ (Zdigits2 m - 1)) by (apply Z.pow_le_mono_r; lia).
  lia.
Qed.

(** One shift to the right halves the mantissa; [p] shifts divide it by
    [2^p]. *)
Lemma shr_1_m (mrs : shr_record) :
  0 <= shr_m mrs -> shr_m (shr_1 mrs) = shr_m mrs / 2.
Proof.
  destruct mrs as [m r s]. cbn [shr_m shr_1]. intros Hm.
  destruct m as [| [p | p |] | p]; cbn [shr_m]; try lia.
  - reflexivity.
  - rewrite Pos2Z.inj_xI. apply Z.div_unique with (r := 1); lia.
  - rewrite Pos2Z.inj_xO. apply Z.div_unique with (r := 0); lia.
  - reflexivity.
Qed.

Lemma iter_shr_m (p : positive) (mrs : shr_record) :
  0 <= shr_m mrs ->
  shr_m (iter_pos shr_1 p mrs) = shr_m mrs / 2 ^ Zpos p.
Proof.
  revert mrs. induction p as [p IH | p IH |]; intros mrs Hm; cbn [iter_pos].
  - assert (H1 : 0 <= shr_m (shr_1 mrs))
      by (rewrite shr_1_m by assumption; apply Z.div_pos; lia).
    assert (H2 : 0 <= shr_m (iter_pos shr_1 p (shr_1 mrs)))
      by (rewrite IH by assumption; apply Z.div_pos; [assumption | lia]).
    rewrite IH, IH, shr_1_m by assumption.
    replace (2 ^ Z.pos p~1) with (2 * 2 ^ Z.pos p * 2 ^ Z.pos p)
      by (replace (Z.pos p~1) with (1 + Z.pos p + Z.pos p) by lia;
          rewrite !Z.pow_add_r, Z.pow_1_r by lia; reflexivity).
    rewrite <- !Z.div_div by lia. reflexivity.
  - assert (H2 : 0 <= shr_m (iter_pos shr_1 p mrs))
      by (rewrite IH by assumption; apply Z.div_pos; [assumption | lia]).
    rewrite IH, IH by assumption.
    replace (2 ^ Z.pos p~0) with (2 ^ Z.pos p * 2 ^ Z.pos p)
      by (rewrite Pos2Z.inj_xO, <- Z.pow_add_r by lia; f_equal; lia).
    rewrite <- Z.div_div by lia. reflexivity.
  - rewrite shr_1_m by assumption. reflexivity.
Qed.

(** [shr_fexp] brings a mantissa to the exponent its number of digits asks
    for, never to a smaller one. *)
Lemma shr_fexp_spec (m e : Z) (l : location) :
  0 <= m ->
  exists mrs e1,
    shr_fexp prec emax m e l = (mrs, e1)
    /\ e1 = Z.max e (fexp prec emax (Zdigits2 m + e))
    /\ shr_m mrs = m / 2 ^ (e1 - e).
Proof.
  intros Hm. unfold shr_fexp, shr.
  assert (Hrec : shr_m (shr_record_of_loc m l) = m)
    by (destruct l as [| []]; reflexivity).
  destruct (fexp prec emax (Zdigits2 m + e) - e) as [| p | p] eqn:Hn.
  - eexists _, _. split; [reflexivity |]. split; [lia |].
    rewrite Z.sub_diag, Z.pow_0_r, Z.div_1_r. exact Hrec.
  - eexists _, _. split; [reflexivity |]. split; [lia |].
    rewrite iter_shr_m by lia. rewrite Hrec. f_equal. f_equal. lia.
  - eexists _, _. split; [reflexivity |]. split; [lia |].
    rewrite Z.sub_diag, Z.pow_0_r, Z.div_1_r. exact Hrec.
Qed.

Lemma round_nearest_even_bounds (m : Z) (l : location) :
  m <= round_nearest_even m l <= m + 1.
Proof. destruct l as [| []]; cbn; try destruct (Z.even m); lia. Qed.

(** Rounding a mantissa that is not negative gives a zero, a finite double
    or an infinity, of the given sign. *)
Lemma binary_round_aux_shape (sx : bool) (q e' : Z) (l : location) :
  0 <= q ->
  binary_round_aux prec emax sx q e' l = S754_zero sx
  \/ binary_round_aux prec emax sx q e' l = S754_infinity sx
  \/ exists m e, binary_round_aux prec emax sx q e' l = S754_finite sx m e.
Proof.
  intros Hq. unfold binary_round_aux.
  destruct (shr_fexp_spec q e' l Hq) as (mrs1 & e1 & -> & He1 & Hm1).
  pose proof (round_nearest_even_bounds (shr_m mrs1) (loc_of_shr_record mrs1))
    as Hm2.
  assert (Hm1pos : 0 <= shr_m mrs1)
    by (rewrite Hm1; apply Z.div_pos; [lia | apply Z.pow_pos_nonneg; lia]).
  destruct (shr_fexp_spec
              (round_nearest_even (shr_m mrs1) (loc_of_shr_record mrs1))
              e1 loc_Exact ltac:(lia))
    as (mrs2 & e2 & -> & He2 & Hm3).
  assert (Hm3pos : 0 <= shr_m mrs2)
    by (rewrite Hm3; apply Z.div_pos; [lia | apply Z.pow_pos_nonneg; lia]).
  destruct (shr_m mrs2) as [| m | m]; [now left | | lia].
  right. destruct (e2 <=? emax - prec); [right; now exists m, e2 | now left].
Qed.

(** A quotient below [2^B], cut at the exponent [e'], is rounded to a
    double that is at most [2^B]; with [B <= 1023] nothing overflows. *)
Lemma binary_round_aux_bound (sx : bool) (q e' B : Z) (l : location) :
  0 <= q -> e' <= 0 -> 0 <= B <= 1023 -> q < 2 ^ (B - e') ->
  binary_round_aux prec emax sx q e' l = S754_zero sx
  \/ exists m e,
       binary_round_aux prec emax sx q e' l = S754_finite sx m e
       /\ e <= B /\ Zpos m <= 2 ^ (B - e).
Proof.
  intros Hq He' HB Hlt. unfold binary_round_aux.
  destruct (shr_fexp_spec q e' l Hq) as (mrs1 & e1 & -> & He1 & Hm1).
  set (m1 := shr_m mrs1) in *.
  set (m2 := round_nearest_even m1 (loc_of_shr_record mrs1)).
  pose proof (round_nearest_even_bounds m1 (loc_of_shr_record mrs1)) as Hm2.
  fold m2 in Hm2.
  assert (Hm1pos : 0 <= m1)
    by (rewrite Hm1; apply Z.div_pos; [lia | apply Z.pow_pos_nonneg; lia]).
  destruct (shr_fexp_spec m2 e1 loc_Exact ltac:(lia))
    as (mrs2 & e2 & -> & He2 & Hm3).
  pose proof (Zdigits2_le q (B - e') Hq ltac:(lia) Hlt) as Hdq.
  pose proof (Zdigits2_nonneg q) as Hdq0.
  unfold fexp, SpecFloat.emin, prec, emax in He1, He2.
  assert (He1B : e' <= e1 <= B) by lia.
  assert (Hm1lt : m1 < 2 ^ (B - e1)).
  { rewrite Hm1. apply Z.div_lt_upper_bound; [apply Z.pow_pos_nonneg; lia |].
    rewrite <- Z.pow_add_r by lia.
    replace (e1 - e' + (B - e1)) with (B - e') by lia. exact Hlt. }
  assert (Hm2lt : m2 < 2 ^ (B - e1 + 1)).
  { rewrite Z.pow_add_r, Z.pow_1_r by lia. lia. }
  pose proof (Zdigits2_le m2 (B - e1 + 1) ltac:(lia) ltac:(lia) Hm2lt) as Hdm.
  pose proof (Zdigits2_nonneg m2) as Hdm0.
  assert (He2B : e1 <= e2 <= B) by lia.
  assert (Hm3le : shr_m mrs2 <= 2 ^ (B - e2)).
  { rewrite Hm3. apply Z.div_le_upper_bound; [apply Z.pow_pos_nonneg; lia |].
    rewrite <- Z.pow_add_r by lia.
    replace (e2 - e1 + (B - e2)) with (B - e1) by lia. lia. }
  assert (Hm3pos : 0 <= shr_m mrs2)
    by (rewrite Hm3; apply Z.div_pos; [lia | apply Z.pow_pos_nonneg; lia]).
  destruct (shr_m mrs2) as [| m | m]; [now left | | lia].
  right. exists m, e2. unfold prec, emax.
  destruct (Z.leb_spec e2 (1024 - 53)) as [_ | Hover]; [| lia].
  split; [reflexivity |]. split; [lia | exact Hm3le].
Qed.

(** A positive mantissa at an exponent that is not below [emin] is never
    shifted away, so what is rounded from it is not a zero. *)
Lemma shr_fexp_positive (m e e1 : Z) :
  0 < m -> -1074 <= e ->
  e1 = Z.max e (fexp prec emax (Zdigits2 m + e)) ->
  0 < m / 2 ^ (e1 - e).
Proof.
  intros Hm He He1.
  pose proof (Zdigits2_bounds m Hm) as [Hlow _].
  pose proof (Zdigits2_nonneg m) as Hd.
  unfold fexp, SpecFloat.emin, prec, emax in He1.
  assert (Hd1 : 1 <= Zdigits2 m).
  { destruct m as [| p | p]; try lia. cbn. lia. }
  assert (Hpow : 2 ^ (e1 - e) <= 2 ^ (Zdigits2 m - 1))
    by (apply Z.pow_le_mono_r; lia).
  apply Z.lt_le_trans with (m := 1); [lia |].
  apply Z.div_le_lower_bound; [apply Z.pow_pos_nonneg; lia | lia].
Qed.

Lemma binary_round_aux_positive (sx s : bool) (q e' : Z) (l : location) :
  0 < q -> -1074 <= e' ->
  binary_round_aux prec emax sx q e' l <> S754_zero s.
Proof.
  intros Hq He'. unfold binary_round_aux.
  destruct (shr_fexp_spec q e' l ltac:(lia)) as (mrs1 & e1 & -> & He1 & Hm1).
  pose proof (shr_fexp_positive q e' e1 Hq He' He1) as Hm1pos.
  rewrite <- Hm1 in Hm1pos.
  pose proof (round_nearest_even_bounds (shr_m mrs1) (loc_of_shr_record mrs1))
    as Hm2.
  destruct (shr_fexp_spec
              (round_nearest_even (shr_m mrs1) (loc_of_shr_record mrs1))
              e1 loc_Exact ltac:(lia))
    as (mrs2 & e2 & -> & He2 & Hm3).
  pose proof (shr_fexp_positive
                (round_nearest_even (shr_m mrs1) (loc_of_shr_record mrs1))
                e1 e2 ltac:(lia) ltac:(lia) He2) as Hm3pos.
  rewrite <- Hm3 in Hm3pos.
  destruct (shr_m mrs2) as [| m | m]; [lia | | lia].
  destruct (e2 <=? emax - prec); discriminate.
Qed.

(** ** Integer division *)

(** The division of two positive integers cuts the exact quotient at an
    exponent [e' <= 0] and hands it to the rounding. *)
Lemma SFdiv_core_spec (mx my : positive) :
  exists e',
    e' = Z.min (fexp prec emax (Zdigits2 (Zpos mx) - Zdigits2 (Zpos my))) 0
    /\ SFdiv_core_binary prec emax (Zpos mx) 0 (Zpos my) 0
       = (Zpos mx * 2 ^ (- e') / Zpos my, e',
          new_location (Zpos my) ((Zpos mx * 2 ^ (- e')) mod Zpos my)).
Proof.
  unfold SFdiv_core_binary. cbv zeta.
  rewrite !Z.add_0_r. change (0 - 0) with 0.
  set (e' := Z.min (fexp prec emax
                      (Zdigits2 (Zpos mx) - Zdigits2 (Zpos my))) 0).
  exists e'. split; [reflexivity |].
  assert (Hm' : match 0 - e' with
                | 0 => Zpos mx
                | Zpos _ => Z.shiftl (Zpos mx) (0 - e')
                | Zneg _ => 0
                end = Zpos mx * 2 ^ (- e')).
  { replace (0 - e') with (- e') by lia.
    destruct (- e') as [| s | s] eqn:Hs.
    - rewrite Z.pow_0_r. lia.
    - apply Z.shiftl_mul_pow2. lia.
    - lia. }
  rewrite Hm'. unfold Z.div, Z.modulo.
  destruct (Z.div_eucl (Zpos mx * 2 ^ (- e')) (Zpos my)). reflexivity.
Qed.

Lemma truediv_zero (b : Z) :
  0 < b -> PyFloat.truediv 0 b = Ok (S754_zero false).
Proof.
  intros Hb. unfold PyFloat.truediv.
  destruct (Z.eqb_spec b 0) as [Hb0 | _]; [lia |].
  destruct b; try lia. reflexivity.
Qed.

(** What a division can do when the divisor is positive and the dividend
    is not negative. *)
Lemma truediv_shape (a b : Z) :
  0 <= a -> 0 < b ->
  PyFloat.truediv a b = Raise OverflowError
  \/ PyFloat.truediv a b = Ok (S754_zero false)
  \/ exists m e, PyFloat.truediv a b = Ok (S754_finite false m e).
Proof.
  intros Ha Hb. unfold PyFloat.truediv.
  destruct (Z.eqb_spec b 0) as [Hb0 | _]; [lia |].
  destruct b as [| my | my]; try lia.
  destruct a as [| mx | mx]; try lia; [right; now left |].
  cbn [PyFloat.operand SFdiv xorb].
  destruct (SFdiv_core_spec mx my) as (e' & He' & ->).
  assert (Hq : 0 <= Zpos mx * 2 ^ (- e') / Zpos my).
  { apply Z.div_pos; [| lia]. apply Z.mul_nonneg_nonneg; [lia |].
    apply Z.pow_nonneg. lia. }
  destruct (binary_round_aux_shape false _ e'
              (new_location (Zpos my) ((Zpos mx * 2 ^ (- e')) mod Zpos my)) Hq)
    as [-> | [-> | (m & e & ->)]].
  - right. now left.
  - now left.
  - right. right. now exists m, e.
Qed.

(** No overflow, and a double that is at most [2^B], when the exact
    quotient is below [2^B] and [B <= 1023]. *)
Lemma truediv_below (a b B : Z) :
  0 <= a -> 0 < b -> 0 <= B <= 1023 -> a < 2 ^ B * b ->
  PyFloat.truediv a b = Ok (S754_zero false)
  \/ exists m e,
       PyFloat.truediv a b = Ok (S754_finite false m e)
       /\ e <= B /\ Zpos m <= 2 ^ (B - e).
Proof.
  intros Ha Hb HB Hlt. unfold PyFloat.truediv.
  destruct (Z.eqb_spec b 0) as [Hb0 | _]; [lia |].
  destruct b as [| my | my]; try lia.
  destruct a as [| mx | mx]; try lia; [now left |].
  cbn [PyFloat.operand SFdiv xorb].
  destruct (SFdiv_core_spec mx my) as (e' & He' & ->).
  assert (Hq : 0 <= Zpos mx * 2 ^ (- e') / Zpos my).
  { apply Z.div_pos; [| lia]. apply Z.mul_nonneg_nonneg; [lia |].
    apply Z.pow_nonneg. lia. }
  assert (Hbelow : Zpos mx * 2 ^ (- e') / Zpos my < 2 ^ (B - e')).
  { apply Z.div_lt_upper_bound; [lia |].
    replace (B - e') with (B + - e') by lia.
    rewrite Z.pow_add_r by lia.
    assert (0 < 2 ^ (- e')) by (apply Z.pow_pos_nonneg; lia). nia. }
  destruct (binary_round_aux_bound false _ e' B
              (new_location (Zpos my) ((Zpos mx * 2 ^ (- e')) mod Zpos my))
              Hq ltac:(lia) HB Hbelow)
    as [-> | (m & e & -> & He & Hm)].
  - now left.
  - right. exists m, e. repeat split; assumption.
Qed.

(** No underflow to zero while the divisor is at most [2^1074] times the
    dividend. *)
Lemma truediv_positive (a b : Z) (s : bool) :
  0 < a -> 0 < b -> b <= a * 2 ^ 1074 ->
  PyFloat.truediv a b <> Ok (S754_zero s).
Proof.
  intros Ha Hb Hsize. unfold PyFloat.truediv.
  destruct (Z.eqb_spec b 0) as [Hb0 | _]; [lia |].
  destruct b as [| my | my]; try lia.
  destruct a as [| mx | mx]; try lia.
  cbn [PyFloat.operand SFdiv xorb].
  destruct (SFdiv_core_spec mx my) as (e' & He' & ->).
  pose proof (Zdigits2_bounds (Zpos mx) ltac:(lia)) as [Hx _].
  pose proof (Zdigits2_bounds (Zpos my) ltac:(lia)) as [_ Hy].
  pose proof (Zdigits2_nonneg (Zpos mx)) as Hdx.
  pose proof (Zdigits2_nonneg (Zpos my)) as Hdy.
  unfold fexp, SpecFloat.emin, prec, emax in He'.
  assert (Hq : 0 < Zpos mx * 2 ^ (- e') / Zpos my).
  { apply Z.lt_le_trans with (m := 1); [lia |].
    apply Z.div_le_lower_bound; [lia |]. rewrite Z.mul_1_r.
    destruct (Z_le_gt_dec 1074 (- e')) as [Hbig | Hsmall].
    - replace (- e') with 1074 by lia. exact Hsize.
    - assert (Hdx1 : 1 <= Zdigits2 (Zpos mx)) by (cbn; lia).
      assert (Hpow : 2 ^ Zdigits2 (Zpos my)
                     <= 2 ^ (Zdigits2 (Zpos mx) - 1) * 2 ^ (- e')).
      { rewrite <- Z.pow_add_r by lia. apply Z.pow_le_mono_r; lia. }
      assert (0 < 2 ^ (- e')) by (apply Z.pow_pos_nonneg; lia).
      nia. }
  assert (Hround := binary_round_aux_positive false s _ e'
                      (new_location (Zpos my)
                         ((Zpos mx * 2 ^ (- e')) mod Zpos my))
                      Hq ltac:(lia)).
  destruct (binary_round_aux prec emax false
              (Zpos mx * 2 ^ (- e') / Zpos my) e'
              (new_location (Zpos my) ((Zpos mx * 2 ^ (- e')) mod Zpos my)));
    congruence.
Qed.

(** A positive integer divided by itself is the double 1.0. *)
Lemma truediv_same (a : Z) :
  0 < a ->
  PyFloat.truediv a a = Ok (S754_finite false 4503599627370496 (-52)).
Proof.
  intros Ha. unfold PyFloat.truediv.
  destruct (Z.eqb_spec a 0) as [Ha0 | _]; [lia |].
  destruct a as [| p | p]; try lia.
  cbn [PyFloat.operand SFdiv xorb].
  destruct (SFdiv_core_spec p p) as (e' & He' & ->).
  rewrite Z.sub_diag in He'. vm_compute in He'. subst e'.
  rewrite (Z.mul_comm (Zpos p)), Z.div_mul, Z.mod_mul by lia.
  assert (Hloc : new_location (Zpos p) 0 = loc_Exact)
    by (unfold new_location; destruct (Z.even (Zpos p)); reflexivity).
  rewrite Hloc. vm_compute. reflexivity.
Qed.

(** The only exception of a division by a divisor that is not 0 *)
Lemma truediv_raises (a b : Z) (e : exn) :
  b <> 0 -> PyFloat.truediv a b = Raise e -> e = OverflowError.
Proof.
  intros Hb. unfold PyFloat.truediv.
  destruct (Z.eqb_spec b 0) as [Hb0 | _]; [contradiction |].
  destruct (SFdiv prec emax (PyFloat.operand a) (PyFloat.operand b));
    congruence.
Qed.

(** The value of a positive double with [m * 2^e <= 1] *)
Lemma float_value_unit (m : positive) (e : Z) :
  e <= 0 -> Zpos m <= 2 ^ (- e) ->
  (0 <= float_value (S754_finite false m e) <= 1)%Q.
Proof.
  intros He Hm. cbn [float_value].
  replace e with (- - e) at 1 2 by lia.
  change (2 # 1) with (inject_Z 2).
  rewrite Qpower_opp, <- Zpower_Qpower by lia.
  assert (Hpow : 0 < 2 ^ (- e)) by (apply Z.pow_pos_nonneg; lia).
  assert (Hpos : (0 < inject_Z (2 ^ (- e)))%Q).
  { change 0%Q with (inject_Z 0). now rewrite <- Zlt_Qlt. }
  fold (Qdiv (inject_Z (Zpos m)) (inject_Z (2 ^ (- e)))).
  split.
  - apply Qle_shift_div_l; [exact Hpos |].
    rewrite Qmult_0_l. change 0%Q with (inject_Z 0).
    rewrite <- Zle_Qle. lia.
  - apply Qle_shift_div_r; [exact Hpos |].
    rewrite Qmult_1_l. now rewrite <- Zle_Qle.
Qed.

Lemma float_value_positive (m : positive) (e : Z) :
  (0 < float_value (S754_finite false m e))%Q.
Proof.
  cbn [float_value].
  rewrite <- (Qmult_0_l ((2 # 1) ^ e)).
  apply Qmult_lt_compat_r; [now apply Qpower_0_lt | reflexivity].
Qed.

(** A count divided by a total that is not below it: a double between 0
    and 1, and nothing raised. *)
Lemma truediv_fraction (a b : Z) :
  0 <= a <= b -> 0 < b ->
  exists p, PyFloat.truediv a b = Ok p
            /\ (0 <= float_value p <= 1)%Q
            /\ (a = 0 -> p = S754_zero false)
            /\ (a = b -> p = S754_finite false 4503599627370496 (-52))
            /\ (0 < a -> b <= a * 2 ^ 1074 -> (0 < float_value p)%Q).
Proof.
  intros Hab Hb.
  destruct (Z.eq_dec a b) as [-> | Hne].
  { rewrite (truediv_same b Hb). eexists. split; [reflexivity |].
    split; [apply float_value_unit; [lia | vm_compute; discriminate] |].
    split; [lia |]. split; [reflexivity |].
    intros _ _. apply float_value_positive. }
  destruct (truediv_below a b 0 ltac:(lia) Hb ltac:(lia) ltac:(lia))
    as [Hzero | (m & e & Hfinite & He & Hm)].
  - rewrite Hzero. eexists. split; [reflexivity |].
    split; [split; [apply Qle_refl | discriminate] |].
    split; [reflexivity |]. split; [lia |].
    intros Ha Hsize. exfalso.
    exact (truediv_positive a b false Ha Hb Hsize Hzero).
  - rewrite Hfinite. eexists. split; [reflexivity |].
    split; [apply float_value_unit; assumption |].
    split; [| split; [lia | intros _ _; apply float_value_positive]].
    intros ->. rewrite (truediv_zero b Hb) in Hfinite. discriminate.
Qed.

(** ** The rounded quotient is next to the exact one *)

(** What [shr_fexp] cuts off is less than one unit of the new exponent. *)
Lemma shifted_brackets (m n : Z) :
  0 <= m -> 0 <= n ->
  m / 2 ^ n * 2 ^ n <= m < (m / 2 ^ n + 1) * 2 ^ n.
Proof.
  intros Hm Hn.
  assert (Hpow : 0 < 2 ^ n) by (apply Z.pow_pos_nonneg; lia).
  pose proof (Z.div_mod m (2 ^ n) ltac:(lia)) as Hdiv.
  pose proof (Z.mod_pos_bound m (2 ^ n) Hpow) as Hmod.
  nia.
Qed.

(** The mantissa that comes out of the rounding differs by less than one
    unit, at its exponent, from the mantissa that went in. *)
Lemma binary_round_aux_near (sx : bool) (q e' : Z) (l : location)
    (m : positive) (e : Z) :
  0 <= q -> -1074 <= e' ->
  binary_round_aux prec emax sx q e' l = S754_finite sx m e ->
  e' <= e
  /\ (Zpos m - 1) * 2 ^ (e - e') <= q < (Zpos m + 1) * 2 ^ (e - e').
Proof.
  intros Hq He'. unfold binary_round_aux.
  destruct (shr_fexp_spec q e' l Hq) as (mrs1 & e1 & -> & He1 & Hm1).
  set (m1 := shr_m mrs1) in *.
  set (m2 := round_nearest_even m1 (loc_of_shr_record mrs1)).
  pose proof (round_nearest_even_bounds m1 (loc_of_shr_record mrs1)) as Hm2.
  fold m2 in Hm2.
  assert (Hm1pos : 0 <= m1)
    by (rewrite Hm1; apply Z.div_pos; [lia | apply Z.pow_pos_nonneg; lia]).
  destruct (shr_fexp_spec m2 e1 loc_Exact ltac:(lia))
    as (mrs2 & e2 & -> & He2 & Hm3).
  pose proof (Zdigits2_nonneg q) as Hdq0.
  pose proof (Zdigits2_nonneg m2) as Hdm0.
  unfold fexp, SpecFloat.emin, prec, emax in He1, He2.
  assert (Hn1 : 0 <= e1 - e') by lia.
  pose proof (shifted_brackets q (e1 - e') Hq Hn1) as Hq1.
  rewrite <- Hm1 in Hq1.
  assert (Hpow1 : 0 < 2 ^ (e1 - e')) by (apply Z.pow_pos_nonneg; lia).
  (* the first mantissa has at most 53 digits *)
  assert (Hm1small : m1 < 2 ^ 53).
  { rewrite Hm1. apply Z.div_lt_upper_bound; [exact Hpow1 |].
    rewrite <- Z.pow_add_r by lia.
    destruct (Z.eq_dec q 0) as [-> | Hq0]; [apply Z.pow_pos_nonneg; lia |].
    pose proof (Zdigits2_bounds q ltac:(lia)) as [_ Hup].
    apply Z.lt_le_trans with (m := 2 ^ Zdigits2 q); [exact Hup |].
    apply Z.pow_le_mono_r; lia. }
  assert (Hm2small : m2 < 2 ^ 54).
  { change (2 ^ 54) with (2 * 2 ^ 53). lia. }
  pose proof (Zdigits2_le m2 54 ltac:(lia) ltac:(lia) Hm2small) as Hd2.
  destruct (shr_m mrs2) as [| m3 | m3] eqn:Hm3'; try discriminate.
  destruct (e2 <=? emax - prec); [| discriminate].
  intros [= <- <-].
  destruct (Z.eq_dec e2 e1) as [Hsame | Hshift].
  - (* no second shift *)
    rewrite Hsame, Z.sub_diag, Z.pow_0_r, Z.div_1_r in Hm3.
    split; [lia |]. rewrite Hsame, Hm3. nia.
  - (* the rounding carried into a 54th digit: the mantissa is 2^53 *)
    assert (Hd54 : Zdigits2 m2 = 54) by lia.
    assert (Hm2big : 2 ^ 53 <= m2).
    { destruct (Z.eq_dec m2 0) as [H0 | H0];
        [rewrite H0 in Hd54; discriminate |].
      pose proof (Zdigits2_bounds m2 ltac:(lia)) as [Hlow _].
      rewrite Hd54 in Hlow. exact Hlow. }
    assert (Hm2eq : m2 = 2 ^ 53) by lia.
    assert (He2eq : e2 = e1 + 1) by lia.
    rewrite He2eq in Hm3.
    replace (e1 + 1 - e1) with 1 in Hm3 by lia.
    rewrite Hm2eq in Hm3. change (2 ^ 53 / 2 ^ 1) with (2 ^ 52) in Hm3.
    split; [lia |]. rewrite He2eq, Hm3.
    replace (e1 + 1 - e') with (1 + (e1 - e')) by lia.
    rewrite Z.pow_add_r, Z.pow_1_r by lia.
    change (2 ^ 53) with (2 * 2 ^ 52) in Hm2eq. nia.
Qed.

(** The double that a division of positive integers returns is less than
    one unit in its last place away from the exact quotient:
    [(m - 1) * 2^e <= a / b < (m + 1) * 2^e]. *)
Lemma truediv_near (a b : Z) (m : positive) (e : Z) :
  0 < a -> 0 < b ->
  PyFloat.truediv a b = Ok (S754_finite false m e) ->
  (inject_Z (Zpos m - 1) * (2 # 1) ^ e <= inject_Z a / inject_Z b)%Q
  /\ (inject_Z a / inject_Z b < inject_Z (Zpos m + 1) * (2 # 1) ^ e)%Q.
Proof.
  intros Ha Hb. unfold PyFloat.truediv.
  destruct (Z.eqb_spec b 0) as [Hb0 | _]; [lia |].
  destruct b as [| my | my]; try lia.
  destruct a as [| mx | mx]; try lia.
  cbn [PyFloat.operand SFdiv xorb].
  destruct (SFdiv_core_spec mx my) as (e' & He' & ->).
  set (A := Zpos mx * 2 ^ (- e')).
  assert (He'0 : -1074 <= e' <= 0)
    by (unfold fexp, SpecFloat.emin, prec, emax in He'; lia).
  assert (Hpow : 0 < 2 ^ (- e')) by (apply Z.pow_pos_nonneg; lia).
  assert (HA : 0 <= A) by (subst A; nia).
  assert (Hq : 0 <= A / Zpos my) by (apply Z.div_pos; lia).
  destruct (binary_round_aux prec emax false (A / Zpos my) e'
              (new_location (Zpos my) (A mod Zpos my))) as [| | | s m' e0]
    eqn:Hround; try discriminate.
  intros [= -> -> ->].
  destruct (binary_round_aux_near false _ e' _ m e Hq ltac:(lia) Hround)
    as (He & Hlow & Hup).
  pose proof (Z.div_mod A (Zpos my) ltac:(lia)) as Hdiv.
  pose proof (Z.mod_pos_bound A (Zpos my) ltac:(lia)) as Hmod.
  assert (Hpow2 : 0 < 2 ^ (e - e')) by (apply Z.pow_pos_nonneg; lia).
  (* in integers *)
  assert (HlowZ : (Zpos m - 1) * 2 ^ (e - e') * Zpos my <= A) by nia.
  assert (HupZ : A < (Zpos m + 1) * 2 ^ (e - e') * Zpos my) by nia.
  (* in rationals: multiply through by 2^e' *)
  assert (Hmy : (0 < inject_Z (Zpos my))%Q) by (apply inject_Z_pos; lia).
  assert (H2 : ~ ((2 # 1) == 0)%Q) by discriminate.
  assert (Hsplit : ((2 # 1) ^ e == inject_Z (2 ^ (e - e')) * (2 # 1) ^ e')%Q).
  { replace e with ((e - e') + e') at 1 by lia.
    rewrite Qpower_plus by exact H2.
    change (2 # 1) with (inject_Z 2) at 1.
    rewrite <- Zpower_Qpower by lia. reflexivity. }
  assert (HA' : (inject_Z (Zpos mx) == inject_Z A * (2 # 1) ^ e')%Q).
  { subst A. rewrite inject_Z_mult.
    change (2 # 1) with (inject_Z 2).
    rewrite (Zpower_Qpower 2 (- e')) by lia.
    rewrite Qpower_opp. field.
    change (inject_Z 2) with (2 # 1).
    intros H0. apply (Qpower_not_0 (2 # 1) e') in H0; [exact H0 | exact H2]. }
  assert (Hpe : (0 < (2 # 1) ^ e')%Q) by (now apply Qpower_0_lt).
  rewrite Hsplit, HA'. split.
  - apply Qle_shift_div_l; [exact Hmy |].
    rewrite (Qmult_assoc (inject_Z (Zpos m - 1))).
    rewrite <- (inject_Z_mult (Zpos m - 1)).
    setoid_replace (inject_Z ((Z.pos m - 1) * 2 ^ (e - e')) * (2 # 1) ^ e'
                    * inject_Z (Z.pos my))%Q
      with (inject_Z ((Z.pos m - 1) * 2 ^ (e - e') * Z.pos my)
            * (2 # 1) ^ e')%Q
      by (rewrite (inject_Z_mult _ (Z.pos my)); ring).
    apply Qmult_le_compat_r; [| now apply Qlt_le_weak].
    now rewrite <- Zle_Qle.
  - apply Qlt_shift_div_r; [exact Hmy |].
    rewrite (Qmult_assoc (inject_Z (Zpos m + 1))).
    rewrite <- (inject_Z_mult (Zpos m + 1)).
    setoid_replace (inject_Z ((Z.pos m + 1) * 2 ^ (e - e')) * (2 # 1) ^ e'
                    * inject_Z (Z.pos my))%Q
      with (inject_Z ((Z.pos m + 1) * 2 ^ (e - e') * Z.pos my)
            * (2 # 1) ^ e')%Q
      by (rewrite (inject_Z_mult _ (Z.pos my)); ring).
    apply Qmult_lt_compat_r; [exact Hpe |].
    now rewrite <- Zlt_Qlt.
Qed.

Lemma within_one_ulp_eq (f : spec_float) (q1 q2 : Q) :
  (q1 == q2)%Q -> within_one_ulp f q1 -> within_one_ulp f q2.
Proof.
  intros Heq. destruct f as [s | s | | [] m e]; cbn [within_one_ulp];
    try tauto; now rewrite Heq.
Qed.

(** Whatever an integer division returns is within one unit in the last
    place of the exact quotient. *)
Lemma truediv_rounds (a b : Z) (f : spec_float) :
  0 <= a -> 0 < b ->
  PyFloat.truediv a b = Ok f ->
  within_one_ulp f (inject_Z a / inject_Z b).
Proof.
  intros Ha Hb Hf.
  pose proof (inject_Z_pos b Hb) as Hbq.
  destruct (Z.eq_dec a 0) as [-> | Ha0].
  { rewrite (truediv_zero b Hb) in Hf. injection Hf as <-.
    cbn [within_one_ulp]. unfold Qdiv. rewrite Qmult_0_l.
    split; [apply Qle_refl | now apply Qpower_0_lt]. }
  destruct (truediv_shape a b Ha Hb) as [Hr | [Hz | (m & e & Hfin)]].
  - congruence.
  - rewrite Hz in Hf. injection Hf as <-. cbn [within_one_ulp].
    assert (Hbig : a * 2 ^ 1074 < b).
    { destruct (Z_lt_le_dec (a * 2 ^ 1074) b) as [Hlt | Hle]; [exact Hlt |].
      exfalso. exact (truediv_positive a b false ltac:(lia) Hb Hle Hz). }
    split.
    + apply Qle_shift_div_l; [exact Hbq |].
      rewrite Qmult_0_l. change 0%Q with (inject_Z 0).
      rewrite <- Zle_Qle. exact Ha.
    + apply Qlt_shift_div_r; [exact Hbq |].
      change (-1074) with (- (1074)). rewrite Qpower_opp.
      change (2 # 1) with (inject_Z 2). rewrite <- Zpower_Qpower by lia.
      assert (Hpow : (0 < inject_Z (2 ^ 1074))%Q)
        by (apply inject_Z_pos, Z.pow_pos_nonneg; lia).
      rewrite Qmult_comm. fold (Qdiv (inject_Z b) (inject_Z (2 ^ 1074))).
      apply Qlt_shift_div_l; [exact Hpow |].
      rewrite <- inject_Z_mult, <- Zlt_Qlt. exact Hbig.
  - rewrite Hfin in Hf. injection Hf as <-. cbn [within_one_ulp].
    apply truediv_near; [lia | exact Hb | exact Hfin].
Qed.

(** ** The probability of a colour *)

Lemma get_color_probability_unfold (self : BincomPythonTest)
    (tokens : list string) (target_color : string) :
  colors self = tokens ->
  color_counter self = Some (PyCounter.Counter tokens) ->
  get_color_probability self target_color =
  PyFloat.truediv (count_key tokens (PyStr.upper target_color))
                  (PyList.len tokens).
Proof.
  intros Hcolors Hcounter. unfold get_color_probability, the_counter.
  rewrite Hcounter, Hcolors. cbn [bind]. now rewrite get_key_count.
Qed.

Lemma len_nonempty {A : Type} (l : list A) : l <> [] -> 0 < PyList.len l.
Proof.
  intros Hne. destruct l; [contradiction |]. unfold PyList.len. cbn. lia.
Qed.

Lemma Counter_total (tokens : list string) :
  Zsum (PyCounter.values (PyCounter.Counter tokens)) = PyList.len tokens.
Proof.
  destruct (counting_loop tokens []) as (_ & _ & Hsum & _);
    [constructor | constructor |].
  exact Hsum.
Qed.

Lemma Counter_positive (tokens : list string) :
  Forall (fun item => 1 <= snd item) (PyCounter.Counter tokens).
Proof.
  destruct (counting_loop tokens []) as (_ & Hpos & _);
    [constructor | constructor | exact Hpos].
Qed.

Lemma Zsum_bounds (l : list Z) :
  Forall (fun x => 0 <= x) l ->
  0 <= Zsum l /\ Forall (fun x => x <= Zsum l) l.
Proof.
  induction 1 as [| x l Hx _ [IH1 IH2]]; cbn [Zsum fold_right].
  - split; [lia | constructor].
  - fold (Zsum l). split; [lia |]. constructor; [lia |].
    eapply Forall_impl; [| exact IH2]. cbv beta. intros y Hy. lia.
Qed.

(** No count exceeds the number of tokens. *)
Lemma Counter_counts_below (tokens : list string) (bound : Z) :
  PyList.len tokens < bound ->
  Forall (fun x => Z.abs x < bound)
         (PyCounter.values (PyCounter.Counter tokens)).
Proof.
  intros Hlen.
  assert (Hnonneg : Forall (fun x => 0 <= x)
                      (PyCounter.values (PyCounter.Counter tokens))).
  { unfold PyCounter.values. apply Forall_map.
    eapply Forall_impl; [| apply Counter_positive].
    cbv beta. intros item. lia. }
  destruct (Zsum_bounds _ Hnonneg) as [_ Hbelow].
  rewrite Counter_total in Hbelow.
  rewrite Forall_forall in *. intros x Hx.
  specialize (Hnonneg x Hx). specialize (Hbelow x Hx). lia.
Qed.

#[local] Set Warnings "-inexact-float".

(** C9: with a non-empty token list of [T] tokens loaded,
    [get_color_probability(token)] is the count of the upper-cased token
    divided by [T], as the double that the division of these two integers
    returns: a double between 0 and 1, less than one unit in its last
    place away from the exact quotient; nothing is raised.  The token is
    upper-cased before the lookup, by Unicode's mapping (so an e with an
    acute accent finds its capital, and "stra" + sharp s + "e" finds
    "STRASSE"), and tokens with the same upper-case form get the same
    answer; the answer is 0.0 when the upper-cased token is not in the
    table.  With ten tokens of which three are RED, the probability of
    "red" is the double 0.3, and that of "PURPLE" is 0.0. *)
Theorem get_color_probability_correct (self : BincomPythonTest)
    (tokens : list string) (target_color : string) :
  colors self = tokens ->
  color_counter self = Some (PyCounter.Counter tokens) ->
  tokens <> [] ->
  (let count := count_key tokens (PyStr.upper target_color) in
   let T := Zsum (PyCounter.values (PyCounter.Counter tokens)) in
   get_color_probability self target_color = PyFloat.truediv count T
   /\ count = PyCounter.get_key (PyCounter.Counter tokens)
                (PyStr.upper target_color) 0
   /\ T = PyList.len tokens
   /\ (exists p, get_color_probability self target_color = Ok p
                 /\ (0 <= float_value p <= 1)%Q)
   /\ (forall p, get_color_probability self target_color = Ok p ->
                 within_one_ulp p (inject_Z count / inject_Z T))
   /\ (forall other,
         PyStr.upper other = PyStr.upper target_color ->
         get_color_probability self other
         = get_color_probability self target_color)
   /\ (~ In (PyStr.upper target_color) (map PyStr.code_points tokens) ->
       get_color_probability self target_color = Ok (S754_zero false)))
  /\ (forall c, PyStr.upper_char c = upper_form lower_case (N_of_ascii c))
  /\ PyStr.upper "red" = PyStr.code_points "RED"
  /\ PyList.len ten_tokens = 10
  /\ count_key ten_tokens (PyStr.code_points "RED") = 3
  /\ get_color_probability (loaded ten_tokens) "red" = Ok (Prim2SF 0.3)
  /\ Prim2SF 0.3 = S754_finite false 5404319552844595 (-54)
  /\ get_color_probability (loaded ten_tokens) "PURPLE" = Ok (Prim2SF 0)
  /\ get_color_probability (loaded [String "201" ""]) (String "233" "")
     = Ok (Prim2SF 1)
  /\ PyStr.upper ("stra" ++ String "223" "e") = PyStr.code_points "STRASSE"
  /\ get_color_probability (loaded ["STRASSE"]) ("stra" ++ String "223" "e")
     = Ok (Prim2SF 1)
  /\ PyStr.upper (String "255" "") = [376%N]
  /\ get_color_probability (loaded [String "255" ""]) (String "255" "")
     = Ok (Prim2SF 0)
  /\ PyStr.upper (String "181" (String "247" "")) = [924%N; 247%N].
Proof.
  intros Hcolors Hcounter Hne.
  split;
    [| split; [exact upper_char_table | repeat split; vm_compute; reflexivity]].
  pose proof (len_nonempty tokens Hne) as Hlen.
  pose proof (get_color_probability_unfold self tokens) as Hunfold.
  specialize (fun t => Hunfold t Hcolors Hcounter).
  cbv zeta. rewrite Counter_total.
  split; [apply Hunfold |].
  split; [symmetry; apply get_key_count |].
  split; [reflexivity |].
  split.
  { rewrite Hunfold.
    destruct (truediv_fraction
                (count_key tokens (PyStr.upper target_color))
                (PyList.len tokens)
                (count_key_bounds tokens _) Hlen)
      as (p & Hp & Hbounds & _).
    exists p. split; assumption. }
  split.
  { intros p Hp. rewrite Hunfold in Hp.
    apply truediv_rounds;
      [apply count_key_bounds | exact Hlen | exact Hp]. }
  split.
  { intros other Hother. rewrite !Hunfold, Hother. reflexivity. }
  intros Hnot. rewrite Hunfold, count_key_absent by exact Hnot.
  now apply truediv_zero.
Qed.

Lemma get_color_probability_correct_witness :
  exists p, get_color_probability (loaded ten_tokens) "Blue" = Ok p
            /\ (0 <= float_value p <= 1)%Q.
Proof.
  destruct (proj1 (get_color_probability_correct
                     (loaded ten_tokens) ten_tokens "Blue" eq_refl eq_refl
                     ltac:(discriminate)))
    as (_ & _ & _ & Hp & _).
  exact Hp.
Defined.

(** ** The variance of the counts *)

Lemma fold_add (data : list Z) (acc : Z) :
  fold_left Z.add data acc = acc + Zsum data.
Proof.
  revert acc. induction data as [| x data IH]; intros acc;
    cbn [fold_left Zsum fold_right].
  - lia.
  - rewrite IH. unfold Zsum. lia.
Qed.

Lemma fold_add_squares (data : list Z) (acc : Z) :
  fold_left (fun acc x => acc + x * x) data acc
  = acc + Zsum (map (fun x => x * x) data).
Proof.
  revert acc. induction data as [| x data IH]; intros acc;
    cbn [fold_left Zsum fold_right map].
  - lia.
  - rewrite IH. unfold Zsum. lia.
Qed.

(** Squared deviations from any centre [m], expanded *)
Lemma deviations_expand (data : list Z) (m : Q) :
  (Qsum (map (fun x => (inject_Z x - m) * (inject_Z x - m)) data)
   == inject_Z (Zsum (map (fun x => x * x)%Z data))
      - (2 # 1) * m * inject_Z (Zsum data)
      + inject_Z (PyList.len data) * m * m)%Q.
Proof.
  induction data as [| x data IH].
  - cbn. ring.
  - cbn [map Qsum fold_right Zsum].
    fold (Qsum (map (fun x => (inject_Z x - m) * (inject_Z x - m))%Q data)).
    rewrite IH. unfold PyList.len. cbn [List.length].
    rewrite Nat2Z.inj_succ. unfold Z.succ.
    fold (Zsum (map (fun x => x * x)%Z data)). fold (Zsum data).
    rewrite !inject_Z_plus, inject_Z_mult. unfold PyList.len. ring.
Qed.

(** The fraction that [statistics.variance] computes is the sample
    variance. *)
Lemma sample_variance_formula (data : list Z) :
  2 <= PyList.len data ->
  (inject_Z (PyList.len data * Zsum (map (fun x => x * x) data)
             - Zsum data * Zsum data)%Z
   / inject_Z (PyList.len data) / inject_Z (PyList.len data - 1)
   == sample_variance data)%Q.
Proof.
  intros Hlen. unfold sample_variance, squared_deviations.
  rewrite deviations_expand. unfold mean.
  set (n := PyList.len data) in *.
  set (sx := Zsum data). set (sxx := Zsum (map (fun x => x * x) data)).
  unfold Z.sub. rewrite !inject_Z_plus, !inject_Z_opp, !inject_Z_mult.
  assert (Hn : ~ (inject_Z n == 0)%Q).
  { intros H0. unfold Qeq, inject_Z in H0. cbn [Qnum Qden] in H0. lia. }
  assert (Hn1 : ~ (inject_Z n + - inject_Z 1 == 0)%Q).
  { rewrite <- inject_Z_opp, <- inject_Z_plus. intros H0.
    unfold Qeq, inject_Z in H0. cbn [Qnum Qden] in H0. lia. }
  field. split; assumption.
Qed.

Lemma statistics_variance_sample (data : list Z) :
  2 <= PyList.len data ->
  statistics_variance data = _convert (Qred (sample_variance data)).
Proof.
  intros Hlen. unfold statistics_variance.
  destruct (Z.ltb_spec (PyList.len data) 2) as [Hlt | _]; [lia |].
  cbv zeta. f_equal. apply Qred_complete.
  rewrite !fold_add, !fold_add_squares, !Z.add_0_l.
  now apply sample_variance_formula.
Qed.

Lemma square_nonneg (q : Q) : (0 <= q * q)%Q.
Proof. unfold Qle, Qmult. cbn. nia. Qed.

Lemma Qsum_nonneg (l : list Q) :
  Forall (fun q => 0 <= q)%Q l -> (0 <= Qsum l)%Q.
Proof.
  induction 1 as [| q l Hq _ IH]; cbn [Qsum fold_right].
  - apply Qle_refl.
  - fold (Qsum l). rewrite <- (Qplus_0_l 0). now apply Qplus_le_compat.
Qed.

Lemma Qsum_zero (l : list Q) :
  Forall (fun q => 0 <= q)%Q l -> (Qsum l == 0)%Q ->
  Forall (fun q => q == 0)%Q l.
Proof.
  induction 1 as [| q l Hq Hl IH]; cbn [Qsum fold_right]; intros Hsum;
    [constructor |].
  fold (Qsum l) in Hsum.
  pose proof (Qsum_nonneg l Hl) as Hrest.
  assert (Hq0 : (q == 0)%Q).
  { apply Qle_antisym; [| exact Hq].
    rewrite <- Hsum. rewrite <- (Qplus_0_r q) at 1.
    now apply Qplus_le_compat; [apply Qle_refl |]. }
  constructor; [exact Hq0 |].
  apply IH. rewrite Hq0, Qplus_0_l in Hsum. exact Hsum.
Qed.

Lemma squared_deviations_nonneg (data : list Z) :
  (0 <= squared_deviations data)%Q.
Proof.
  unfold squared_deviations. apply Qsum_nonneg.
  apply Forall_forall. intros q Hq.
  apply in_map_iff in Hq. destruct Hq as (x & <- & _). apply square_nonneg.
Qed.

Lemma constant_sums (data : list Z) (c : Z) :
  Forall (fun x => x = c) data ->
  Zsum data = PyList.len data * c
  /\ Zsum (map (fun x => x * x) data) = PyList.len data * (c * c).
Proof.
  unfold PyList.len.
  induction 1 as [| x data -> _ [IH1 IH2]]; cbn [Zsum fold_right map List.length].
  - split; reflexivity.
  - fold (Zsum data). fold (Zsum (map (fun x => x * x) data)).
    rewrite IH1, IH2. split; lia.
Qed.

Lemma sample_variance_nonneg (data : list Z) :
  2 <= PyList.len data -> (0 <= sample_variance data)%Q.
Proof.
  intros Hlen. unfold sample_variance.
  apply Qle_shift_div_l; [apply inject_Z_pos; lia |].
  rewrite Qmult_0_l. apply squared_deviations_nonneg.
Qed.

(** The sample variance of at least two integers is 0 exactly when they
    are all the same. *)
Lemma sample_variance_zero (data : list Z) :
  2 <= PyList.len data ->
  (sample_variance data == 0)%Q <->
  forall a b, In a data -> In b data -> a = b.
Proof.
  intros Hlen.
  assert (Hn1 : (0 < inject_Z (PyList.len data - 1))%Q)
    by (apply inject_Z_pos; lia).
  split.
  - intros Hzero a b Ha Hb. unfold sample_variance in Hzero.
    assert (Hssd : (squared_deviations data == 0)%Q).
    { rewrite <- (Qmult_div_r (squared_deviations data)
                    (inject_Z (PyList.len data - 1)))
        by (intros H0; rewrite H0 in Hn1; discriminate Hn1).
      rewrite Hzero. apply Qmult_0_r. }
    apply Qsum_zero in Hssd.
    + rewrite Forall_forall in Hssd.
      assert (Hmean : forall x, In x data -> (inject_Z x == mean data)%Q).
      { intros x Hx.
        specialize (Hssd _ (in_map
          (fun x => (inject_Z x - mean data) * (inject_Z x - mean data))%Q
          data x Hx)).
        cbv beta in Hssd. apply Qmult_integral in Hssd.
        assert (Hdiff : (inject_Z x - mean data == 0)%Q) by tauto.
        rewrite <- (Qplus_0_l (mean data)), <- Hdiff. ring. }
      apply inject_Z_injective. now rewrite (Hmean a Ha), (Hmean b Hb).
    + apply Forall_forall. intros q Hq.
      apply in_map_iff in Hq. destruct Hq as (x & <- & _).
      apply square_nonneg.
  - intros Hsame.
    assert (Hc : exists c, Forall (fun x => x = c) data).
    { destruct data as [| c data']; [exists 0; constructor |].
      exists c. apply Forall_forall. intros x Hx.
      apply Hsame; [exact Hx | now left]. }
    destruct Hc as (c & Hconst).
    destruct (constant_sums _ c Hconst) as [Hsx Hsxx].
    rewrite <- (sample_variance_formula data Hlen), Hsx, Hsxx.
    replace (PyList.len data * (PyList.len data * (c * c))
             - PyList.len data * c * (PyList.len data * c))
      with 0 by ring.
    unfold Qdiv. rewrite !Qmult_0_l. reflexivity.
Qed.

Lemma sum_squares_bound (data : list Z) (M : Z) :
  Forall (fun x => Z.abs x <= M) data ->
  Zsum (map (fun x => x * x) data) <= PyList.len data * (M * M).
Proof.
  unfold PyList.len.
  induction 1 as [| x data Hx _ IH]; cbn [Zsum fold_right map List.length].
  - lia.
  - fold (Zsum (map (fun x => x * x) data)).
    assert (x * x <= M * M) by nia. lia.
Qed.

(** With data below [2^511] in absolute value the sample variance is below
    [2^1023]. *)
Lemma sample_variance_below (data : list Z) :
  2 <= PyList.len data ->
  Forall (fun x => Z.abs x < 2 ^ 511) data ->
  (sample_variance data < inject_Z (2 ^ 1023))%Q.
Proof.
  intros Hlen Hdata.
  rewrite <- (sample_variance_formula data Hlen).
  assert (Hsq : Zsum (map (fun x => x * x) data)
                <= PyList.len data * ((2 ^ 511 - 1) * (2 ^ 511 - 1))).
  { apply sum_squares_bound. eapply Forall_impl; [| exact Hdata].
    cbv beta. intros x Hx. lia. }
  replace (2 ^ 1023) with (2 * (2 ^ 511 * 2 ^ 511)) by reflexivity.
  set (K := 2 ^ 511) in *.
  assert (HK : 1 <= K) by (subst K; apply Z.lt_pred_le, Z.pow_pos_nonneg; lia).
  clearbody K.
  set (n := PyList.len data) in *. set (sx := Zsum data).
  set (sxx := Zsum (map (fun x => x * x) data)) in *.
  apply Qlt_shift_div_r; [apply inject_Z_pos; lia |].
  apply Qlt_shift_div_r; [apply inject_Z_pos; lia |].
  rewrite <- !inject_Z_mult, <- Zlt_Qlt.
  assert (Hsx : 0 <= sx * sx) by nia.
  assert (Hn : n * sxx <= n * (n * ((K - 1) * (K - 1)))) by nia.
  assert (Hsmall : (K - 1) * (K - 1) < K * K) by nia.
  assert (Hhalf : n * (n * ((K - 1) * (K - 1)))
                  <= 2 * (n - 1) * (n * ((K - 1) * (K - 1)))).
  { apply Z.mul_le_mono_nonneg_r; [| lia].
    apply Z.mul_nonneg_nonneg; [lia | nia]. }
  assert (Hgrow : 2 * (n - 1) * (n * ((K - 1) * (K - 1)))
                  < 2 * (n - 1) * (n * (K * K))).
  { apply Z.mul_lt_mono_pos_l; [lia |].
    apply Z.mul_lt_mono_pos_l; [lia | exact Hsmall]. }
  lia.
Qed.

(** ** [_convert] *)

Lemma Qred_integer (z : Z) : Qred (inject_Z z) = inject_Z z.
Proof.
  unfold Qred, inject_Z.
  pose proof (Z.ggcd_gcd z 1) as Hg.
  pose proof (Z.ggcd_correct_divisors z 1) as Hd.
  destruct (Z.ggcd z 1) as [g [a b]]. cbn [fst snd] in *.
  rewrite Z.gcd_1_r in Hg. subst g. destruct Hd as [Ha Hb].
  replace a with z by lia. replace b with 1 by lia. reflexivity.
Qed.

(** [_convert] hands back an [int] exactly for the integral fractions. *)
Lemma convert_integer (q : Q) (z : Z) :
  _convert (Qred q) = Ok (Int z) <-> (q == inject_Z z)%Q.
Proof.
  split.
  - unfold _convert.
    destruct (Z.eqb_spec (Zpos (Qden (Qred q))) 1) as [Hden | _].
    + intros [= Hnum]. rewrite <- (Qred_correct q).
      destruct (Qred q) as [num den]. cbn [Qnum Qden] in *.
      injection Hden as ->. subst num. reflexivity.
    + destruct (PyFloat.truediv _ _); cbn [bind]; discriminate.
  - intros Hq. rewrite (Qred_complete _ _ Hq), Qred_integer. reflexivity.
Qed.

Lemma convert_raises (q : Q) (e : exn) :
  _convert q = Raise e -> e = OverflowError.
Proof.
  unfold _convert. destruct (Zpos (Qden q) =? 1); [discriminate |].
  destruct (PyFloat.truediv (Qnum q) (Zpos (Qden q))) as [f | e'] eqn:Hdiv;
    cbn [bind]; [discriminate |].
  intros [= <-]. eapply truediv_raises; [| exact Hdiv]. discriminate.
Qed.

Lemma Qred_nonneg (q : Q) : (0 <= q)%Q -> 0 <= Qnum (Qred q).
Proof.
  intros Hq. rewrite <- (Qred_correct q) in Hq.
  unfold Qle in Hq. cbn [Qnum Qden] in Hq. lia.
Qed.

(** A [float] that [_convert] makes of a fraction that is not negative is
    a zero or a positive finite double. *)
Lemma convert_float (q : Q) (f : spec_float) :
  (0 <= q)%Q -> _convert (Qred q) = Ok (Float f) ->
  f = S754_zero false \/ exists m e, f = S754_finite false m e.
Proof.
  intros Hq. pose proof (Qred_nonneg q Hq) as Hnum. unfold _convert.
  destruct (Zpos (Qden (Qred q)) =? 1); [discriminate |].
  destruct (truediv_shape (Qnum (Qred q)) (Zpos (Qden (Qred q))) Hnum
              ltac:(lia))
    as [-> | [-> | (m & e & ->)]]; cbn [bind]; [discriminate | |].
  - intros [= <-]. now left.
  - intros [= <-]. right. now exists m, e.
Qed.

(** A [float] that [_convert] makes is within one unit in the last place
    of the fraction. *)
Lemma convert_rounds (q : Q) (f : spec_float) :
  (0 <= q)%Q -> _convert (Qred q) = Ok (Float f) -> within_one_ulp f q.
Proof.
  intros Hq. pose proof (Qred_nonneg q Hq) as Hnum. unfold _convert.
  destruct (Zpos (Qden (Qred q)) =? 1); [discriminate |].
  destruct (PyFloat.truediv (Qnum (Qred q)) (Zpos (Qden (Qred q))))
    as [f' | e] eqn:Hdiv; cbn [bind]; [| discriminate].
  intros [= <-].
  apply (within_one_ulp_eq f'
           (inject_Z (Qnum (Qred q)) / inject_Z (Zpos (Qden (Qred q))))).
  - rewrite <- Qmake_Qdiv. destruct (Qred q) as [num den] eqn:Hred.
    cbn [Qnum Qden]. rewrite <- Hred. apply Qred_correct.
  - apply truediv_rounds; [exact Hnum | lia | exact Hdiv].
Qed.

(** Nothing is raised for a fraction between 0 and [2^1023]. *)
Lemma convert_defined (q : Q) :
  (0 <= q)%Q -> (q < inject_Z (2 ^ 1023))%Q ->
  exists v, _convert (Qred q) = Ok v.
Proof.
  intros Hq Hbelow. pose proof (Qred_nonneg q Hq) as Hnum.
  rewrite <- (Qred_correct q) in Hbelow.
  unfold Qlt in Hbelow. cbn [Qnum Qden inject_Z] in Hbelow.
  unfold _convert.
  destruct (Zpos (Qden (Qred q)) =? 1); [eexists; reflexivity |].
  destruct (truediv_below (Qnum (Qred q)) (Zpos (Qden (Qred q))) 1023
              Hnum ltac:(lia) ltac:(lia) ltac:(lia))
    as [-> | (m & e & -> & _)]; cbn [bind]; eexists; reflexivity.
Qed.

(** ** [get_color_variance] *)

Lemma get_color_variance_unfold
    (self : BincomPythonTest) (table : PyCounter.t) :
  color_counter self = Some table ->
  get_color_variance self =
  if PyList.len table >? 1
  then _convert (Qred (sample_variance (PyCounter.values table)))
  else Ok (Int 0).
Proof.
  intros Hself. unfold get_color_variance, the_counter.
  rewrite Hself. cbn [bind].
  assert (Hvalues : PyList.len (PyCounter.values table) = PyList.len table).
  { unfold PyList.len, PyCounter.values. now rewrite length_map. }
  rewrite Hvalues.
  destruct (Z.gtb_spec (PyList.len table) 1) as [Hgt | _]; [| reflexivity].
  apply statistics_variance_sample. lia.
Qed.

(** C10: [get_color_variance] returns the sample variance of the counts of
    the table (squared deviations over [n - 1], not over [n]) when the
    table has at least two distinct tokens, and the [int] 0 when it has
    fewer.  The sample variance comes back as [statistics.variance] hands
    it on: as an [int] exactly when it is integral, else as the double
    that numerator / denominator gives, less than one unit in its last
    place away from it; that division is the only thing that can raise
    ([OverflowError]), and it does not while the counts are below 2^511,
    as they are in a table counted from fewer than 2^511 tokens.
    For the counts [2, 2] and for a single distinct token it is 0; for the
    counts [1, 3] it is 2, where the population variance would be 1; for
    [1, 2] it is the double 0.5; for the hard-coded data it is 4128/55 as
    a double, 75.05454545454545. *)
Theorem get_color_variance_correct
    (self : BincomPythonTest) (table : PyCounter.t) :
  color_counter self = Some table ->
  (2 <= PyList.len table ->
   get_color_variance self
   = _convert (Qred (sample_variance (PyCounter.values table)))
   /\ (forall z, get_color_variance self = Ok (Int z) <->
                 (sample_variance (PyCounter.values table) == inject_Z z)%Q)
   /\ (forall f, get_color_variance self = Ok (Float f) ->
                 within_one_ulp f (sample_variance (PyCounter.values table)))
   /\ (forall e, get_color_variance self = Raise e -> e = OverflowError)
   /\ (Forall (fun x => Z.abs x < 2 ^ 511) (PyCounter.values table) ->
       exists v, get_color_variance self = Ok v)
   /\ (forall tokens,
         table = PyCounter.Counter tokens -> PyList.len tokens < 2 ^ 511 ->
         exists v, get_color_variance self = Ok v))
  /\ (PyList.len table < 2 -> get_color_variance self = Ok (Int 0))
  /\ PyCounter.values (PyCounter.Counter ["A"; "A"; "B"; "B"]) = [2; 2]
  /\ get_color_variance (loaded ["A"; "A"; "B"; "B"]) = Ok (Int 0)
  /\ get_color_variance (loaded ["A"; "A"; "A"]) = Ok (Int 0)
  /\ PyCounter.values (PyCounter.Counter ["A"; "B"; "B"; "B"]) = [1; 3]
  /\ get_color_variance (loaded ["A"; "B"; "B"; "B"]) = Ok (Int 2)
  /\ (sample_variance [1; 3]%Z == 2 # 1)%Q
  /\ (population_variance [1; 3]%Z == 1 # 1)%Q
  /\ (sample_variance [1; 2]%Z == 1 # 2)%Q
  /\ get_color_variance (loaded ["A"; "B"; "B"]) = Ok (Float (Prim2SF 0.5))
  /\ (sample_variance
        (PyCounter.values (PyCounter.Counter extract_colors_from_hardcoded))
      == 4128 # 55)%Q
  /\ get_color_variance (loaded extract_colors_from_hardcoded)
     = Ok (Float (Prim2SF 75.05454545454545)).
Proof.
  intros Hself. rewrite (get_color_variance_unfold self table Hself).
  split; [| split; [| repeat split; vm_compute; reflexivity]].
  - intros Hlen.
    destruct (Z.gtb_spec (PyList.len table) 1) as [_ | Hle]; [| lia].
    assert (Hvalues : 2 <= PyList.len (PyCounter.values table)).
    { unfold PyList.len, PyCounter.values in *. rewrite length_map. lia. }
    pose proof (sample_variance_nonneg _ Hvalues) as Hnonneg.
    split; [reflexivity |].
    split; [intros z; apply convert_integer |].
    split; [intros f; now apply convert_rounds |].
    split; [intros e; apply convert_raises |].
    assert (Hdefined : Forall (fun x => Z.abs x < 2 ^ 511)
                              (PyCounter.values table) ->
                       exists v,
                         _convert (Qred (sample_variance
                                           (PyCounter.values table))) = Ok v).
    { intros Hsmall. apply convert_defined; [exact Hnonneg |].
      now apply sample_variance_below. }
    split; [exact Hdefined |].
    intros tokens -> Hsize. apply Hdefined.
    now apply Counter_counts_below.
  - intros Hlen.
    destruct (Z.gtb_spec (PyList.len table) 1) as [Hgt | _]; [lia |].
    reflexivity.
Qed.

Lemma get_color_variance_correct_witness :
  get_color_variance (loaded ten_tokens)
  = _convert (Qred (sample_variance
                      (PyCounter.values (PyCounter.Counter ten_tokens))))
  /\ get_color_variance (loaded ["RED"; "RED"]) = Ok (Int 0).
Proof.
  pose proof (get_color_variance_correct
                (loaded ten_tokens) (PyCounter.Counter ten_tokens) eq_refl)
    as (Hmany & _).
  pose proof (get_color_variance_correct
                (loaded ["RED"; "RED"]) (PyCounter.Counter ["RED"; "RED"])
                eq_refl)
    as (_ & Hfew & _).
  split.
  - destruct Hmany as (Hsample & _); [vm_compute; discriminate |].
    exact Hsample.
  - apply Hfew. reflexivity.
Defined.

(** * Further properties *)

(** ** Binary search on any list and on a sub-range *)

(** Whatever the order of the list, a search whose bounds lie inside it
    never raises, and what it returns is -1 or an index of the range that
    holds the target. *)
Lemma search_range_sound (numbers : list Z) (target start end_ : Z) :
  0 <= start -> end_ < PyList.len numbers ->
  exists i, search_range numbers target start end_ = Ok i /\
            (i = -1 \/
             (start <= i <= end_ /\
              nth_error numbers (Z.to_nat i) = Some target)).
Proof.
  funelim (search_range numbers target start end_); intros Hstart Hend.
  2-5: pose proof (midpoint_bounds start end_ ltac:(lia)) as Hmid;
       destruct (getitem_in_range numbers ((start + end_) / 2) ltac:(lia))
         as (x' & Hget & Hnth);
       match goal with
       | Hq : PyList.getitem _ _ = _ |- _ =>
           rewrite Hget in Hq; try discriminate Hq; injection Hq as Hq; subst x'
       end.
  - exists (-1). split; [reflexivity | now left].
  - match goal with
    | Hq : (x =? target) = true |- _ => apply Z.eqb_eq in Hq; subst x
    end.
    exists ((start + end_) / 2). split; [reflexivity | right].
    split; [lia | assumption].
  - match goal with
    | IH : 0 <= _ -> _ |- _ =>
        destruct (IH ltac:(lia) ltac:(lia)) as (i & Hres & Hi)
    end.
    exists i. split; [assumption |].
    destruct Hi as [-> | [Hi Hnth']]; [now left | right; split; [lia | assumption]].
  - match goal with
    | IH : 0 <= _ -> _ |- _ =>
        destruct (IH ltac:(lia) ltac:(lia)) as (i & Hres & Hi)
    end.
    exists i. split; [assumption |].
    destruct Hi as [-> | [Hi Hnth']]; [now left | right; split; [lia | assumption]].
Qed.

Lemma nth_error_getitem {A : Type} (l : list A) (i : Z) (x : A) :
  0 <= i -> nth_error l (Z.to_nat i) = Some x -> PyList.getitem l i = Ok x.
Proof.
  intros Hi Hnth.
  assert (Hlt : (Z.to_nat i < List.length l)%nat)
    by (apply nth_error_Some; congruence).
  destruct (getitem_in_range l i) as (y & Hget & Hy);
    [unfold PyList.len; lia | congruence].
Qed.

(** On a sorted list, a target that stands somewhere in the range is
    found. *)
Lemma search_range_complete (numbers : list Z) (target start end_ : Z) :
  StronglySorted Z.le numbers ->
  0 <= start -> end_ < PyList.len numbers ->
  (exists j, start <= j <= end_ /\
             nth_error numbers (Z.to_nat j) = Some target) ->
  search_range numbers target start end_ <> Ok (-1).
Proof.
  intros Hsorted.
  funelim (search_range numbers target start end_);
    intros Hstart Hend (j & Hj & Hjt).
  2-5: pose proof (midpoint_bounds start end_ ltac:(lia)) as Hmid;
       destruct (getitem_in_range numbers ((start + end_) / 2) ltac:(lia))
         as (x' & Hget & Hnth);
       match goal with
       | Hq : PyList.getitem _ _ = _ |- _ =>
           rewrite Hget in Hq; try discriminate Hq; injection Hq as Hq; subst x'
       end.
  - lia.
  - intros Hres. injection Hres as Hres. lia.
  - match goal with Hq : (x >? target) = true |- _ => apply Z.gtb_lt in Hq end.
    match goal with IH : StronglySorted _ _ -> _ |- _ => apply IH end;
      try assumption; try lia.
    exists j. split; [| assumption].
    destruct (Z_lt_dec j ((start + end_) / 2)) as [Hlt | Hge]; [lia |].
    assert (x <= target); [| lia].
    apply (sorted_positions numbers Hsorted
             (Z.to_nat ((start + end_) / 2)) (Z.to_nat j));
      [lia | assumption | assumption].
  - match goal with
    | Hq : (x =? target) = false |- _ => apply Z.eqb_neq in Hq
    end.
    assert (x < target)
      by (destruct (Z.gtb_spec x target); [discriminate | lia]).
    match goal with IH : StronglySorted _ _ -> _ |- _ => apply IH end;
      try assumption; try lia.
    exists j. split; [| assumption].
    destruct (Z_lt_dec ((start + end_) / 2) j) as [Hlt | Hge]; [lia |].
    assert (target <= x); [| lia].
    apply (sorted_positions numbers Hsorted
             (Z.to_nat j) (Z.to_nat ((start + end_) / 2)));
      [lia | assumption | assumption].
Qed.

(** X1: on every list, sorted or not, [recursive_search] with the default
    bounds raises nothing and returns either -1 or an index of the list
    that holds the target: it can miss, it cannot point at a wrong
    element. *)
Theorem recursive_search_never_wrong (numbers : list Z) (target : Z) :
  exists i,
    recursive_search numbers target None None = Ok i
    /\ (i = -1 \/
        (0 <= i < PyList.len numbers /\ PyList.getitem numbers i = Ok target)).
Proof.
  destruct (search_range_sound numbers target 0 (PyList.len numbers - 1))
    as (i & Hres & Hi); [lia | lia |].
  exists i. split; [exact Hres |].
  destruct Hi as [-> | [Hi Hnth]]; [now left | right].
  split; [lia | apply nth_error_getitem; [lia | assumption]].
Qed.

(** X2: with explicit bounds [0 <= start] and [end < len(numbers)] the
    search raises nothing and returns -1 or an index within
    [start .. end] that holds the target; on a sorted list it returns -1
    only when the target is nowhere in [numbers[start .. end]]. *)
Theorem recursive_search_range (numbers : list Z) (target start end_ : Z) :
  0 <= start -> end_ < PyList.len numbers ->
  (exists i,
     recursive_search numbers target (Some start) (Some end_) = Ok i
     /\ (i = -1 \/
         (start <= i <= end_ /\ PyList.getitem numbers i = Ok target)))
  /\ (Sorted Z.le numbers ->
      recursive_search numbers target (Some start) (Some end_) = Ok (-1) ->
      forall j, start <= j <= end_ -> PyList.getitem numbers j <> Ok target).
Proof.
  intros Hstart Hend. split.
  - destruct (search_range_sound numbers target start end_ Hstart Hend)
      as (i & Hres & Hi).
    exists i. split; [exact Hres |].
    destruct Hi as [-> | [Hi Hnth]]; [now left | right].
    split; [lia | apply nth_error_getitem; [lia | assumption]].
  - intros Hsorted Hres j Hj Hget.
    apply Sorted_StronglySorted in Hsorted; [| intros a b c; apply Z.le_trans].
    apply (search_range_complete numbers target start end_ Hsorted Hstart Hend);
      [| exact Hres].
    exists j. split; [assumption |].
    destruct (getitem_in_range numbers j ltac:(lia)) as (x & Hx & Hnth).
    congruence.
Qed.

Lemma recursive_search_range_witness :
  exists i, recursive_search demo_list 56 (Some 5) (Some 9) = Ok i.
Proof.
  destruct (proj1 (recursive_search_range demo_list 56 5 9
                     ltac:(lia) ltac:(vm_compute; reflexivity)))
    as (i & Hres & _).
  exists i. exact Hres.
Defined.

(** ** The shape of the frequency table *)

Lemma counting_loop_keys (iterable seen : list string) (c : PyCounter.t) :
  (forall x, In x seen <-> In x (map fst c)) ->
  map fst (fold_left PyCounter.count_one iterable c)
  = (map fst c ++ unseen seen iterable)%list.
Proof.
  revert seen c.
  induction iterable as [| x l IH]; intros seen c Hseen;
    cbn [fold_left unseen].
  - now rewrite app_nil_r.
  - unfold PyCounter.count_one at 2.
    destruct (in_dec string_dec x seen) as [Hin | Hnot].
    + rewrite (IH seen).
      * rewrite set_keys.
        destruct (in_dec string_dec x (map fst c)) as [_ | Habs];
          [reflexivity | exfalso; apply Habs, Hseen, Hin].
      * intros y. rewrite set_keys.
        destruct (in_dec string_dec x (map fst c)) as [_ | Habs];
          [apply Hseen | exfalso; apply Habs, Hseen, Hin].
    + assert (Hkeys : map fst (PyCounter.set c x (PyCounter.get c x 0 + 1))
                      = (map fst c ++ [x])%list).
      { rewrite set_keys.
        destruct (in_dec string_dec x (map fst c)) as [Habs | _];
          [exfalso; apply Hnot, Hseen, Habs | reflexivity]. }
      rewrite (IH (x :: seen)).
      * rewrite Hkeys, <- app_assoc. reflexivity.
      * intros y. rewrite Hkeys, in_app_iff. cbn [In].
        rewrite Hseen. tauto.
Qed.

Lemma table_by_keys (c : PyCounter.t) :
  NoDup (map fst c) ->
  c = map (fun key => (key, PyCounter.get c key 0)) (map fst c).
Proof.
  induction c as [| [k v] c IH]; cbn [map fst PyCounter.get]; intros Hnd;
    [reflexivity |].
  inversion Hnd as [| ? ? Hnotin Hnd']; subst.
  rewrite String.eqb_refl. f_equal.
  rewrite (IH Hnd') at 1.
  apply map_ext_in. intros key Hkey.
  destruct (String.eqb_spec k key) as [-> | _]; [contradiction | reflexivity].
Qed.

(** X3: the table [load_data] counts lists the distinct tokens in the order
    in which they first occur, each with its number of occurrences in the
    token list. *)
Theorem Counter_shape (tokens : list string) :
  PyCounter.Counter tokens
  = map (fun key => (key, Z.of_nat (count_occ string_dec tokens key)))
        (first_occurrences tokens).
Proof.
  destruct (counting_loop tokens []) as (Hnd & _ & _ & _);
    [constructor | constructor |].
  fold (PyCounter.Counter tokens) in Hnd.
  rewrite (table_by_keys _ Hnd) at 1.
  unfold PyCounter.Counter at 2.
  rewrite (counting_loop_keys tokens [] []) by (intros x; reflexivity).
  cbn [map app]. fold (first_occurrences tokens).
  apply map_ext. intros key. now rewrite Counter_get.
Qed.

(** ** The statistics after [load_data] *)

Lemma load_data_state
    (read_rows : string -> result (list (string * string)))
    (self : BincomPythonTest) :
  color_counter (fst (load_data read_rows self))
  = Some (PyCounter.Counter (colors (fst (load_data read_rows self)))).
Proof. unfold load_data. cbv beta iota zeta. reflexivity. Qed.

Lemma Counter_nonempty (tokens : list string) :
  tokens <> [] -> PyCounter.Counter tokens <> [].
Proof.
  intros Hne Hnil.
  destruct (counting_loop tokens []) as (_ & _ & Hsum & _);
    [constructor | constructor |].
  fold (PyCounter.Counter tokens) in Hsum. rewrite Hnil in Hsum.
  pose proof (len_nonempty tokens Hne). cbn in Hsum. lia.
Qed.

Section Loaded.
Variable self : BincomPythonTest.
Variable tokens : list string.
Hypothesis Hcolors : colors self = tokens.
Hypothesis Hcounter : color_counter self = Some (PyCounter.Counter tokens).

Lemma mode_defined :
  tokens <> [] -> exists item, get_most_common_color self = Ok item.
Proof.
  intros Hne. unfold get_most_common_color, the_counter.
  rewrite Hcounter. cbn [bind].
  destruct (PyCounter.Counter tokens) as [| first rest] eqn:Htable;
    [now apply Counter_nonempty in Htable |].
  eexists. reflexivity.
Qed.

Lemma median_defined :
  tokens <> [] -> exists median, get_median_color self = Ok median.
Proof.
  intros Hne.
  rewrite (get_median_color_unfold self _ Hcounter).
  assert (Hsorted : PyList.sort (expand (PyCounter.Counter tokens)) <> []).
  { intros Hnil.
    apply (expand_nonempty (PyCounter.Counter tokens));
      [now apply Counter_nonempty | apply Counter_positive |].
    apply Permutation_nil. rewrite <- Hnil. apply sort_perm. }
  destruct (getitem_in_range _ _ (middle_in_range _ Hsorted))
    as (median & Hget & _).
  exists median. exact Hget.
Qed.

Lemma variance_defined :
  PyList.len tokens < 2 ^ 511 -> exists v, get_color_variance self = Ok v.
Proof.
  intros Hsize. rewrite (get_color_variance_unfold self _ Hcounter).
  destruct (Z.gtb_spec (PyList.len (PyCounter.Counter tokens)) 1)
    as [Hgt | _]; [| eexists; reflexivity].
  assert (Hlen : 2 <= PyList.len (PyCounter.values (PyCounter.Counter tokens))).
  { unfold PyList.len, PyCounter.values in *. rewrite length_map. lia. }
  apply convert_defined.
  - now apply sample_variance_nonneg.
  - apply sample_variance_below;
      [exact Hlen | now apply Counter_counts_below].
Qed.

Lemma variance_raises (e : exn) :
  get_color_variance self = Raise e -> e = OverflowError.
Proof.
  rewrite (get_color_variance_unfold self _ Hcounter).
  destruct (PyList.len (PyCounter.Counter tokens) >? 1);
    [apply convert_raises | discriminate].
Qed.

Lemma probability_defined (target_color : string) :
  tokens <> [] ->
  exists p, get_color_probability self target_color = Ok p.
Proof.
  intros Hne.
  rewrite (get_color_probability_unfold self tokens target_color
             Hcolors Hcounter).
  destruct (truediv_fraction _ _ (count_key_bounds tokens
                                    (PyStr.upper target_color))
              (len_nonempty tokens Hne))
    as (p & Hp & _).
  exists p. exact Hp.
Qed.

Lemma statistics_on_nothing (target_color : string) :
  tokens = [] ->
  get_most_common_color self = Raise IndexError
  /\ get_median_color self = Raise IndexError
  /\ get_color_variance self = Ok (Int 0)
  /\ get_color_probability self target_color = Raise ZeroDivisionError.
Proof.
  intros Hnil. subst tokens.
  unfold get_most_common_color, get_median_color, get_color_variance,
    get_color_probability, the_counter.
  rewrite Hcounter, Hnil. repeat split.
Qed.

End Loaded.

(** X4: once [load_data] has run, the four statistics only depend on
    whether any colour was loaded.  With at least one colour the mode, the
    median and the probability raise nothing; the variance raises nothing
    while fewer than 2^511 colours are loaded (a CPython list holds fewer
    than 2^63), and nothing but [OverflowError] ever.  With no colour at
    all the mode and the median raise [IndexError], the probability raises
    [ZeroDivisionError], and the variance is 0.  Before [load_data], each
    of them raises [AttributeError] on the missing table. *)
Theorem statistics_after_load
    (read_rows : string -> result (list (string * string)))
    (self0 : BincomPythonTest) (target_color : string) :
  let self := fst (load_data read_rows self0) in
  (colors self <> [] ->
   (exists item, get_most_common_color self = Ok item)
   /\ (exists median, get_median_color self = Ok median)
   /\ (PyList.len (colors self) < 2 ^ 511 ->
       exists v, get_color_variance self = Ok v)
   /\ (forall e, get_color_variance self = Raise e -> e = OverflowError)
   /\ (exists p, get_color_probability self target_color = Ok p))
  /\ (colors self = [] ->
      get_most_common_color self = Raise IndexError
      /\ get_median_color self = Raise IndexError
      /\ get_color_variance self = Ok (Int 0)
      /\ get_color_probability self target_color = Raise ZeroDivisionError)
  /\ (forall path,
        get_most_common_color (__init__ path) = Raise AttributeError
        /\ get_median_color (__init__ path) = Raise AttributeError
        /\ get_color_variance (__init__ path) = Raise AttributeError
        /\ get_color_probability (__init__ path) target_color
           = Raise AttributeError).
Proof.
  intros self.
  pose proof (load_data_state read_rows self0) as Hstate. fold self in Hstate.
  split; [| split].
  - intros Hne.
    split; [exact (mode_defined self _ Hstate Hne) |].
    split; [exact (median_defined self _ Hstate Hne) |].
    split; [exact (variance_defined self _ Hstate) |].
    split; [exact (variance_raises self _ Hstate) |].
    exact (probability_defined self _ eq_refl Hstate target_color Hne).
  - intros Hnil.
    exact (statistics_on_nothing self _ eq_refl Hstate target_color Hnil).
  - intros path. repeat split.
Qed.

Lemma statistics_after_load_witness :
  (exists median,
     get_median_color
       (fst (load_data (fun _ => Raise IndexError) (__init__ None)))
     = Ok median)
  /\ (exists v,
        get_color_variance
          (fst (load_data (fun _ => Raise IndexError) (__init__ None)))
        = Ok v).
Proof.
  destruct (proj1 (statistics_after_load
                     (fun _ => Raise IndexError) (__init__ None) "RED"))
    as (_ & Hmedian & Hvariance & _).
  - vm_compute. discriminate.
  - split; [exact Hmedian |]. apply Hvariance. vm_compute. reflexivity.
Defined.

(** ** Where [load_data] takes the colours from *)

(** X5: [load_data] never raises and replaces whatever the instance held.
    Without a path, with an empty path, or when reading the file raises,
    it loads the 95 hard-coded colours.  A file that was read is taken as
    it is: its rows are split, stripped and cleaned, and when they yield
    no colour (for instance no row matched) the data set is empty and the
    fall-back is not used. *)
Theorem load_data_source
    (read_rows : string -> result (list (string * string)))
    (self0 : BincomPythonTest) :
  let self := fst (load_data read_rows self0) in
  let total := snd (load_data read_rows self0) in
  total = PyList.len (colors self)
  /\ html_file self = html_file self0
  /\ (forall old_colors old_counter,
        load_data read_rows
          {| html_file := html_file self0;
             colors := old_colors;
             color_counter := old_counter |}
        = load_data read_rows self0)
  /\ (html_file self0 = None \/ html_file self0 = Some ""
      \/ (exists path e, html_file self0 = Some path
                         /\ read_rows path = Raise e) ->
      colors self = extract_colors_from_hardcoded /\ total = 95)
  /\ (forall path rows,
        html_file self0 = Some path -> path <> "" ->
        read_rows path = Ok rows ->
        colors self = collect_colors rows)
  /\ (forall path,
        html_file self0 = Some path -> path <> "" ->
        read_rows path = Ok [] ->
        colors self = [] /\ total = 0).
Proof.
  intros self total. subst self total. unfold load_data.
  cbv beta iota zeta. cbn [fst snd colors html_file].
  split; [reflexivity |]. split; [reflexivity |]. split; [reflexivity |].
  assert (H95 : PyList.len extract_colors_from_hardcoded = 95)
    by (vm_compute; reflexivity).
  split; [| split].
  - intros [Hnone | [Hempty | (path & e & Hpath & Hraise)]].
    + rewrite Hnone. split; [reflexivity | exact H95].
    + rewrite Hempty. cbn [PyStr.truthy]. split; [reflexivity | exact H95].
    + rewrite Hpath. unfold extract_colors_from_file. rewrite Hraise.
      cbn [bind]. destruct (PyStr.truthy path); split;
        reflexivity || exact H95.
  - intros path rows Hpath Hne Hrows. rewrite Hpath.
    destruct path as [| c path]; [contradiction |]. cbn [PyStr.truthy].
    unfold extract_colors_from_file. rewrite Hrows. reflexivity.
  - intros path Hpath Hne Hrows. rewrite Hpath.
    destruct path as [| c path]; [contradiction |]. cbn [PyStr.truthy].
    unfold extract_colors_from_file. rewrite Hrows.
    split; reflexivity.
Qed.

Lemma load_data_source_witness :
  colors (fst (load_data (fun _ => Ok []) (__init__ (Some "colors.html"))))
  = []
  /\ snd (load_data (fun _ => Raise IndexError)
                    (__init__ (Some "colors.html"))) = 95.
Proof.
  split.
  - apply (load_data_source (fun _ => Ok []) (__init__ (Some "colors.html")))
      with (path := "colors.html");
      [reflexivity | discriminate | reflexivity].
  - apply (load_data_source (fun _ => Raise IndexError)
             (__init__ (Some "colors.html"))).
    right. right. exists "colors.html", IndexError.
    split; reflexivity.
Defined.

(** ** What the extractors hand on *)

Lemma split_pieces (sep : ascii) (s : string) :
  Forall (fun piece => ~ In sep (list_ascii_of_string piece))
         (PyStr.split sep s).
Proof.
  induction s as [| c s IH]; cbn [PyStr.split].
  - repeat constructor. intros [].
  - destruct (Ascii.eqb_spec c sep) as [-> | Hne].
    + constructor; [intros [] | exact IH].
    + destruct (PyStr.split sep s) as [| w ws].
      * repeat constructor. cbn. intros [Heq | []]. congruence.
      * inversion IH as [| ? ? Hw Hws]; subst.
        constructor; [| exact Hws].
        cbn. intros [Heq | Hin]; [congruence | contradiction].
Qed.

Lemma strip_chars (s : string) (c : ascii) :
  In c (list_ascii_of_string (PyStr.strip s)) ->
  In c (list_ascii_of_string s).
Proof.
  intros Hin. destruct (strip_spec s) as (pre & post & Heq & _).
  rewrite Heq at 1. rewrite !chars_append, !in_app_iff. tauto.
Qed.

Lemma lstrip_fixed (s : string) :
  match head_char s with
  | Some c => PyStr.isspace c = false
  | None => True
  end ->
  PyStr.lstrip s = s.
Proof.
  destruct s as [| c s]; cbn; [reflexivity |]. now intros ->.
Qed.

Lemma rstrip_fixed (s : string) :
  match last_char s with
  | Some c => PyStr.isspace c = false
  | None => True
  end ->
  PyStr.rstrip s = s.
Proof.
  induction s as [| c s IH]; cbn [PyStr.rstrip last_char]; [reflexivity |].
  destruct s as [| c' s'].
  - cbn. now intros ->.
  - intros Hlast. rewrite (IH Hlast). reflexivity.
Qed.

Lemma strip_fixed (s : string) : trimmed s -> PyStr.strip s = s.
Proof.
  unfold trimmed, PyStr.strip. intros Htrim.
  destruct (head_char s) as [c1 |] eqn:Hhead.
  - destruct (last_char s) as [c2 |] eqn:Hlast.
    + destruct Htrim as [H1 H2].
      rewrite lstrip_fixed by now rewrite Hhead.
      apply rstrip_fixed. now rewrite Hlast.
    + subst s. discriminate.
  - subst s. reflexivity.
Qed.

(** Every token that normalisation keeps is well formed as soon as its
    raw form has no comma. *)
Lemma normalized_token (token : string) :
  ~ In ","%char (list_ascii_of_string token) ->
  PyStr.truthy (fix_typo (PyStr.strip token)) = true ->
  well_formed_color (fix_typo (PyStr.strip token)).
Proof.
  intros Hcomma Hkept. unfold fix_typo in *.
  destruct (String.eqb_spec (PyStr.strip token) "BLEW") as [_ | Hblew].
  { repeat split; try discriminate.
    cbn. intros H; decompose [or] H; discriminate || contradiction. }
  destruct (String.eqb_spec (PyStr.strip token) "ARSH") as [_ | Harsh].
  { repeat split; try discriminate.
    cbn. intros H; decompose [or] H; discriminate || contradiction. }
  destruct (strip_spec token) as (_ & _ & _ & _ & _ & Htrim).
  split; [intros Hnil; rewrite Hnil in Hkept; discriminate |].
  split; [exact Htrim |].
  split; [intros Hin; apply Hcomma, strip_chars, Hin |].
  split; assumption.
Qed.

Lemma collect_colors_well_formed (rows : list (string * string)) :
  Forall well_formed_color (collect_colors rows).
Proof.
  unfold collect_colors. rewrite collect_loop. cbn [app].
  rewrite clean_colors_spec, map_map.
  apply Forall_forall. intros color Hin.
  apply filter_In in Hin. destruct Hin as [Hin Hkept].
  apply in_map_iff in Hin. destruct Hin as (token & <- & Htoken).
  apply normalized_token; [| exact Hkept].
  unfold raw_tokens in Htoken. apply in_flat_map in Htoken.
  destruct Htoken as (row & _ & Hpiece).
  pose proof (split_pieces "," (snd row)) as Hpieces.
  rewrite Forall_forall in Hpieces. now apply Hpieces.
Qed.

(** X6: every colour that either extractor returns is non-empty, has no
    white space at its ends (none of the code points 9..13, 28..32, 133,
    160), contains no comma, and is neither "BLEW" nor "ARSH".  A row read
    as no-break space, "RED", next-line control, comma, tab, "BLEW", unit
    separator gives "RED" and "BLUE". *)
Theorem extracted_colors_well_formed
    (read_rows : string -> result (list (string * string)))
    (file_path : string) :
  Forall well_formed_color extract_colors_from_hardcoded
  /\ match extract_colors_from_file read_rows file_path with
     | Ok colors => Forall well_formed_color colors
     | Raise e => read_rows file_path = Raise e
     end
  /\ (forall color,
        well_formed_color color ->
        exists first last,
          head_char color = Some first /\ last_char color = Some last
          /\ ~ In (N_of_ascii first) white_space
          /\ ~ In (N_of_ascii last) white_space)
  /\ extract_colors_from_file
       (fun _ => Ok [("MONDAY",
                      String "160" "RED" ++ String "133" ","
                        ++ String "009" "BLEW" ++ String "031" "")])
       file_path
     = Ok ["RED"; "BLUE"].
Proof.
  split; [apply collect_colors_well_formed |].
  split.
  { unfold extract_colors_from_file.
    destruct (read_rows file_path) as [rows | e]; cbn [bind];
      [apply collect_colors_well_formed | reflexivity]. }
  split; [| reflexivity].
  intros color (Hne & Htrim & _). unfold trimmed in Htrim.
  assert (Hspace : forall c, PyStr.isspace c = false ->
                             ~ In (N_of_ascii c) white_space).
  { intros c Hc Hin. rewrite isspace_table in Hc.
    assert (Hex : existsb (N.eqb (N_of_ascii c)) white_space = true).
    { apply existsb_exists. exists (N_of_ascii c).
      split; [exact Hin | apply N.eqb_refl]. }
    congruence. }
  destruct (head_char color) as [first |]; [| contradiction].
  destruct (last_char color) as [last |]; [| contradiction].
  destruct Htrim as [Hfirst Hlast].
  exists first, last. repeat split; auto.
Qed.

(** X7: cleaning is idempotent and only ever drops or rewrites tokens:
    [_clean_colors] applied to its own result changes nothing, its result
    is never longer than its argument, and normalising (strip, then
    clean) an already normalised list changes nothing either.  Cleaning
    alone is not normalising: it keeps a token that still has a no-break
    space in front, and keeps it again. *)
Theorem clean_colors_idempotent (color_list : list string) :
  _clean_colors (_clean_colors color_list) = _clean_colors color_list
  /\ PyList.len (_clean_colors color_list) <= PyList.len color_list
  /\ _clean_colors
       (map PyStr.strip (_clean_colors (map PyStr.strip color_list)))
     = _clean_colors (map PyStr.strip color_list)
  /\ _clean_colors (_clean_colors [String "160" "BLEW"; "BLEW"])
     = [String "160" "BLEW"; "BLUE"]
  /\ _clean_colors
       (map PyStr.strip (_clean_colors [String "160" "BLEW"; "BLEW"]))
     = ["BLUE"; "BLUE"].
Proof.
  assert (Hfixed : forall l,
            Forall (fun t => PyStr.truthy t = true /\ fix_typo t = t) l ->
            filter PyStr.truthy (map fix_typo l) = l).
  { induction 1 as [| t l [Ht Hfix] _ IH]; cbn [map filter]; [reflexivity |].
    rewrite Hfix, Ht, IH. reflexivity. }
  assert (Hkept : forall t,
            PyStr.truthy (fix_typo t) = true ->
            PyStr.truthy (fix_typo t) = true
            /\ fix_typo (fix_typo t) = fix_typo t).
  { intros t Ht. split; [exact Ht |]. unfold fix_typo.
    destruct (String.eqb_spec t "BLEW"); [reflexivity |].
    destruct (String.eqb_spec t "ARSH"); [reflexivity |].
    destruct (String.eqb_spec t "BLEW"); [contradiction |].
    destruct (String.eqb_spec t "ARSH"); [contradiction | reflexivity]. }
  split; [| split; [| split; [| split; reflexivity]]].
  - rewrite !clean_colors_spec. apply Hfixed.
    apply Forall_forall. intros t Hin.
    apply filter_In in Hin. destruct Hin as [Hin Ht].
    apply in_map_iff in Hin. destruct Hin as (t0 & <- & _).
    now apply Hkept.
  - rewrite clean_colors_spec. unfold PyList.len.
    pose proof (filter_length_le PyStr.truthy (map fix_typo color_list)) as Hle.
    rewrite length_map in Hle. lia.
  - rewrite !clean_colors_spec, !map_map.
    set (kept := filter PyStr.truthy
                   (map (fun t => fix_typo (PyStr.strip t)) color_list)).
    rewrite <- (map_map PyStr.strip fix_typo kept).
    assert (Hstrip : map PyStr.strip kept = kept).
    { rewrite <- (map_id kept) at 2. apply map_ext_in.
      intros t Hin. subst kept.
      apply filter_In in Hin. destruct Hin as [Hin Ht].
      apply in_map_iff in Hin. destruct Hin as (t0 & <- & _).
      apply strip_fixed. unfold fix_typo.
      destruct (String.eqb (PyStr.strip t0) "BLEW");
        [cbn; split; reflexivity |].
      destruct (String.eqb (PyStr.strip t0) "ARSH");
        [cbn; split; reflexivity |].
      destruct (strip_spec t0) as (_ & _ & _ & _ & _ & Htrim). exact Htrim. }
    rewrite Hstrip. apply Hfixed.
    apply Forall_forall. intros t Hin. subst kept.
    apply filter_In in Hin. destruct Hin as [Hin Ht].
    apply in_map_iff in Hin. destruct Hin as (t0 & <- & _).
    now apply Hkept.
Qed.

(** ** The mode in terms of the token list *)

Lemma unseen_fresh (l seen : list string) (x : string) :
  In x (unseen seen l) -> ~ In x seen.
Proof.
  revert seen. induction l as [| y l IH]; intros seen; cbn [unseen];
    [intros [] |].
  destruct (in_dec string_dec y seen) as [Hin | Hnot].
  - apply IH.
  - intros [<- | Hx]; [assumption |].
    intros Hseen. apply (IH (y :: seen) Hx). now right.
Qed.

(** Cutting the list of first occurrences at [token] cuts the list itself
    at the first occurrence of [token]. *)
Lemma unseen_split (l seen ks1 ks2 : list string) (token : string) :
  unseen seen l = (ks1 ++ token :: ks2)%list ->
  exists before after,
    l = (before ++ token :: after)%list
    /\ ~ In token before
    /\ forall u, In u before -> In u seen \/ In u ks1.
Proof.
  revert seen ks1.
  induction l as [| x l IH]; intros seen ks1; cbn [unseen].
  - intros Heq. destruct ks1; discriminate.
  - destruct (in_dec string_dec x seen) as [Hin | Hnot]; intros Heq.
    + assert (Hfresh : ~ In token seen).
      { apply (unseen_fresh l). rewrite Heq. apply in_or_app. right. now left. }
      destruct (IH seen ks1 Heq) as (before & after & -> & Hnotin & Hbefore).
      exists (x :: before), after. split; [reflexivity |]. split.
      * intros [-> | Hb]; contradiction.
      * intros u [<- | Hu]; [now left | now apply Hbefore].
    + destruct ks1 as [| k ks1]; cbn [app] in Heq;
        injection Heq as Hhead Heq; subst x.
      * exists [], l. split; [reflexivity |]. split; [intros [] |].
        intros u [].
      * assert (Hfresh : ~ In token (k :: seen)).
        { apply (unseen_fresh l). rewrite Heq.
          apply in_or_app. right. now left. }
        destruct (IH (k :: seen) ks1 Heq)
          as (before & after & -> & Hnotin & Hbefore).
        exists (k :: before), after. split; [reflexivity |]. split.
        -- intros [-> | Hb]; [apply Hfresh; now left | contradiction].
        -- intros u [<- | Hu]; [right; now left |].
           destruct (Hbefore u Hu) as [[<- | Hs] | Hk].
           ++ right. now left.
           ++ now left.
           ++ right. now right.
Qed.

Lemma Counter_keys (tokens : list string) :
  map fst (PyCounter.Counter tokens) = first_occurrences tokens.
Proof.
  unfold PyCounter.Counter.
  rewrite (counting_loop_keys tokens [] []) by (intros x; reflexivity).
  reflexivity.
Qed.

Lemma Counter_entry (tokens : list string) (key : string) (v : Z) :
  In (key, v) (PyCounter.Counter tokens) ->
  v = Z.of_nat (count_occ string_dec tokens key).
Proof.
  intros Hin. rewrite <- Counter_get.
  destruct (counting_loop tokens []) as (Hnd & _);
    [constructor | constructor |].
  fold (PyCounter.Counter tokens) in Hnd.
  apply in_split in Hin. destruct Hin as (pre & post & Heq).
  rewrite Heq in *. symmetry. now apply get_at.
Qed.

Lemma Counter_has (tokens : list string) (key : string) :
  In key tokens ->
  In (key, Z.of_nat (count_occ string_dec tokens key))
     (PyCounter.Counter tokens).
Proof.
  intros Hin.
  assert (Hkey : In key (map fst (PyCounter.Counter tokens))).
  { destruct (in_dec string_dec key (map fst (PyCounter.Counter tokens)))
      as [Hyes | Hno]; [exact Hyes | exfalso].
    destruct (counting_loop tokens []) as (Hnd & _);
      [constructor | constructor |].
    fold (PyCounter.Counter tokens) in Hnd.
    pose proof (expand_absent _ _ Hno) as Hzero.
    pose proof (proj1 (Permutation_count_occ string_dec _ _)
                  (expand_Counter tokens) key) as Hsame.
    apply (count_occ_In string_dec) in Hin. lia. }
  apply in_map_iff in Hkey. destruct Hkey as ([k v] & Hk & Hitem).
  cbn in Hk. subst k. now rewrite <- (Counter_entry tokens key v Hitem).
Qed.

(** The mode of a non-empty token list, read off the list itself *)
Lemma mode_characterised (self : BincomPythonTest) (tokens : list string) :
  color_counter self = Some (PyCounter.Counter tokens) ->
  tokens <> [] ->
  exists token count,
    get_most_common_color self = Ok (token, count)
    /\ count = Z.of_nat (count_occ string_dec tokens token)
    /\ (forall u, Z.of_nat (count_occ string_dec tokens u) <= count)
    /\ exists before after,
         tokens = (before ++ token :: after)%list
         /\ ~ In token before
         /\ forall u, In u before ->
                      Z.of_nat (count_occ string_dec tokens u) < count.
Proof.
  intros Hcounter Hne. unfold get_most_common_color, the_counter.
  rewrite Hcounter. cbn [bind].
  destruct (PyCounter.Counter tokens) as [| first rest] eqn:Htable;
    [now apply Counter_nonempty in Htable |].
  cbn [PyCounter.most_common_1].
  destruct (max_scan rest [] [] first) as (pre & post & Heq & Hpre & Hpost);
    [constructor | constructor |].
  cbn [app] in Heq. rewrite <- Htable in Heq.
  destruct (PyCounter.max_by_count first rest) as [token count].
  cbn [snd] in Hpre, Hpost.
  assert (Hitem : In (token, count) (PyCounter.Counter tokens))
    by (rewrite Heq; apply in_or_app; right; now left).
  exists token, count. split; [reflexivity |].
  split; [now apply Counter_entry |].
  split.
  - intros u.
    destruct (in_dec string_dec u tokens) as [Hu | Hu].
    + apply Counter_has in Hu. rewrite Heq in Hu.
      apply in_app_or in Hu. destruct Hu as [Hu | [Hu | Hu]].
      * rewrite Forall_forall in Hpre. specialize (Hpre _ Hu).
        cbn in Hpre. lia.
      * injection Hu as _ <-. lia.
      * rewrite Forall_forall in Hpost. specialize (Hpost _ Hu).
        cbn in Hpost. lia.
    + rewrite (proj1 (count_occ_not_In string_dec tokens u) Hu).
      rewrite (Counter_entry tokens token count Hitem). lia.
  - pose proof (Counter_keys tokens) as Hkeys.
    rewrite Heq, map_app in Hkeys. cbn [map fst] in Hkeys.
    symmetry in Hkeys. apply unseen_split in Hkeys.
    destruct Hkeys as (before & after & Hcut & Hnotin & Hbefore).
    exists before, after. split; [exact Hcut |]. split; [exact Hnotin |].
    intros u Hu. destruct (Hbefore u Hu) as [[] | Hk].
    apply in_map_iff in Hk. destruct Hk as ([k v] & Hk & Hearlier).
    cbn in Hk. subst k.
    assert (Hv : In (u, v) (PyCounter.Counter tokens))
      by (rewrite Heq; apply in_or_app; now left).
    rewrite <- (Counter_entry tokens u v Hv).
    rewrite Forall_forall in Hpre. apply (Hpre _ Hearlier).
Qed.

(** X8: for a non-empty token list the mode is the token with the largest
    number of occurrences, returned with that number; every token that
    occurs before the first occurrence of the mode occurs strictly fewer
    times, so among equally frequent tokens the one met first wins.  The
    count of the mode does not depend on the order of the tokens (the
    token may). *)
Theorem mode_of_tokens (self : BincomPythonTest) (tokens : list string) :
  color_counter self = Some (PyCounter.Counter tokens) ->
  tokens <> [] ->
  exists token count,
    get_most_common_color self = Ok (token, count)
    /\ count = Z.of_nat (count_occ string_dec tokens token)
    /\ (forall u, Z.of_nat (count_occ string_dec tokens u) <= count)
    /\ (exists before after,
          tokens = (before ++ token :: after)%list
          /\ ~ In token before
          /\ forall u, In u before ->
                       Z.of_nat (count_occ string_dec tokens u) < count)
    /\ (forall tokens', Permutation tokens tokens' ->
          exists token',
            get_most_common_color (loaded tokens') = Ok (token', count)).
Proof.
  intros Hcounter Hne.
  destruct (mode_characterised self tokens Hcounter Hne)
    as (token & count & Hres & Hcount & Hmax & Hfirst).
  exists token, count. repeat split; try assumption.
  intros tokens' Hperm.
  assert (Hne' : tokens' <> []).
  { intros ->. apply Permutation_sym, Permutation_nil in Hperm.
    contradiction. }
  destruct (mode_characterised (loaded tokens') tokens' eq_refl Hne')
    as (token' & count' & Hres' & Hcount' & Hmax' & _).
  exists token'. rewrite Hres'. do 2 f_equal.
  pose proof (Permutation_count_occ string_dec tokens tokens') as [Hocc _].
  specialize (Hocc Hperm).
  specialize (Hmax token'). specialize (Hmax' token).
  rewrite <- Hocc in Hmax', Hcount'. lia.
Qed.

Lemma mode_of_tokens_witness :
  exists token count,
    get_most_common_color (loaded ["ASH"; "RED"; "ASH"; "RED"; "PINK"])
    = Ok (token, count).
Proof.
  destruct (mode_of_tokens (loaded ["ASH"; "RED"; "ASH"; "RED"; "PINK"])
              ["ASH"; "RED"; "ASH"; "RED"; "PINK"] eq_refl
              ltac:(discriminate))
    as (token & count & Hres & _).
  exists token, count. exact Hres.
Defined.

(** ** The median in terms of the token list *)

Lemma sort_expand_Counter (tokens : list string) :
  PyList.sort (expand (PyCounter.Counter tokens)) = PyList.sort tokens.
Proof.
  apply sort_unique; try apply sort_sorted.
  rewrite !sort_perm. apply expand_Counter.
Qed.

Lemma median_of_sorted (self : BincomPythonTest) (tokens : list string) :
  color_counter self = Some (PyCounter.Counter tokens) ->
  get_median_color self
  = PyList.getitem (PyList.sort tokens) (PyList.len tokens / 2).
Proof.
  intros Hcounter.
  rewrite (get_median_color_unfold self _ Hcounter), sort_expand_Counter.
  unfold PyList.len. now rewrite (Permutation_length (sort_perm tokens)).
Qed.

Lemma sorted_around (l1 l2 : list string) (m : string) :
  StronglySorted str_le (l1 ++ m :: l2)%list ->
  Forall (fun x => String.leb x m = true) l1
  /\ Forall (fun x => String.leb m x = true) l2.
Proof.
  induction l1 as [| x l1 IH]; cbn [app]; intros Hsorted;
    inversion Hsorted as [| ? ? Hrest Hall]; subst.
  - split; [constructor | exact Hall].
  - destruct (IH Hrest) as [H1 H2]. split; [| exact H2].
    constructor; [| exact H1].
    rewrite Forall_forall in Hall. apply Hall.
    apply in_or_app. right. now left.
Qed.

Lemma filter_keeps_all {A : Type} (f : A -> bool) (l : list A) :
  Forall (fun x => f x = true) l -> filter f l = l.
Proof.
  induction 1 as [| x l Hx _ IH]; cbn [filter]; [reflexivity |].
  now rewrite Hx, IH.
Qed.

Lemma filter_length_perm {A : Type} (f : A -> bool) (l l' : list A) :
  Permutation l l' ->
  List.length (filter f l) = List.length (filter f l').
Proof.
  induction 1 as [| x l l' _ IH | x y l | l l' l'' _ IH1 _ IH2];
    cbn [filter].
  - reflexivity.
  - destruct (f x); cbn [List.length]; now rewrite IH.
  - destruct (f x), (f y); reflexivity.
  - now rewrite IH1.
Qed.

Lemma leb_refl (s : string) : String.leb s s = true.
Proof. destruct (String.leb_total s s); assumption. Qed.

(** X9: for a non-empty token list the median is one of the tokens; at
    least [n // 2 + 1] of the [n] tokens are lexicographically at most the
    median and at least [n - n // 2] are at least the median; and it is
    the same for every order of the same tokens. *)
Theorem median_of_tokens (self : BincomPythonTest) (tokens : list string) :
  color_counter self = Some (PyCounter.Counter tokens) ->
  tokens <> [] ->
  exists median,
    get_median_color self = Ok median
    /\ In median tokens
    /\ PyList.len tokens / 2 + 1
       <= PyList.len (filter (fun t => String.leb t median) tokens)
    /\ PyList.len tokens - PyList.len tokens / 2
       <= PyList.len (filter (fun t => String.leb median t) tokens)
    /\ (forall tokens', Permutation tokens tokens' ->
                        get_median_color (loaded tokens') = Ok median).
Proof.
  intros Hcounter Hne.
  pose proof (sort_perm tokens) as Hperm.
  pose proof (Permutation_length Hperm) as Hlen.
  assert (Hsorted_ne : PyList.sort tokens <> []).
  { intros Hnil. rewrite Hnil in Hperm.
    apply Permutation_nil in Hperm. contradiction. }
  pose proof (middle_in_range _ Hsorted_ne) as Hmid.
  destruct (getitem_in_range _ _ Hmid) as (median & Hget & Hnth).
  unfold PyList.len in Hget, Hnth, Hmid. rewrite Hlen in Hget, Hnth, Hmid.
  fold (PyList.len tokens) in Hget, Hnth, Hmid.
  exists median.
  split; [rewrite (median_of_sorted self tokens Hcounter); exact Hget |].
  split.
  { apply (Permutation_in _ Hperm). eapply nth_error_In. exact Hnth. }
  destruct (nth_error_split _ _ Hnth) as (l1 & l2 & Hcut & Hl1).
  pose proof (sort_sorted tokens) as Hsorted. rewrite Hcut in Hsorted.
  destruct (sorted_around l1 l2 median Hsorted) as [Hbelow Habove].
  assert (Hl2 : (List.length l1 + S (List.length l2) = List.length tokens)%nat).
  { rewrite <- Hlen, Hcut, length_app. reflexivity. }
  split; [| split].
  - unfold PyList.len at 2.
    rewrite <- (filter_length_perm _ _ _ Hperm), Hcut, filter_app.
    cbn [filter].
    rewrite leb_refl,
      (filter_keeps_all (fun t => String.leb t median) l1 Hbelow).
    rewrite length_app. cbn [List.length]. lia.
  - unfold PyList.len at 3.
    rewrite <- (filter_length_perm _ _ _ Hperm), Hcut, filter_app.
    cbn [filter].
    rewrite leb_refl,
      (filter_keeps_all (fun t => String.leb median t) l2 Habove).
    rewrite length_app. cbn [List.length]. unfold PyList.len in *. lia.
  - intros tokens' Hperm'.
    rewrite (median_of_sorted (loaded tokens') tokens' eq_refl).
    assert (Hsame : PyList.sort tokens' = PyList.sort tokens).
    { apply sort_unique; try apply sort_sorted.
      rewrite !sort_perm. now symmetry. }
    rewrite Hsame. unfold PyList.len.
    rewrite <- (Permutation_length Hperm'). exact Hget.
Qed.

Lemma median_of_tokens_witness :
  exists median,
    get_median_color (loaded ["PINK"; "ASH"; "RED"; "ASH"]) = Ok median.
Proof.
  destruct (median_of_tokens (loaded ["PINK"; "ASH"; "RED"; "ASH"])
              ["PINK"; "ASH"; "RED"; "ASH"] eq_refl ltac:(discriminate))
    as (median & Hres & _).
  exists median. exact Hres.
Defined.

(** ** Probabilities *)

Lemma count_key_all (tokens : list string) (key : list N) :
  Forall (fun token => PyStr.code_points token = key) tokens ->
  count_key tokens key = PyList.len tokens.
Proof.
  unfold count_key, PyList.len.
  induction 1 as [| token tokens Htoken _ IH];
    cbn [map count_occ List.length]; [reflexivity |].
  destruct (list_eq_dec N.eq_dec (PyStr.code_points token) key);
    [| contradiction].
  lia.
Qed.

Lemma count_key_present (tokens : list string) (key : list N) :
  In key (map PyStr.code_points tokens) -> 0 < count_key tokens key.
Proof.
  intros Hin. unfold count_key.
  apply (count_occ_In (list_eq_dec N.eq_dec)) in Hin. lia.
Qed.

(** X10: with a non-empty token list loaded, every probability is a double
    between 0 and 1, and nothing is raised.  It is 0.0 when no token has
    the upper-cased name and 1.0 when every token has it; it is above 0
    when some token has it (fewer than 2^1074 tokens assumed: beyond, the
    quotient can round to zero).  The table is looked up under the
    upper-cased name only: a token that was counted in another spelling,
    and whose upper-case form was not, has probability 0.0. *)
Theorem probability_bounds (self : BincomPythonTest)
    (tokens : list string) (target_color : string) :
  colors self = tokens ->
  color_counter self = Some (PyCounter.Counter tokens) ->
  tokens <> [] ->
  exists p,
    get_color_probability self target_color = Ok p
    /\ (0 <= float_value p <= 1)%Q
    /\ (~ In (PyStr.upper target_color) (map PyStr.code_points tokens) ->
        p = Prim2SF 0)
    /\ (Forall (fun token => PyStr.code_points token
                             = PyStr.upper target_color) tokens ->
        p = Prim2SF 1)
    /\ (In (PyStr.upper target_color) (map PyStr.code_points tokens) ->
        PyList.len tokens < 2 ^ 1074 ->
        (0 < float_value p)%Q).
Proof.
  intros Hcolors Hcounter Hne.
  rewrite (get_color_probability_unfold self tokens target_color
             Hcolors Hcounter).
  pose proof (len_nonempty tokens Hne) as Hlen.
  destruct (truediv_fraction _ _ (count_key_bounds tokens
                                    (PyStr.upper target_color)) Hlen)
    as (p & Hp & Hbounds & Hzero & Hone & Hpositive).
  exists p. split; [exact Hp |]. split; [exact Hbounds |].
  split; [| split].
  - intros Hnot. apply Hzero. now apply count_key_absent.
  - intros Hall. apply Hone. now apply count_key_all.
  - intros Hin Hsize. pose proof (count_key_present _ _ Hin) as Hcount.
    apply Hpositive; [exact Hcount |].
    assert (Hpow : 0 < 2 ^ 1074) by (apply Z.pow_pos_nonneg; lia).
    nia.
Qed.

Lemma probability_bounds_witness :
  get_color_probability (loaded ["red"; "RED"; "blue"]) "blue" = Ok (Prim2SF 0)
  /\ exists p,
       get_color_probability (loaded ["red"; "RED"; "blue"]) "red" = Ok p
       /\ (0 <= float_value p <= 1)%Q.
Proof.
  split; [vm_compute; reflexivity |].
  destruct (probability_bounds (loaded ["red"; "RED"; "blue"])
              ["red"; "RED"; "blue"] "red" eq_refl eq_refl
              ltac:(discriminate))
    as (p & Hp & Hbounds & _).
  exists p. split; assumption.
Defined.

(** ** The sign of the variance *)

(** X12: once the table is set, [get_color_variance] raises nothing but
    [OverflowError], and not even that while the counts are below 2^511.
    An [int] result is never negative, a [float] result is a positive
    double or 0.0, and the result is the [int] 0 exactly when all counts
    of the table are equal (in particular for fewer than two distinct
    tokens).  The counts 1 and 2^600 overflow. *)
Theorem variance_sign (self : BincomPythonTest) (table : PyCounter.t) :
  color_counter self = Some table ->
  (forall e, get_color_variance self = Raise e -> e = OverflowError)
  /\ (Forall (fun x => Z.abs x < 2 ^ 511) (PyCounter.values table) ->
      exists v, get_color_variance self = Ok v)
  /\ (forall z, get_color_variance self = Ok (Int z) -> 0 <= z)
  /\ (forall f, get_color_variance self = Ok (Float f) ->
                f = S754_zero false \/ exists m e, f = S754_finite false m e)
  /\ (get_color_variance self = Ok (Int 0) <->
      forall a b, In a (PyCounter.values table) ->
                  In b (PyCounter.values table) -> a = b)
  /\ get_color_variance
       {| html_file := None;
          colors := [];
          color_counter := Some [("A", 1); ("B", 2 ^ 600)] |}
     = Raise OverflowError.
Proof.
  intros Hself. rewrite (get_color_variance_unfold self table Hself).
  assert (Hvalues : PyList.len (PyCounter.values table) = PyList.len table).
  { unfold PyList.len, PyCounter.values. now rewrite length_map. }
  split; [| split; [| split; [| split; [| split;
    [| vm_compute; reflexivity]]]]];
    destruct (Z.gtb_spec (PyList.len table) 1) as [Hgt | Hle].
  - intros e. apply convert_raises.
  - discriminate.
  - intros Hsmall. apply convert_defined.
    + apply sample_variance_nonneg. lia.
    + apply sample_variance_below; [lia | exact Hsmall].
  - intros _. eexists. reflexivity.
  - intros z Hz. apply convert_integer in Hz.
    pose proof (sample_variance_nonneg (PyCounter.values table) ltac:(lia))
      as Hnonneg.
    rewrite Hz in Hnonneg. change 0%Q with (inject_Z 0) in Hnonneg.
    now rewrite <- Zle_Qle in Hnonneg.
  - intros z [= <-]. lia.
  - intros f. apply convert_float. apply sample_variance_nonneg. lia.
  - discriminate.
  - rewrite (convert_integer _ 0). apply sample_variance_zero. lia.
  - split; [| reflexivity].
    intros _ a b Ha Hb. rewrite <- Hvalues in Hle. unfold PyList.len in Hle.
    destruct (PyCounter.values table) as [| x [| y l]];
      [destruct Ha | | cbn in Hle; lia].
    destruct Ha as [<- | []], Hb as [<- | []]. reflexivity.
Qed.

Lemma variance_sign_witness :
  (forall z, get_color_variance (loaded ten_tokens) = Ok (Int z) -> 0 <= z)
  /\ exists v, get_color_variance (loaded ten_tokens) = Ok v.
Proof.
  destruct (variance_sign (loaded ten_tokens) (PyCounter.Counter ten_tokens)
              eq_refl)
    as (_ & Hdefined & Hint & _).
  split; [exact Hint |].
  apply Hdefined.
  change (PyCounter.values (PyCounter.Counter ten_tokens)) with [3; 4; 1; 1; 1].
  repeat (apply Forall_cons; [reflexivity |]). apply Forall_nil.
Defined.

(** ** A closed form for the Fibonacci sum *)

Lemma sum_fibonacci_value (n : Z) :
  sum_fibonacci (Some n) = sum_first_fib (Z.to_nat n).
Proof.
  unfold sum_fibonacci.
  destruct (Z.leb_spec n 0) as [Hle | Hgt].
  - replace (Z.to_nat n) with 0%nat by lia. reflexivity.
  - change (0, 1, 1) with (fib 0, fib 1, sum_first_fib 1).
    rewrite fib_loop, range_length. cbn [Nat.add].
    replace (S (Z.to_nat (n + 1 - 2))) with (Z.to_nat n) by lia.
    reflexivity.
Qed.

Lemma sum_first_fib_closed (k : nat) : sum_first_fib k = fib (S (S k)) - 1.
Proof.
  induction k as [| k IH]; [reflexivity |].
  change (sum_first_fib (S k)) with (sum_first_fib k + fib (S k)).
  rewrite IH, (fib_SS (S k)). lia.
Qed.

Lemma fib_positive (k : nat) : 0 <= fib k /\ 1 <= fib (S k).
Proof.
  induction k as [| k [IH1 IH2]]; [cbn; lia |].
  split; [lia | rewrite fib_SS; lia].
Qed.

(** X13: for every integer [n], [sum_fibonacci(n)] is
    [F(max(n,0) + 2) - 1]; each further term adds the next Fibonacci
    number, so the sum never decreases with [n] and is never negative. *)
Theorem sum_fibonacci_closed_form (n : Z) :
  sum_fibonacci (Some n) = fib (S (S (Z.to_nat n))) - 1
  /\ (if 0 <=? n then
        sum_fibonacci (Some (n + 1))
        = sum_fibonacci (Some n) + fib (S (Z.to_nat n))
      else sum_fibonacci (Some n) = 0)
  /\ 0 <= sum_fibonacci (Some n) <= sum_fibonacci (Some (n + 1)).
Proof.
  rewrite !sum_fibonacci_value.
  split; [apply sum_first_fib_closed |].
  destruct (Z.leb_spec 0 n) as [Hn | Hn].
  - replace (Z.to_nat (n + 1)) with (S (Z.to_nat n)) by lia.
    cbn [sum_first_fib]. split; [reflexivity |].
    rewrite sum_first_fib_closed.
    pose proof (fib_positive (S (Z.to_nat n))) as [_ H1].
    pose proof (fib_positive (Z.to_nat n)) as [_ H2].
    lia.
  - replace (Z.to_nat n) with 0%nat by lia.
    replace (Z.to_nat (n + 1)) with 0%nat by lia.
    cbn. split; [reflexivity | lia].
Qed.

(** ** The pattern checker on every input *)

Lemma substring_length (s : string) (n m : nat) :
  (String.length (String.substring n m s) <= String.length s - n)%nat.
Proof.
  revert n m. induction s as [| c s IH]; intros n m.
  - destruct n, m; cbn; lia.
  - destruct n as [| n].
    + destruct m as [| m]; cbn; [lia |].
      specialize (IH 0%nat m). lia.
    + cbn. apply IH.
Qed.

Lemma no_window_near_end (s : string) (i : nat) :
  (String.length s < i + 3)%nat -> String.substring i 3 s <> "111".
Proof.
  intros Hshort Heq. pose proof (substring_length s i 3) as Hlen.
  rewrite Heq in Hlen. cbn in Hlen. lia.
Qed.

Lemma calculated_output_length_any (input : string) :
  String.length (calculated_output input)
  = Nat.max (String.length input) 2.
Proof.
  rewrite <- chars_length, calculated_output_chars.
  rewrite length_app, window_bits_length.
  unfold PyStr.len. cbn [List.length]. lia.
Qed.

(** X14: for every input string the computed output has
    [max(len(input), 2)] characters, each of them '0' or '1', and its
    '1's stand exactly at the positions where a full "111" window of the
    input starts. *)
Theorem calculated_output_marks_windows (input : string) :
  String.length (calculated_output input)
  = Nat.max (String.length input) 2
  /\ Forall (fun c => c = "0"%char \/ c = "1"%char)
            (list_ascii_of_string (calculated_output input))
  /\ positions_of "1" (calculated_output input) = window_starts input.
Proof.
  split; [apply calculated_output_length_any |]. split.
  - rewrite calculated_output_chars. apply Forall_app. split.
    + apply Forall_forall. intros c Hc.
      apply in_map_iff in Hc. destruct Hc as (i & <- & _).
      unfold window_bit.
      destruct (String.eqb _ "111"); [now right | now left].
    + repeat constructor; now left.
  - unfold positions_of, window_starts.
    rewrite calculated_output_length_any.
    destruct (Nat.le_gt_cases 2 (String.length input)) as [Hlong | Hshort].
    + rewrite Nat.max_l by assumption.
      apply filter_ext_in. intros i Hi. apply in_seq in Hi.
      destruct (Nat.le_gt_cases (i + 3) (String.length input)) as [Hin | Hout].
      * replace i with (Z.to_nat (Z.of_nat i)) at 1 by apply Nat2Z.id.
        rewrite calculated_output_get by (unfold PyStr.len; lia).
        unfold window_bit.
        rewrite slice_window by (unfold PyStr.len; lia).
        rewrite Nat2Z.id.
        destruct (String.eqb _ "111"); reflexivity.
      * replace i with (Z.to_nat (Z.of_nat i)) at 1 by apply Nat2Z.id.
        rewrite calculated_output_tail by (unfold PyStr.len; lia).
        symmetry. apply String.eqb_neq. apply no_window_near_end. lia.
    + destruct input as [| c [| c' s]]; [reflexivity | | cbn in Hshort; lia].
      vm_compute. destruct c as [[] [] [] [] [] [] [] []]; reflexivity.
Qed.

(** ** The random binary number *)

Lemma generate_unfold (draws : Z -> bool) :
  generate_binary_and_convert draws
  = (let binary_str :=
       ((if draws 0 then "1" else "0") ++ (if draws 1 then "1" else "0")
        ++ (if draws 2 then "1" else "0") ++ (if draws 3 then "1" else "0"))
       %string in
     (binary_str, int_base2 binary_str)).
Proof. reflexivity. Qed.

(** X15: whatever the four draws, [generate_binary_and_convert] returns a
    string of exactly four characters, each '0' or '1', together with the
    integer that this string denotes in base 2: the value is
    [8*d0 + 4*d1 + 2*d2 + d3], between 0 and 15, and two runs with the same
    value have the same string. *)
Theorem generate_binary_and_convert_consistent (draws : Z -> bool) :
  let '(binary_str, decimal_value) := generate_binary_and_convert draws in
  let bit i := if draws i then 1 else 0 in
  String.length binary_str = 4%nat
  /\ Forall (fun c => c = "0"%char \/ c = "1"%char)
            (list_ascii_of_string binary_str)
  /\ decimal_value = Some (8 * bit 0 + 4 * bit 1 + 2 * bit 2 + bit 3)
  /\ (exists v, decimal_value = Some v /\ 0 <= v <= 15)
  /\ (forall draws',
        snd (generate_binary_and_convert draws') = decimal_value ->
        fst (generate_binary_and_convert draws') = binary_str).
Proof.
  rewrite generate_unfold. cbv beta iota zeta.
  destruct (draws 0), (draws 1), (draws 2), (draws 3);
    (split; [reflexivity |]);
    (split; [cbn; repeat (apply Forall_cons; [first [now left | now right] |]);
             apply Forall_nil |]);
    (split; [reflexivity |]);
    (split; [eexists; split; [reflexivity | vm_compute; split; discriminate] |]);
    intros draws'; rewrite generate_unfold; cbv zeta; cbn [fst snd];
    destruct (draws' 0), (draws' 1), (draws' 2), (draws' 3);
    intros Hv; first [reflexivity | discriminate Hv].
Qed.

(** ** The distribution listing *)

Lemma insert_by_count_perm (item : string * Z) (l : list (string * Z)) :
  Permutation (insert_by_count item l) (item :: l).
Proof.
  induction l as [| y l IH]; cbn [insert_by_count].
  - apply Permutation_refl.
  - destruct (snd item >? snd y); [apply Permutation_refl |].
    rewrite IH. apply perm_swap.
Qed.

Lemma insert_by_count_sorted (item : string * Z) (l : list (string * Z)) :
  StronglySorted count_ge l -> StronglySorted count_ge (insert_by_count item l).
Proof.
  induction 1 as [| y l Hsorted IH Hall]; cbn [insert_by_count].
  - repeat constructor.
  - destruct (Z.gtb_spec (snd item) (snd y)) as [Hgt | Hle].
    + constructor; [constructor; assumption |].
      constructor; [unfold count_ge; lia |].
      eapply Forall_impl; [| exact Hall].
      unfold count_ge. intros z Hz. lia.
    + constructor; [assumption |].
      apply (Permutation_Forall (Permutation_sym (insert_by_count_perm item l))).
      constructor; [unfold count_ge; lia | assumption].
Qed.

Lemma with_count_below (v : Z) (l : list (string * Z)) :
  Forall (fun item => snd item < v) l -> with_count v l = [].
Proof.
  unfold with_count.
  induction 1 as [| y l Hy _ IH]; cbn [filter]; [reflexivity |].
  destruct (Z.eqb_spec (snd y) v); [lia | exact IH].
Qed.

Lemma with_count_cons (v : Z) (y : string * Z) (l : list (string * Z)) :
  with_count v (y :: l)
  = if snd y =? v then y :: with_count v l else with_count v l.
Proof. reflexivity. Qed.

(** An inserted item goes behind the items of its own count. *)
Lemma insert_by_count_stable (item : string * Z) (l : list (string * Z))
    (v : Z) :
  StronglySorted count_ge l ->
  with_count v (insert_by_count item l)
  = (with_count v l ++ with_count v [item])%list.
Proof.
  induction 1 as [| y l Hsorted IH Hall]; cbn [insert_by_count].
  - reflexivity.
  - destruct (Z.gtb_spec (snd item) (snd y)) as [Hgt | Hle].
    + rewrite (with_count_cons v item (y :: l)), (with_count_cons v item []).
      destruct (Z.eqb_spec (snd item) v) as [Hv | Hv];
        [| now rewrite app_nil_r].
      rewrite (with_count_below v (y :: l)); [reflexivity |].
      constructor; [lia |].
      eapply Forall_impl; [| exact Hall].
      unfold count_ge. intros z Hz. lia.
    + rewrite (with_count_cons v y (insert_by_count item l)),
        (with_count_cons v y l), IH.
      destruct (snd y =? v); reflexivity.
Qed.

Lemma sorted_by_count_loop (items acc : list (string * Z)) :
  StronglySorted count_ge acc ->
  let lines := fold_left (fun acc item => insert_by_count item acc) items acc in
  StronglySorted count_ge lines
  /\ Permutation lines (acc ++ items)%list
  /\ forall v, with_count v lines
               = (with_count v acc ++ with_count v items)%list.
Proof.
  revert acc. induction items as [| item items IH]; intros acc Hacc;
    cbn [fold_left].
  - rewrite app_nil_r. repeat split; try assumption.
    + apply Permutation_refl.
    + intros v. now rewrite app_nil_r.
  - destruct (IH (insert_by_count item acc)
                (insert_by_count_sorted item acc Hacc))
      as (Hsorted & Hperm & Hstable).
    repeat split; [assumption | |].
    + rewrite Hperm, insert_by_count_perm. apply Permutation_middle.
    + intros v. rewrite Hstable, insert_by_count_stable by assumption.
      rewrite <- app_assoc. f_equal.
      rewrite (with_count_cons v item items), (with_count_cons v item []).
      destruct (snd item =? v); reflexivity.
Qed.

(** X16: the distribution that [run_analysis] prints lists every entry of
    the table exactly once, with counts that never increase down the
    list, entries of equal count in table order; its first line is the
    pair that [get_most_common_color] returns. *)
Theorem color_distribution_sorted
    (self : BincomPythonTest) (table : PyCounter.t) :
  color_counter self = Some table ->
  exists lines,
    color_distribution self = Ok lines
    /\ Permutation lines table
    /\ StronglySorted count_ge lines
    /\ (forall v, with_count v lines = with_count v table)
    /\ get_most_common_color self = PyList.getitem lines 0.
Proof.
  intros Hself. unfold color_distribution, get_most_common_color, the_counter.
  rewrite Hself. cbn [bind].
  destruct (sorted_by_count_loop table [] (SSorted_nil _))
    as (Hsorted & Hperm & Hstable).
  fold (sorted_by_count table) in Hsorted, Hperm, Hstable.
  cbn [app] in Hperm.
  exists (sorted_by_count table).
  split; [reflexivity |]. split; [exact Hperm |]. split; [exact Hsorted |].
  split; [exact Hstable |].
  destruct table as [| first rest]; [reflexivity |].
  cbn [PyCounter.most_common_1].
  destruct (max_scan rest [] [] first) as (pre & post & Heq & Hpre & Hpost);
    [constructor | constructor |].
  cbn [app] in Heq.
  set (best := PyCounter.max_by_count first rest) in *.
  destruct (sorted_by_count (first :: rest)) as [| top lines] eqn:Hlines.
  { apply Permutation_nil in Hperm. discriminate. }
  change (PyList.getitem [best] 0) with (Ok best).
  change (PyList.getitem (top :: lines) 0) with (Ok top).
  f_equal.
  assert (Htop : snd top = snd best).
  { inversion Hsorted as [| ? ? _ Hall]; subst.
    assert (Hbest : In best (top :: lines)).
    { apply (Permutation_in _ (Permutation_sym Hperm)).
      rewrite Heq. apply in_or_app. right. now left. }
    assert (Hin : In top (first :: rest))
      by (apply (Permutation_in _ Hperm); now left).
    rewrite Heq in Hin.
    assert (snd top <= snd best).
    { apply in_app_or in Hin. destruct Hin as [Hin | [<- | Hin]].
      - rewrite Forall_forall in Hpre. specialize (Hpre _ Hin). lia.
      - lia.
      - rewrite Forall_forall in Hpost. now apply Hpost. }
    destruct Hbest as [<- | Hbest]; [reflexivity |].
    rewrite Forall_forall in Hall. specialize (Hall _ Hbest).
    unfold count_ge in Hall. lia. }
  specialize (Hstable (snd best)).
  rewrite Heq in Hstable.
  unfold with_count in Hstable. rewrite filter_app in Hstable.
  fold (with_count (snd best) pre) in Hstable.
  rewrite (with_count_below _ pre Hpre) in Hstable.
  cbn [filter app] in Hstable.
  rewrite Htop, !Z.eqb_refl in Hstable.
  congruence.
Qed.

Lemma color_distribution_sorted_witness :
  color_distribution (loaded ["ASH"; "RED"; "PINK"; "RED"; "PINK"])
  = Ok [("RED", 2); ("PINK", 2); ("ASH", 1)]
  /\ exists lines,
       color_distribution (loaded ["ASH"; "RED"; "PINK"; "RED"; "PINK"])
       = Ok lines.
Proof.
  split; [reflexivity |].
  destruct (color_distribution_sorted
              (loaded ["ASH"; "RED"; "PINK"; "RED"; "PINK"])
              (PyCounter.Counter ["ASH"; "RED"; "PINK"; "RED"; "PINK"])
              eq_refl)
    as (lines & Hlines & _).
  exists lines. exact Hlines.
Defined.

(** ** An upper bound beyond the list *)

Lemma getitem_beyond {A : Type} (l : list A) (i : Z) :
  PyList.len l <= i -> PyList.getitem l i = Raise IndexError.
Proof.
  intros Hi. unfold PyList.getitem.
  assert (0 <= PyList.len l) by (unfold PyList.len; lia).
  destruct (Z.ltb_spec i 0); [lia |].
  destruct (Z.leb_spec 0 i); [| lia].
  destruct (Z.ltb_spec i (PyList.len l)); [lia | reflexivity].
Qed.

Lemma search_range_overrun (numbers : list Z) (target start end_ : Z) :
  Forall (fun x => x < target) numbers ->
  0 <= start <= PyList.len numbers -> PyList.len numbers <= end_ ->
  search_range numbers target start end_ = Raise IndexError.
Proof.
  intros Hsmall.
  funelim (search_range numbers target start end_); intros Hstart Hend.
  2-5: pose proof (midpoint_bounds start end_ ltac:(lia)) as Hmid;
       destruct (Z_lt_dec ((start + end_) / 2) (PyList.len numbers))
         as [Hin | Hout];
       [ destruct (getitem_in_range numbers ((start + end_) / 2) ltac:(lia))
           as (x' & Hget & Hnth);
         match goal with
         | Hq : PyList.getitem _ _ = _ |- _ =>
             rewrite Hget in Hq; try discriminate Hq;
             injection Hq as Hq; subst x';
             pose proof (proj1 (Forall_forall _ _) Hsmall _
                           (nth_error_In _ _ Hnth)) as Hx;
             cbv beta in Hx
         end
       | match goal with
         | Hq : PyList.getitem _ _ = _ |- _ =>
             rewrite getitem_beyond in Hq by lia;
             try discriminate Hq; congruence
         end ].
  - lia.
  - match goal with
    | Hq : (_ =? target) = true |- _ => apply Z.eqb_eq in Hq; lia
    end.
  - match goal with
    | Hq : (_ >? target) = true |- _ => apply Z.gtb_lt in Hq; lia
    end.
  - match goal with
    | IH : Forall _ _ -> _ |- _ => apply IH; [assumption | lia | lia]
    end.
Qed.

(** X17: the upper bound is an inclusive index.  Called with
    [end >= len(numbers)] (for instance [end = len(numbers)]) for a target
    larger than every element, the search walks past the last element and
    raises [IndexError] instead of returning -1. *)
Theorem recursive_search_overrun (numbers : list Z) (target end_ : Z) :
  Forall (fun x => x < target) numbers ->
  PyList.len numbers <= end_ ->
  recursive_search numbers target None (Some end_) = Raise IndexError
  /\ recursive_search numbers target None None = Ok (-1).
Proof.
  intros Hsmall Hend. split.
  - unfold recursive_search. apply search_range_overrun; try assumption.
    unfold PyList.len. lia.
  - destruct (search_range_sound numbers target 0 (PyList.len numbers - 1))
      as (i & Hres & Hi); [lia | lia |].
    unfold recursive_search. rewrite Hres.
    destruct Hi as [-> | [_ Hnth]]; [reflexivity | exfalso].
    rewrite Forall_forall in Hsmall.
    specialize (Hsmall target (nth_error_In _ _ Hnth)). lia.
Qed.

Lemma recursive_search_overrun_witness :
  recursive_search demo_list 100 None (Some 10) = Raise IndexError.
Proof.
  apply (recursive_search_overrun demo_list 100 10).
  - repeat constructor.
  - vm_compute. discriminate.
Defined.

(** ** The misspellings are counted under the right name *)

Lemma count_kept (f : string -> string) (raw : list string) (x : string) :
  PyStr.truthy x = true ->
  Z.of_nat (count_occ string_dec (filter PyStr.truthy (map f raw)) x)
  = PyList.len (filter (fun token => String.eqb (f token) x) raw).
Proof.
  intros Hx. unfold PyList.len.
  induction raw as [| token raw IH]; cbn [map filter]; [reflexivity |].
  destruct (String.eqb_spec (f token) x) as [Heq | Hne].
  - rewrite Heq, Hx. cbn [count_occ List.length].
    destruct (string_dec x x); [lia | contradiction].
  - destruct (PyStr.truthy (f token)); [| exact IH].
    cbn [count_occ]. destruct (string_dec (f token) x); [contradiction | exact IH].
Qed.

(** X18: after the rows are collected, the table counts under "BLUE" every
    raw token that strips to "BLUE" or to "BLEW", and under "ASH" every one
    that strips to "ASH" or to "ARSH"; "BLEW" and "ARSH" themselves never
    get a count.  Stripping takes away every white space of [str.strip()]:
    a "BLEW" behind a no-break space and a "BLUE" before a next-line
    control are both counted under "BLUE", a "BLEW" behind an escape
    character is not. *)
Theorem typos_are_merged (rows : list (string * string)) :
  let table := PyCounter.Counter (collect_colors rows) in
  PyCounter.get table "BLUE" 0 = spelled ["BLUE"; "BLEW"] (raw_tokens rows)
  /\ PyCounter.get table "ASH" 0 = spelled ["ASH"; "ARSH"] (raw_tokens rows)
  /\ PyCounter.get table "BLEW" 0 = 0
  /\ PyCounter.get table "ARSH" 0 = 0
  /\ ~ In "BLEW" (map fst table) /\ ~ In "ARSH" (map fst table)
  /\ PyCounter.Counter
       (collect_colors
          [("MONDAY",
            String "160" "BLEW" ++ ",BLUE" ++ String "133" ","
              ++ String "027" "BLEW")])
     = [("BLUE", 2); (String "027" "BLEW", 1)].
Proof.
  intros table. subst table.
  assert (Hcolors : collect_colors rows
                    = filter PyStr.truthy
                        (map (fun t => fix_typo (PyStr.strip t))
                             (raw_tokens rows))).
  { unfold collect_colors. rewrite collect_loop. cbn [app].
    now rewrite clean_colors_spec, map_map. }
  assert (Hcount : forall x spellings,
            PyStr.truthy x = true ->
            (forall t, String.eqb (fix_typo t) x
                       = existsb (String.eqb t) spellings) ->
            PyCounter.get (PyCounter.Counter (collect_colors rows)) x 0
            = spelled spellings (raw_tokens rows)).
  { intros x spellings Hx Hsame.
    rewrite Counter_get, Hcolors, count_kept by exact Hx.
    unfold spelled. f_equal. apply filter_ext. intros t. apply Hsame. }
  assert (Hfix : forall t x,
            String.eqb (fix_typo t) x
            = if String.eqb t "BLEW" then String.eqb "BLUE" x
              else if String.eqb t "ARSH" then String.eqb "ASH" x
              else String.eqb t x).
  { intros t x. unfold fix_typo.
    destruct (String.eqb t "BLEW"); [reflexivity |].
    destruct (String.eqb t "ARSH"); reflexivity. }
  assert (Hnone : forall x,
            PyStr.truthy x = true ->
            (forall t, String.eqb (fix_typo t) x = false) ->
            PyCounter.get (PyCounter.Counter (collect_colors rows)) x 0 = 0
            /\ ~ In x (map fst (PyCounter.Counter (collect_colors rows)))).
  { intros x Hx Hnever.
    assert (Hzero : PyCounter.get (PyCounter.Counter (collect_colors rows)) x 0
                    = 0).
    { rewrite (Hcount x [] Hx) by (intros t; rewrite Hnever; reflexivity).
      unfold spelled. cbn [existsb].
      generalize (raw_tokens rows) as raw.
      induction raw as [| t raw IH]; [reflexivity | exact IH]. }
    split; [exact Hzero |].
    intros Hkey. apply in_map_iff in Hkey.
    destruct Hkey as ([k v] & Hk & Hitem). cbn in Hk. subst k.
    pose proof (Counter_entry _ _ _ Hitem) as Hv.
    rewrite <- Counter_get, Hzero in Hv.
    pose proof (Counter_positive (collect_colors rows)) as Hpos.
    rewrite Forall_forall in Hpos. specialize (Hpos _ Hitem).
    cbn in Hpos. lia. }
  split; [| split].
  - apply Hcount; [reflexivity |]. intros t. rewrite Hfix. cbn [existsb].
    destruct (String.eqb_spec t "BLEW") as [-> | _]; [reflexivity |].
    destruct (String.eqb_spec t "ARSH") as [-> | _]; [reflexivity |].
    destruct (String.eqb t "BLUE"); reflexivity.
  - apply Hcount; [reflexivity |]. intros t. rewrite Hfix. cbn [existsb].
    destruct (String.eqb_spec t "BLEW") as [-> | _]; [reflexivity |].
    destruct (String.eqb_spec t "ARSH") as [-> | _]; [reflexivity |].
    destruct (String.eqb t "ASH"); reflexivity.
  - assert (Hblew : forall t, String.eqb (fix_typo t) "BLEW" = false).
    { intros t. rewrite Hfix.
      destruct (String.eqb_spec t "BLEW") as [-> | Hne]; [reflexivity |].
      destruct (String.eqb_spec t "ARSH") as [-> | _]; reflexivity. }
    assert (Harsh : forall t, String.eqb (fix_typo t) "ARSH" = false).
    { intros t. rewrite Hfix.
      destruct (String.eqb_spec t "BLEW") as [-> | _]; [reflexivity |].
      destruct (String.eqb_spec t "ARSH") as [-> | Hne]; reflexivity. }
    destruct (Hnone "BLEW" eq_refl Hblew) as [H1 H2].
    destruct (Hnone "ARSH" eq_refl Harsh) as [H3 H4].
    split; [exact H1 |]. split; [exact H3 |]. split; [exact H2 |].
    split; [exact H4 | reflexivity].
Qed.
